(** * NanoboyAdvance: bus, I/O registers, timers, PPU stepping and IRQ entry

    A shallow embedding of the parts of the emulator core that the
    specification's testable properties talk about:

    - [GBAMemory] (memory.cpp): [ReadByte], [ReadHWord], [ReadWord],
      [WriteByte], [WriteHWord], [WriteWord], [SequentialAccess],
      [NonSequentialAccess], [RunTimer];
    - [GBAVideo::Step] (video.cpp);
    - [ARM7::FireIRQ] and [ARM7::RemapRegisters] (arm7.cpp);
    - [CPU::UpdateCycleLUT] (cpu.cpp).

    The renderer, the DMA transfer loop, the instruction interpreter and
    the scheduler are not part of this development.

    Machine integers are values of [Z]; every store into a fixed-width
    C++ variable is written with its truncation ([u8], [u16], [u32]).
    Fixed-size byte arrays are total functions from the index to the byte
    stored there; the index computations of the source are kept, so every
    index the source can produce is visible in the model. *)

From Stdlib Require Import ZArith Lia Bool List.
From stdpp Require Import base tactics list vector.
Import ListNotations.

Local Open Scope Z_scope.

(** ** Fixed-width integers and C++ conversions *)

Module Types.

Definition u8 (x : Z) : Z := x mod 2 ^ 8.
Definition u16 (x : Z) : Z := x mod 2 ^ 16.
Definition u32 (x : Z) : Z := x mod 2 ^ 32.

(** Conversion of an integer to [bool] ([b = value & 16;]). *)
Definition to_bool (x : Z) : bool := negb (x =? 0).

(** A fixed-size array of bytes, indexed from 0. *)
Definition bytes : Type := Z -> Z.

Definition store (a : bytes) (i v : Z) : bytes :=
  fun j => if j =? i then v else a j.

(** [memset(a, 0, n)]. *)
Definition zeroed : bytes := fun _ => 0.

(** Index into a four-element array. *)
Definition idx4 (n : Z) : fin 4 :=
  match n with
  | 0 => 0%fin
  | 1 => 1%fin
  | 2 => 2%fin
  | _ => 3%fin
  end.

Definition idx3 (n : Z) : fin 3 :=
  match n with
  | 0 => 0%fin
  | 1 => 1%fin
  | _ => 2%fin
  end.

Definition idx2 (n : Z) : fin 2 :=
  match n with
  | 0 => 0%fin
  | _ => 1%fin
  end.

(** A C++ [switch] whose case groups all end in [break] or [return]:
    the first group that lists the scrutinee is taken. *)
Fixpoint switch {A : Type} (x : Z) (cases : list (list Z * A)) (default : A) : A :=
  match cases with
  | [] => default
  | (labels, body) :: rest =>
      if existsb (Z.eqb x) labels then body else switch x rest default
  end.

End Types.

Import Types.

(** ** interrupt.h *)

Module Interrupt.

(** Modelled from the spec: interrupt.h is not among the sources.  The
    structure holds the three interrupt registers IE, IF and IME, each
    read and written as two bytes by [ReadByte] and [WriteByte]. *)
Record GBAInterrupt : Type := Build_GBAInterrupt {
  ie : Z;
  if_ : Z;
  ime : Z
}.

Definition set_ie (a : Z) (r : GBAInterrupt) : GBAInterrupt :=
  Build_GBAInterrupt a (if_ r) (ime r).
Definition set_if_ (a : Z) (r : GBAInterrupt) : GBAInterrupt :=
  Build_GBAInterrupt (ie r) a (ime r).
Definition set_ime (a : Z) (r : GBAInterrupt) : GBAInterrupt :=
  Build_GBAInterrupt (ie r) (if_ r) a.

End Interrupt.

Import Interrupt.

(** ** video.h, video.cpp *)

Module Video.

Definition VBLANK_INTERRUPT : Z := 1.
Definition HBLANK_INTERRUPT : Z := 2.
Definition VCOUNT_INTERRUPT : Z := 4.

Inductive GBAVideoState : Type := Scanline | HBlank | VBlank.

(** The result of [DecodeGBAFloat32]: the C++ [float]
    [int_part + (is_negative ? -frac_part : frac_part)] with
    [frac_part] counted in 1/256.  The value is kept as the three
    components it is computed from; floating-point rounding and the
    narrowing on assignment are outside this model. *)
Record GBAFloat : Type := Build_GBAFloat {
  is_negative : bool;
  int_part : Z;
  frac_part : Z
}.

Definition s32 (x : Z) : Z :=
  let x := u32 x in if x <? 2 ^ 31 then x else x - 2 ^ 32.

Definition DecodeGBAFloat32 (number : Z) : GBAFloat :=
  let number := u32 number in
  let is_negative := to_bool (Z.land number (Z.shiftl 1 27)) in
  let int_part :=
    s32 (Z.lor (Z.shiftr (Z.land number (Z.lnot 0xF0000000)) 8)
               (if is_negative then 0xFFF00000 else 0)) in
  Build_GBAFloat is_negative int_part (Z.land number 0xFF).

Module Background.

Record Background : Type := Build_Background {
  enable : bool;
  mosaic : bool;
  true_color : bool;
  wraparound : bool;
  priority : Z;
  size : Z;
  tile_base : Z;
  map_base : Z;
  x : Z;
  y : Z;
  x_ref : Z;
  y_ref : Z;
  x_ref_int : GBAFloat;
  y_ref_int : GBAFloat;
  pa : Z;
  pb : Z;
  pc : Z;
  pd : Z
}.

Definition set_enable (a : bool) (r : Background) : Background :=
  Build_Background a (mosaic r) (true_color r) (wraparound r) (priority r) (size r) (tile_base r) (map_base r) (x r) (y r) (x_ref r) (y_ref r) (x_ref_int r) (y_ref_int r) (pa r) (pb r) (pc r) (pd r).
Definition set_mosaic (a : bool) (r : Background) : Background :=
  Build_Background (enable r) a (true_color r) (wraparound r) (priority r) (size r) (tile_base r) (map_base r) (x r) (y r) (x_ref r) (y_ref r) (x_ref_int r) (y_ref_int r) (pa r) (pb r) (pc r) (pd r).
Definition set_true_color (a : bool) (r : Background) : Background :=
  Build_Background (enable r) (mosaic r) a (wraparound r) (priority r) (size r) (tile_base r) (map_base r) (x r) (y r) (x_ref r) (y_ref r) (x_ref_int r) (y_ref_int r) (pa r) (pb r) (pc r) (pd r).
Definition set_wraparound (a : bool) (r : Background) : Background :=
  Build_Background (enable r) (mosaic r) (true_color r) a (priority r) (size r) (tile_base r) (map_base r) (x r) (y r) (x_ref r) (y_ref r) (x_ref_int r) (y_ref_int r) (pa r) (pb r) (pc r) (pd r).
Definition set_priority (a : Z) (r : Background) : Background :=
  Build_Background (enable r) (mosaic r) (true_color r) (wraparound r) a (size r) (tile_base r) (map_base r) (x r) (y r) (x_ref r) (y_ref r) (x_ref_int r) (y_ref_int r) (pa r) (pb r) (pc r) (pd r).
Definition set_size (a : Z) (r : Background) : Background :=
  Build_Background (enable r) (mosaic r) (true_color r) (wraparound r) (priority r) a (tile_base r) (map_base r) (x r) (y r) (x_ref r) (y_ref r) (x_ref_int r) (y_ref_int r) (pa r) (pb r) (pc r) (pd r).
Definition set_tile_base (a : Z) (r : Background) : Background :=
  Build_Background (enable r) (mosaic r) (true_color r) (wraparound r) (priority r) (size r) a (map_base r) (x r) (y r) (x_ref r) (y_ref r) (x_ref_int r) (y_ref_int r) (pa r) (pb r) (pc r) (pd r).
Definition set_map_base (a : Z) (r : Background) : Background :=
  Build_Background (enable r) (mosaic r) (true_color r) (wraparound r) (priority r) (size r) (tile_base r) a (x r) (y r) (x_ref r) (y_ref r) (x_ref_int r) (y_ref_int r) (pa r) (pb r) (pc r) (pd r).
Definition set_x (a : Z) (r : Background) : Background :=
  Build_Background (enable r) (mosaic r) (true_color r) (wraparound r) (priority r) (size r) (tile_base r) (map_base r) a (y r) (x_ref r) (y_ref r) (x_ref_int r) (y_ref_int r) (pa r) (pb r) (pc r) (pd r).
Definition set_y (a : Z) (r : Background) : Background :=
  Build_Background (enable r) (mosaic r) (true_color r) (wraparound r) (priority r) (size r) (tile_base r) (map_base r) (x r) a (x_ref r) (y_ref r) (x_ref_int r) (y_ref_int r) (pa r) (pb r) (pc r) (pd r).
Definition set_x_ref (a : Z) (r : Background) : Background :=
  Build_Background (enable r) (mosaic r) (true_color r) (wraparound r) (priority r) (size r) (tile_base r) (map_base r) (x r) (y r) a (y_ref r) (x_ref_int r) (y_ref_int r) (pa r) (pb r) (pc r) (pd r).
Definition set_y_ref (a : Z) (r : Background) : Background :=
  Build_Background (enable r) (mosaic r) (true_color r) (wraparound r) (priority r) (size r) (tile_base r) (map_base r) (x r) (y r) (x_ref r) a (x_ref_int r) (y_ref_int r) (pa r) (pb r) (pc r) (pd r).
Definition set_x_ref_int (a : GBAFloat) (r : Background) : Background :=
  Build_Background (enable r) (mosaic r) (true_color r) (wraparound r) (priority r) (size r) (tile_base r) (map_base r) (x r) (y r) (x_ref r) (y_ref r) a (y_ref_int r) (pa r) (pb r) (pc r) (pd r).
Definition set_y_ref_int (a : GBAFloat) (r : Background) : Background :=
  Build_Background (enable r) (mosaic r) (true_color r) (wraparound r) (priority r) (size r) (tile_base r) (map_base r) (x r) (y r) (x_ref r) (y_ref r) (x_ref_int r) a (pa r) (pb r) (pc r) (pd r).
Definition set_pa (a : Z) (r : Background) : Background :=
  Build_Background (enable r) (mosaic r) (true_color r) (wraparound r) (priority r) (size r) (tile_base r) (map_base r) (x r) (y r) (x_ref r) (y_ref r) (x_ref_int r) (y_ref_int r) a (pb r) (pc r) (pd r).
Definition set_pb (a : Z) (r : Background) : Background :=
  Build_Background (enable r) (mosaic r) (true_color r) (wraparound r) (priority r) (size r) (tile_base r) (map_base r) (x r) (y r) (x_ref r) (y_ref r) (x_ref_int r) (y_ref_int r) (pa r) a (pc r) (pd r).
Definition set_pc (a : Z) (r : Background) : Background :=
  Build_Background (enable r) (mosaic r) (true_color r) (wraparound r) (priority r) (size r) (tile_base r) (map_base r) (x r) (y r) (x_ref r) (y_ref r) (x_ref_int r) (y_ref_int r) (pa r) (pb r) a (pd r).
Definition set_pd (a : Z) (r : Background) : Background :=
  Build_Background (enable r) (mosaic r) (true_color r) (wraparound r) (priority r) (size r) (tile_base r) (map_base r) (x r) (y r) (x_ref r) (y_ref r) (x_ref_int r) (y_ref_int r) (pa r) (pb r) (pc r) a.

(** Member initialisers of [struct Background]. *)
Definition init : Background :=
  Build_Background false false false false 0 0 0 0 0 0 0 0
    (Build_GBAFloat false 0 0) (Build_GBAFloat false 0 0) 0 0 0 0.

End Background.

Module Object.

Record Object : Type := Build_Object {
  enable : bool;
  hblank_access : bool;
  two_dimensional : bool
}.

Definition set_enable (a : bool) (r : Object) : Object :=
  Build_Object a (hblank_access r) (two_dimensional r).
Definition set_hblank_access (a : bool) (r : Object) : Object :=
  Build_Object (enable r) a (two_dimensional r).
Definition set_two_dimensional (a : bool) (r : Object) : Object :=
  Build_Object (enable r) (hblank_access r) a.

Definition init : Object := Build_Object false false false.

End Object.

Module Window.

Record Window : Type := Build_Window {
  enable : bool;
  bg_in : vec bool 4;
  obj_in : bool;
  sfx_in : bool;
  left : Z;
  right : Z;
  top : Z;
  bottom : Z
}.

Definition set_enable (a : bool) (r : Window) : Window :=
  Build_Window a (bg_in r) (obj_in r) (sfx_in r) (left r) (right r) (top r) (bottom r).
Definition set_bg_in (a : vec bool 4) (r : Window) : Window :=
  Build_Window (enable r) a (obj_in r) (sfx_in r) (left r) (right r) (top r) (bottom r).
Definition set_obj_in (a : bool) (r : Window) : Window :=
  Build_Window (enable r) (bg_in r) a (sfx_in r) (left r) (right r) (top r) (bottom r).
Definition set_sfx_in (a : bool) (r : Window) : Window :=
  Build_Window (enable r) (bg_in r) (obj_in r) a (left r) (right r) (top r) (bottom r).
Definition set_left (a : Z) (r : Window) : Window :=
  Build_Window (enable r) (bg_in r) (obj_in r) (sfx_in r) a (right r) (top r) (bottom r).
Definition set_right (a : Z) (r : Window) : Window :=
  Build_Window (enable r) (bg_in r) (obj_in r) (sfx_in r) (left r) a (top r) (bottom r).
Definition set_top (a : Z) (r : Window) : Window :=
  Build_Window (enable r) (bg_in r) (obj_in r) (sfx_in r) (left r) (right r) a (bottom r).
Definition set_bottom (a : Z) (r : Window) : Window :=
  Build_Window (enable r) (bg_in r) (obj_in r) (sfx_in r) (left r) (right r) (top r) a.

Definition init : Window :=
  Build_Window false [# false; false; false; false] false false 0 0 0 0.

End Window.

Module WindowOuter.

Record WindowOuter : Type := Build_WindowOuter {
  bg : vec bool 4;
  obj : bool;
  sfx : bool
}.

Definition set_bg (a : vec bool 4) (r : WindowOuter) : WindowOuter :=
  Build_WindowOuter a (obj r) (sfx r).
Definition set_obj (a : bool) (r : WindowOuter) : WindowOuter :=
  Build_WindowOuter (bg r) a (sfx r).
Definition set_sfx (a : bool) (r : WindowOuter) : WindowOuter :=
  Build_WindowOuter (bg r) (obj r) a.

Definition init : WindowOuter :=
  Build_WindowOuter [# false; false; false; false] false false.

End WindowOuter.

Module ObjectWindow.

Record ObjectWindow : Type := Build_ObjectWindow {
  enable : bool
}.

Definition set_enable (a : bool) (r : ObjectWindow) : ObjectWindow :=
  Build_ObjectWindow a.

Definition init : ObjectWindow := Build_ObjectWindow false.

End ObjectWindow.

(** The members of [class GBAVideo] other than the line and frame
    buffers, which only [Render] touches.  [m_Interrupt] is a pointer
    to the structure shared with [GBAMemory]; the functions below take
    and return that structure next to the video state. *)
Record GBAVideo : Type := Build_GBAVideo {
  m_BG : vec Background.Background 4;
  m_Obj : Object.Object;
  m_Win : vec Window.Window 2;
  m_WinOut : WindowOuter.WindowOuter;
  m_ObjWin : ObjectWindow.ObjectWindow;
  m_Ticks : Z;
  m_State : GBAVideoState;
  m_RenderScanline : bool;
  m_PAL : bytes;
  m_VRAM : bytes;
  m_OAM : bytes;
  m_HBlankDMA : bool;
  m_VBlankDMA : bool;
  m_VCount : Z;
  m_VideoMode : Z;
  m_FrameSelect : bool;
  m_ForcedBlank : bool;
  m_VCountFlag : bool;
  m_VBlankIRQ : bool;
  m_HBlankIRQ : bool;
  m_VCountIRQ : bool;
  m_VCountSetting : Z
}.

Definition set_m_BG (a : vec Background.Background 4) (r : GBAVideo) : GBAVideo :=
  Build_GBAVideo a (m_Obj r) (m_Win r) (m_WinOut r) (m_ObjWin r) (m_Ticks r) (m_State r) (m_RenderScanline r) (m_PAL r) (m_VRAM r) (m_OAM r) (m_HBlankDMA r) (m_VBlankDMA r) (m_VCount r) (m_VideoMode r) (m_FrameSelect r) (m_ForcedBlank r) (m_VCountFlag r) (m_VBlankIRQ r) (m_HBlankIRQ r) (m_VCountIRQ r) (m_VCountSetting r).
Definition set_m_Obj (a : Object.Object) (r : GBAVideo) : GBAVideo :=
  Build_GBAVideo (m_BG r) a (m_Win r) (m_WinOut r) (m_ObjWin r) (m_Ticks r) (m_State r) (m_RenderScanline r) (m_PAL r) (m_VRAM r) (m_OAM r) (m_HBlankDMA r) (m_VBlankDMA r) (m_VCount r) (m_VideoMode r) (m_FrameSelect r) (m_ForcedBlank r) (m_VCountFlag r) (m_VBlankIRQ r) (m_HBlankIRQ r) (m_VCountIRQ r) (m_VCountSetting r).
Definition set_m_Win (a : vec Window.Window 2) (r : GBAVideo) : GBAVideo :=
  Build_GBAVideo (m_BG r) (m_Obj r) a (m_WinOut r) (m_ObjWin r) (m_Ticks r) (m_State r) (m_RenderScanline r) (m_PAL r) (m_VRAM r) (m_OAM r) (m_HBlankDMA r) (m_VBlankDMA r) (m_VCount r) (m_VideoMode r) (m_FrameSelect r) (m_ForcedBlank r) (m_VCountFlag r) (m_VBlankIRQ r) (m_HBlankIRQ r) (m_VCountIRQ r) (m_VCountSetting r).
Definition set_m_WinOut (a : WindowOuter.WindowOuter) (r : GBAVideo) : GBAVideo :=
  Build_GBAVideo (m_BG r) (m_Obj r) (m_Win r) a (m_ObjWin r) (m_Ticks r) (m_State r) (m_RenderScanline r) (m_PAL r) (m_VRAM r) (m_OAM r) (m_HBlankDMA r) (m_VBlankDMA r) (m_VCount r) (m_VideoMode r) (m_FrameSelect r) (m_ForcedBlank r) (m_VCountFlag r) (m_VBlankIRQ r) (m_HBlankIRQ r) (m_VCountIRQ r) (m_VCountSetting r).
Definition set_m_ObjWin (a : ObjectWindow.ObjectWindow) (r : GBAVideo) : GBAVideo :=
  Build_GBAVideo (m_BG r) (m_Obj r) (m_Win r) (m_WinOut r) a (m_Ticks r) (m_State r) (m_RenderScanline r) (m_PAL r) (m_VRAM r) (m_OAM r) (m_HBlankDMA r) (m_VBlankDMA r) (m_VCount r) (m_VideoMode r) (m_FrameSelect r) (m_ForcedBlank r) (m_VCountFlag r) (m_VBlankIRQ r) (m_HBlankIRQ r) (m_VCountIRQ r) (m_VCountSetting r).
Definition set_m_Ticks (a : Z) (r : GBAVideo) : GBAVideo :=
  Build_GBAVideo (m_BG r) (m_Obj r) (m_Win r) (m_WinOut r) (m_ObjWin r) a (m_State r) (m_RenderScanline r) (m_PAL r) (m_VRAM r) (m_OAM r) (m_HBlankDMA r) (m_VBlankDMA r) (m_VCount r) (m_VideoMode r) (m_FrameSelect r) (m_ForcedBlank r) (m_VCountFlag r) (m_VBlankIRQ r) (m_HBlankIRQ r) (m_VCountIRQ r) (m_VCountSetting r).
Definition set_m_State (a : GBAVideoState) (r : GBAVideo) : GBAVideo :=
  Build_GBAVideo (m_BG r) (m_Obj r) (m_Win r) (m_WinOut r) (m_ObjWin r) (m_Ticks r) a (m_RenderScanline r) (m_PAL r) (m_VRAM r) (m_OAM r) (m_HBlankDMA r) (m_VBlankDMA r) (m_VCount r) (m_VideoMode r) (m_FrameSelect r) (m_ForcedBlank r) (m_VCountFlag r) (m_VBlankIRQ r) (m_HBlankIRQ r) (m_VCountIRQ r) (m_VCountSetting r).
Definition set_m_RenderScanline (a : bool) (r : GBAVideo) : GBAVideo :=
  Build_GBAVideo (m_BG r) (m_Obj r) (m_Win r) (m_WinOut r) (m_ObjWin r) (m_Ticks r) (m_State r) a (m_PAL r) (m_VRAM r) (m_OAM r) (m_HBlankDMA r) (m_VBlankDMA r) (m_VCount r) (m_VideoMode r) (m_FrameSelect r) (m_ForcedBlank r) (m_VCountFlag r) (m_VBlankIRQ r) (m_HBlankIRQ r) (m_VCountIRQ r) (m_VCountSetting r).
Definition set_m_PAL (a : bytes) (r : GBAVideo) : GBAVideo :=
  Build_GBAVideo (m_BG r) (m_Obj r) (m_Win r) (m_WinOut r) (m_ObjWin r) (m_Ticks r) (m_State r) (m_RenderScanline r) a (m_VRAM r) (m_OAM r) (m_HBlankDMA r) (m_VBlankDMA r) (m_VCount r) (m_VideoMode r) (m_FrameSelect r) (m_ForcedBlank r) (m_VCountFlag r) (m_VBlankIRQ r) (m_HBlankIRQ r) (m_VCountIRQ r) (m_VCountSetting r).
Definition set_m_VRAM (a : bytes) (r : GBAVideo) : GBAVideo :=
  Build_GBAVideo (m_BG r) (m_Obj r) (m_Win r) (m_WinOut r) (m_ObjWin r) (m_Ticks r) (m_State r) (m_RenderScanline r) (m_PAL r) a (m_OAM r) (m_HBlankDMA r) (m_VBlankDMA r) (m_VCount r) (m_VideoMode r) (m_FrameSelect r) (m_ForcedBlank r) (m_VCountFlag r) (m_VBlankIRQ r) (m_HBlankIRQ r) (m_VCountIRQ r) (m_VCountSetting r).
Definition set_m_OAM (a : bytes) (r : GBAVideo) : GBAVideo :=
  Build_GBAVideo (m_BG r) (m_Obj r) (m_Win r) (m_WinOut r) (m_ObjWin r) (m_Ticks r) (m_State r) (m_RenderScanline r) (m_PAL r) (m_VRAM r) a (m_HBlankDMA r) (m_VBlankDMA r) (m_VCount r) (m_VideoMode r) (m_FrameSelect r) (m_ForcedBlank r) (m_VCountFlag r) (m_VBlankIRQ r) (m_HBlankIRQ r) (m_VCountIRQ r) (m_VCountSetting r).
Definition set_m_HBlankDMA (a : bool) (r : GBAVideo) : GBAVideo :=
  Build_GBAVideo (m_BG r) (m_Obj r) (m_Win r) (m_WinOut r) (m_ObjWin r) (m_Ticks r) (m_State r) (m_RenderScanline r) (m_PAL r) (m_VRAM r) (m_OAM r) a (m_VBlankDMA r) (m_VCount r) (m_VideoMode r) (m_FrameSelect r) (m_ForcedBlank r) (m_VCountFlag r) (m_VBlankIRQ r) (m_HBlankIRQ r) (m_VCountIRQ r) (m_VCountSetting r).
Definition set_m_VBlankDMA (a : bool) (r : GBAVideo) : GBAVideo :=
  Build_GBAVideo (m_BG r) (m_Obj r) (m_Win r) (m_WinOut r) (m_ObjWin r) (m_Ticks r) (m_State r) (m_RenderScanline r) (m_PAL r) (m_VRAM r) (m_OAM r) (m_HBlankDMA r) a (m_VCount r) (m_VideoMode r) (m_FrameSelect r) (m_ForcedBlank r) (m_VCountFlag r) (m_VBlankIRQ r) (m_HBlankIRQ r) (m_VCountIRQ r) (m_VCountSetting r).
Definition set_m_VCount (a : Z) (r : GBAVideo) : GBAVideo :=
  Build_GBAVideo (m_BG r) (m_Obj r) (m_Win r) (m_WinOut r) (m_ObjWin r) (m_Ticks r) (m_State r) (m_RenderScanline r) (m_PAL r) (m_VRAM r) (m_OAM r) (m_HBlankDMA r) (m_VBlankDMA r) a (m_VideoMode r) (m_FrameSelect r) (m_ForcedBlank r) (m_VCountFlag r) (m_VBlankIRQ r) (m_HBlankIRQ r) (m_VCountIRQ r) (m_VCountSetting r).
Definition set_m_VideoMode (a : Z) (r : GBAVideo) : GBAVideo :=
  Build_GBAVideo (m_BG r) (m_Obj r) (m_Win r) (m_WinOut r) (m_ObjWin r) (m_Ticks r) (m_State r) (m_RenderScanline r) (m_PAL r) (m_VRAM r) (m_OAM r) (m_HBlankDMA r) (m_VBlankDMA r) (m_VCount r) a (m_FrameSelect r) (m_ForcedBlank r) (m_VCountFlag r) (m_VBlankIRQ r) (m_HBlankIRQ r) (m_VCountIRQ r) (m_VCountSetting r).
Definition set_m_FrameSelect (a : bool) (r : GBAVideo) : GBAVideo :=
  Build_GBAVideo (m_BG r) (m_Obj r) (m_Win r) (m_WinOut r) (m_ObjWin r) (m_Ticks r) (m_State r) (m_RenderScanline r) (m_PAL r) (m_VRAM r) (m_OAM r) (m_HBlankDMA r) (m_VBlankDMA r) (m_VCount r) (m_VideoMode r) a (m_ForcedBlank r) (m_VCountFlag r) (m_VBlankIRQ r) (m_HBlankIRQ r) (m_VCountIRQ r) (m_VCountSetting r).
Definition set_m_ForcedBlank (a : bool) (r : GBAVideo) : GBAVideo :=
  Build_GBAVideo (m_BG r) (m_Obj r) (m_Win r) (m_WinOut r) (m_ObjWin r) (m_Ticks r) (m_State r) (m_RenderScanline r) (m_PAL r) (m_VRAM r) (m_OAM r) (m_HBlankDMA r) (m_VBlankDMA r) (m_VCount r) (m_VideoMode r) (m_FrameSelect r) a (m_VCountFlag r) (m_VBlankIRQ r) (m_HBlankIRQ r) (m_VCountIRQ r) (m_VCountSetting r).
Definition set_m_VCountFlag (a : bool) (r : GBAVideo) : GBAVideo :=
  Build_GBAVideo (m_BG r) (m_Obj r) (m_Win r) (m_WinOut r) (m_ObjWin r) (m_Ticks r) (m_State r) (m_RenderScanline r) (m_PAL r) (m_VRAM r) (m_OAM r) (m_HBlankDMA r) (m_VBlankDMA r) (m_VCount r) (m_VideoMode r) (m_FrameSelect r) (m_ForcedBlank r) a (m_VBlankIRQ r) (m_HBlankIRQ r) (m_VCountIRQ r) (m_VCountSetting r).
Definition set_m_VBlankIRQ (a : bool) (r : GBAVideo) : GBAVideo :=
  Build_GBAVideo (m_BG r) (m_Obj r) (m_Win r) (m_WinOut r) (m_ObjWin r) (m_Ticks r) (m_State r) (m_RenderScanline r) (m_PAL r) (m_VRAM r) (m_OAM r) (m_HBlankDMA r) (m_VBlankDMA r) (m_VCount r) (m_VideoMode r) (m_FrameSelect r) (m_ForcedBlank r) (m_VCountFlag r) a (m_HBlankIRQ r) (m_VCountIRQ r) (m_VCountSetting r).
Definition set_m_HBlankIRQ (a : bool) (r : GBAVideo) : GBAVideo :=
  Build_GBAVideo (m_BG r) (m_Obj r) (m_Win r) (m_WinOut r) (m_ObjWin r) (m_Ticks r) (m_State r) (m_RenderScanline r) (m_PAL r) (m_VRAM r) (m_OAM r) (m_HBlankDMA r) (m_VBlankDMA r) (m_VCount r) (m_VideoMode r) (m_FrameSelect r) (m_ForcedBlank r) (m_VCountFlag r) (m_VBlankIRQ r) a (m_VCountIRQ r) (m_VCountSetting r).
Definition set_m_VCountIRQ (a : bool) (r : GBAVideo) : GBAVideo :=
  Build_GBAVideo (m_BG r) (m_Obj r) (m_Win r) (m_WinOut r) (m_ObjWin r) (m_Ticks r) (m_State r) (m_RenderScanline r) (m_PAL r) (m_VRAM r) (m_OAM r) (m_HBlankDMA r) (m_VBlankDMA r) (m_VCount r) (m_VideoMode r) (m_FrameSelect r) (m_ForcedBlank r) (m_VCountFlag r) (m_VBlankIRQ r) (m_HBlankIRQ r) a (m_VCountSetting r).
Definition set_m_VCountSetting (a : Z) (r : GBAVideo) : GBAVideo :=
  Build_GBAVideo (m_BG r) (m_Obj r) (m_Win r) (m_WinOut r) (m_ObjWin r) (m_Ticks r) (m_State r) (m_RenderScanline r) (m_PAL r) (m_VRAM r) (m_OAM r) (m_HBlankDMA r) (m_VBlankDMA r) (m_VCount r) (m_VideoMode r) (m_FrameSelect r) (m_ForcedBlank r) (m_VCountFlag r) (m_VBlankIRQ r) (m_HBlankIRQ r) (m_VCountIRQ r) a.

(** Member initialisers of [class GBAVideo] and the [memset]s of its
    constructor. *)
Definition init : GBAVideo :=
  Build_GBAVideo
    [# Background.init; Background.init; Background.init; Background.init]
    Object.init [# Window.init; Window.init] WindowOuter.init ObjectWindow.init
    0 Scanline false zeroed zeroed zeroed false false 0 0
    false false false false false false 0.

Definition raise (bit : Z) (irq : GBAInterrupt) : GBAInterrupt :=
  set_if_ (u16 (Z.lor (if_ irq) bit)) irq.

(** The four assignments made on entry to VBlank. *)
Definition latch_reference_points (v : GBAVideo) : GBAVideo :=
  let bg2 := m_BG v !!! 2%fin in
  let bg3 := m_BG v !!! 3%fin in
  let bg2 := Background.set_x_ref_int (DecodeGBAFloat32 (Background.x_ref bg2)) bg2 in
  let bg2 := Background.set_y_ref_int (DecodeGBAFloat32 (Background.y_ref bg2)) bg2 in
  let bg3 := Background.set_x_ref_int (DecodeGBAFloat32 (Background.x_ref bg3)) bg3 in
  let bg3 := Background.set_y_ref_int (DecodeGBAFloat32 (Background.y_ref bg3)) bg3 in
  set_m_BG (vinsert 3%fin bg3 (vinsert 2%fin bg2 (m_BG v))) v.

(** [GBAVideo::Step]. *)
Definition Step (v : GBAVideo) (irq : GBAInterrupt) : GBAVideo * GBAInterrupt :=
  let v := set_m_Ticks (m_Ticks v + 1) v in
  let v := set_m_RenderScanline false v in
  let v := set_m_VCountFlag (m_VCount v =? m_VCountSetting v) v in
  match m_State v with
  | Scanline =>
      if 960 <=? m_Ticks v then
        let v := set_m_HBlankDMA true v in
        let v := set_m_State HBlank v in
        let irq := if m_HBlankIRQ v then raise HBLANK_INTERRUPT irq else irq in
        let v := set_m_RenderScanline true v in
        let v := set_m_Ticks 0 v in
        (v, irq)
      else (v, irq)
  | HBlank =>
      if 272 <=? m_Ticks v then
        let v := set_m_VCount (u16 (m_VCount v + 1)) v in
        let irq :=
          if m_VCountFlag v && m_VCountIRQ v
          then raise VCOUNT_INTERRUPT irq else irq in
        let '(v, irq) :=
          if m_VCount v =? 160 then
            let v := latch_reference_points v in
            let v := set_m_HBlankDMA false v in
            let v := set_m_VBlankDMA true v in
            let v := set_m_State VBlank v in
            let irq := if m_VBlankIRQ v then raise VBLANK_INTERRUPT irq else irq in
            (v, irq)
          else
            let v := set_m_HBlankDMA false v in
            let v := set_m_State Scanline v in
            (v, irq) in
        let v := set_m_Ticks 0 v in
        (v, irq)
      else (v, irq)
  | VBlank =>
      if 1232 <=? m_Ticks v then
        let v := set_m_VCount (u16 (m_VCount v + 1)) v in
        let irq :=
          if m_VCountFlag v && m_VCountIRQ v
          then raise VCOUNT_INTERRUPT irq else irq in
        let v :=
          if m_VCount v =? 227 then
            let v := set_m_VBlankDMA false v in
            let v := set_m_State Scanline v in
            set_m_VCount 0 v
          else v in
        let v := set_m_Ticks 0 v in
        (v, irq)
      else (v, irq)
  end.

(** The PPU stepped [n] times. *)
Definition Steps (n : N) (s : GBAVideo * GBAInterrupt) : GBAVideo * GBAInterrupt :=
  N.iter n (fun s => Step (fst s) (snd s)) s.

End Video.

Import Video.

(** ** iodef.h *)

Module IODef.

(** Modelled from the spec: iodef.h is not among the sources.  The byte
    offsets of the I/O registers inside region 4 are those of the
    register map of the specification (section 6): DISPCNT 0x000,
    DISPSTAT 0x004, VCOUNT 0x006, the background registers 0x008-0x03E,
    the window registers 0x040-0x04A, DMA0..3 SAD/DAD/CNT 0x0B0-0x0DE,
    TM0..3 CNT 0x100-0x10E, KEYINPUT 0x130, IE 0x200, IF 0x202,
    WAITCNT 0x204, IME 0x208 and HALTCNT 0x301. *)
Definition DISPCNT : Z := 0x000.
Definition DISPSTAT : Z := 0x004.
Definition VCOUNT : Z := 0x006.
Definition BG0CNT : Z := 0x008.
Definition BG1CNT : Z := 0x00A.
Definition BG2CNT : Z := 0x00C.
Definition BG3CNT : Z := 0x00E.
Definition BG0HOFS : Z := 0x010.
Definition BG0VOFS : Z := 0x012.
Definition BG1HOFS : Z := 0x014.
Definition BG1VOFS : Z := 0x016.
Definition BG2HOFS : Z := 0x018.
Definition BG2VOFS : Z := 0x01A.
Definition BG3HOFS : Z := 0x01C.
Definition BG3VOFS : Z := 0x01E.
Definition BG2PA : Z := 0x020.
Definition BG2PB : Z := 0x022.
Definition BG2PC : Z := 0x024.
Definition BG2PD : Z := 0x026.
Definition BG2X : Z := 0x028.
Definition BG2Y : Z := 0x02C.
Definition BG3PA : Z := 0x030.
Definition BG3PB : Z := 0x032.
Definition BG3PC : Z := 0x034.
Definition BG3PD : Z := 0x036.
Definition BG3X : Z := 0x038.
Definition BG3Y : Z := 0x03C.
Definition WIN0H : Z := 0x040.
Definition WIN1H : Z := 0x042.
Definition WIN0V : Z := 0x044.
Definition WIN1V : Z := 0x046.
Definition WININ : Z := 0x048.
Definition WINOUT : Z := 0x04A.
Definition DMA0SAD : Z := 0x0B0.
Definition DMA0DAD : Z := 0x0B4.
Definition DMA0CNT_L : Z := 0x0B8.
Definition DMA0CNT_H : Z := 0x0BA.
Definition DMA1SAD : Z := 0x0BC.
Definition DMA1DAD : Z := 0x0C0.
Definition DMA1CNT_L : Z := 0x0C4.
Definition DMA1CNT_H : Z := 0x0C6.
Definition DMA2SAD : Z := 0x0C8.
Definition DMA2DAD : Z := 0x0CC.
Definition DMA2CNT_L : Z := 0x0D0.
Definition DMA2CNT_H : Z := 0x0D2.
Definition DMA3SAD : Z := 0x0D4.
Definition DMA3DAD : Z := 0x0D8.
Definition DMA3CNT_L : Z := 0x0DC.
Definition DMA3CNT_H : Z := 0x0DE.
Definition TM0CNT_L : Z := 0x100.
Definition TM0CNT_H : Z := 0x102.
Definition TM1CNT_L : Z := 0x104.
Definition TM1CNT_H : Z := 0x106.
Definition TM2CNT_L : Z := 0x108.
Definition TM2CNT_H : Z := 0x10A.
Definition TM3CNT_L : Z := 0x10C.
Definition TM3CNT_H : Z := 0x10E.
Definition KEYINPUT : Z := 0x130.
Definition IE : Z := 0x200.
Definition IF : Z := 0x202.
Definition WAITCNT : Z := 0x204.
Definition IME : Z := 0x208.
Definition HALTCNT : Z := 0x301.

End IODef.

Import IODef.

(** ** backup.h *)

(** [GBABackup] is the abstract interface of the cartridge backup
    (SRAM or Flash); the bus only calls its two virtual methods. *)
Class GBABackup (B : Type) : Type := {
  Backup_ReadByte : B -> Z -> Z;
  Backup_WriteByte : B -> Z -> Z -> B
}.

(** Modelled from the spec: sram.h is not among the sources.  A
    battery-backed byte array of 64 KiB (section 3, regions E and F),
    used where a concrete backup object is needed. *)
#[global] Instance SRAMBackup : GBABackup bytes := {
  Backup_ReadByte b offset := u8 (b (Z.land offset 0xFFFF));
  Backup_WriteByte b offset value := store b (Z.land offset 0xFFFF) (u8 value)
}.

(** ** memory.h, memory.cpp *)

Module Memory.

Definition dma_count_mask : vec Z 4 := [# 0x3FFF; 0x3FFF; 0x3FFF; 0xFFFF].
Definition dma_dest_mask : vec Z 4 := [# 0x7FFFFFF; 0x7FFFFFF; 0x7FFFFFF; 0xFFFFFFF].
Definition dma_source_mask : vec Z 4 := [# 0x7FFFFFF; 0xFFFFFFF; 0xFFFFFFF; 0xFFFFFFF].
Definition tmr_cycles : vec Z 4 := [# 1; 64; 256; 1024].

Definition wsn_table : vec Z 4 := [# 4; 3; 2; 8].
Definition wss0_table : vec Z 2 := [# 2; 1].
Definition wss1_table : vec Z 2 := [# 4; 1].
Definition wss2_table : vec Z 2 := [# 8; 1].

Definition hle_bios : list Z :=
  [ 0x06; 0x00; 0x00; 0xEA; 0x00; 0x00; 0xA0; 0xE1;
    0x00; 0x00; 0xA0; 0xE1; 0x00; 0x00; 0xA0; 0xE1;
    0x00; 0x00; 0xA0; 0xE1; 0x00; 0x00; 0xA0; 0xE1;
    0x01; 0x00; 0x00; 0xEA; 0x00; 0x00; 0xA0; 0xE1;
    0x02; 0xF3; 0xA0; 0xE3; 0x0F; 0x50; 0x2D; 0xE9;
    0x01; 0x03; 0xA0; 0xE3; 0x00; 0xE0; 0x8F; 0xE2;
    0x04; 0xF0; 0x10; 0xE5; 0x0F; 0x50; 0xBD; 0xE8;
    0x04; 0xF0; 0x5E; 0xE2; 0x00; 0x00; 0xA0; 0xE1 ].

Module AddressControl.

Inductive AddressControl : Type := Increment | Decrement | Fixed | Reload.

(** [static_cast<int>] and [static_cast<AddressControl>]. *)
Definition to_Z (c : AddressControl) : Z :=
  match c with Increment => 0 | Decrement => 1 | Fixed => 2 | Reload => 3 end.

Definition of_Z (n : Z) : AddressControl :=
  match n with 0 => Increment | 1 => Decrement | 2 => Fixed | _ => Reload end.

End AddressControl.

Module StartTime.

Inductive StartTime : Type := Immediate | VBlank | HBlank | Special.

Definition of_Z (n : Z) : StartTime :=
  match n with 0 => Immediate | 1 => VBlank | 2 => HBlank | _ => Special end.

End StartTime.

Module TransferSize.

Inductive TransferSize : Type := HWord | Word.

Definition of_Z (n : Z) : TransferSize :=
  match n with 0 => HWord | _ => Word end.

End TransferSize.

Module SaveType.

Inductive SaveType : Type := NONE | EEPROM | SRAM | FLASH64 | FLASH128.

End SaveType.

Module AccessSize.

Inductive AccessSize : Type := Byte | Hword | Word.

End AccessSize.

Module HaltState.

Inductive HaltState : Type := None | Stop | Halt.

End HaltState.

Module DMA.

Import AddressControl StartTime TransferSize.

Record DMA : Type := Build_DMA {
  dest : Z;
  source : Z;
  count : Z;
  dest_int : Z;
  source_int : Z;
  count_int : Z;
  dest_control : AddressControl;
  source_control : AddressControl;
  start_time : StartTime;
  size : TransferSize;
  repeat : bool;
  gamepack_drq : bool;
  interrupt : bool;
  enable : bool
}.

Definition set_dest (a : Z) (r : DMA) : DMA :=
  Build_DMA a (source r) (count r) (dest_int r) (source_int r) (count_int r) (dest_control r) (source_control r) (start_time r) (size r) (repeat r) (gamepack_drq r) (interrupt r) (enable r).
Definition set_source (a : Z) (r : DMA) : DMA :=
  Build_DMA (dest r) a (count r) (dest_int r) (source_int r) (count_int r) (dest_control r) (source_control r) (start_time r) (size r) (repeat r) (gamepack_drq r) (interrupt r) (enable r).
Definition set_count (a : Z) (r : DMA) : DMA :=
  Build_DMA (dest r) (source r) a (dest_int r) (source_int r) (count_int r) (dest_control r) (source_control r) (start_time r) (size r) (repeat r) (gamepack_drq r) (interrupt r) (enable r).
Definition set_dest_int (a : Z) (r : DMA) : DMA :=
  Build_DMA (dest r) (source r) (count r) a (source_int r) (count_int r) (dest_control r) (source_control r) (start_time r) (size r) (repeat r) (gamepack_drq r) (interrupt r) (enable r).
Definition set_source_int (a : Z) (r : DMA) : DMA :=
  Build_DMA (dest r) (source r) (count r) (dest_int r) a (count_int r) (dest_control r) (source_control r) (start_time r) (size r) (repeat r) (gamepack_drq r) (interrupt r) (enable r).
Definition set_count_int (a : Z) (r : DMA) : DMA :=
  Build_DMA (dest r) (source r) (count r) (dest_int r) (source_int r) a (dest_control r) (source_control r) (start_time r) (size r) (repeat r) (gamepack_drq r) (interrupt r) (enable r).
Definition set_dest_control (a : AddressControl) (r : DMA) : DMA :=
  Build_DMA (dest r) (source r) (count r) (dest_int r) (source_int r) (count_int r) a (source_control r) (start_time r) (size r) (repeat r) (gamepack_drq r) (interrupt r) (enable r).
Definition set_source_control (a : AddressControl) (r : DMA) : DMA :=
  Build_DMA (dest r) (source r) (count r) (dest_int r) (source_int r) (count_int r) (dest_control r) a (start_time r) (size r) (repeat r) (gamepack_drq r) (interrupt r) (enable r).
Definition set_start_time (a : StartTime) (r : DMA) : DMA :=
  Build_DMA (dest r) (source r) (count r) (dest_int r) (source_int r) (count_int r) (dest_control r) (source_control r) a (size r) (repeat r) (gamepack_drq r) (interrupt r) (enable r).
Definition set_size (a : TransferSize) (r : DMA) : DMA :=
  Build_DMA (dest r) (source r) (count r) (dest_int r) (source_int r) (count_int r) (dest_control r) (source_control r) (start_time r) a (repeat r) (gamepack_drq r) (interrupt r) (enable r).
Definition set_repeat (a : bool) (r : DMA) : DMA :=
  Build_DMA (dest r) (source r) (count r) (dest_int r) (source_int r) (count_int r) (dest_control r) (source_control r) (start_time r) (size r) a (gamepack_drq r) (interrupt r) (enable r).
Definition set_gamepack_drq (a : bool) (r : DMA) : DMA :=
  Build_DMA (dest r) (source r) (count r) (dest_int r) (source_int r) (count_int r) (dest_control r) (source_control r) (start_time r) (size r) (repeat r) a (interrupt r) (enable r).
Definition set_interrupt (a : bool) (r : DMA) : DMA :=
  Build_DMA (dest r) (source r) (count r) (dest_int r) (source_int r) (count_int r) (dest_control r) (source_control r) (start_time r) (size r) (repeat r) (gamepack_drq r) a (enable r).
Definition set_enable (a : bool) (r : DMA) : DMA :=
  Build_DMA (dest r) (source r) (count r) (dest_int r) (source_int r) (count_int r) (dest_control r) (source_control r) (start_time r) (size r) (repeat r) (gamepack_drq r) (interrupt r) a.

Definition init : DMA :=
  Build_DMA 0 0 0 0 0 0 Increment Increment Immediate HWord
    false false false false.

End DMA.

Module Timer.

Record Timer : Type := Build_Timer {
  count : Z;
  reload : Z;
  clock : Z;
  ticks : Z;
  enable : bool;
  countup : bool;
  interrupt : bool;
  overflow : bool
}.

Definition set_count (a : Z) (r : Timer) : Timer :=
  Build_Timer a (reload r) (clock r) (ticks r) (enable r) (countup r) (interrupt r) (overflow r).
Definition set_reload (a : Z) (r : Timer) : Timer :=
  Build_Timer (count r) a (clock r) (ticks r) (enable r) (countup r) (interrupt r) (overflow r).
Definition set_clock (a : Z) (r : Timer) : Timer :=
  Build_Timer (count r) (reload r) a (ticks r) (enable r) (countup r) (interrupt r) (overflow r).
Definition set_ticks (a : Z) (r : Timer) : Timer :=
  Build_Timer (count r) (reload r) (clock r) a (enable r) (countup r) (interrupt r) (overflow r).
Definition set_enable (a : bool) (r : Timer) : Timer :=
  Build_Timer (count r) (reload r) (clock r) (ticks r) a (countup r) (interrupt r) (overflow r).
Definition set_countup (a : bool) (r : Timer) : Timer :=
  Build_Timer (count r) (reload r) (clock r) (ticks r) (enable r) a (interrupt r) (overflow r).
Definition set_interrupt (a : bool) (r : Timer) : Timer :=
  Build_Timer (count r) (reload r) (clock r) (ticks r) (enable r) (countup r) a (overflow r).
Definition set_overflow (a : bool) (r : Timer) : Timer :=
  Build_Timer (count r) (reload r) (clock r) (ticks r) (enable r) (countup r) (interrupt r) a.

Definition init : Timer := Build_Timer 0 0 0 0 false false false false.

End Timer.

Module Waitstate.

Record Waitstate : Type := Build_Waitstate {
  sram : Z;
  first : vec Z 3;
  second : vec Z 3;
  prefetch : bool
}.

Definition set_sram (a : Z) (r : Waitstate) : Waitstate :=
  Build_Waitstate a (first r) (second r) (prefetch r).
Definition set_first (a : vec Z 3) (r : Waitstate) : Waitstate :=
  Build_Waitstate (sram r) a (second r) (prefetch r).
Definition set_second (a : vec Z 3) (r : Waitstate) : Waitstate :=
  Build_Waitstate (sram r) (first r) a (prefetch r).
Definition set_prefetch (a : bool) (r : Waitstate) : Waitstate :=
  Build_Waitstate (sram r) (first r) (second r) a.

Definition init : Waitstate := Build_Waitstate 0 [# 0; 0; 0] [# 0; 0; 0] false.

End Waitstate.

Import SaveType.

(** The members of [class GBAMemory] other than the audio unit.
    [m_Interrupt] and [m_Video] are owned through pointers; the video
    unit's own pointer to [m_Interrupt] is the field [m_Interrupt]
    here. *)
Record GBAMemory (B : Type) : Type := Build_GBAMemory {
  m_Rom : list Z;
  m_RomSize : Z;
  m_BIOS : bytes;
  m_WRAM : bytes;
  m_IRAM : bytes;
  m_Backup : option B;
  m_SaveType : SaveType.SaveType;
  m_DMA : vec DMA.DMA 4;
  m_Timer : vec Timer.Timer 4;
  m_Waitstate : Waitstate.Waitstate;
  m_Interrupt : GBAInterrupt;
  m_HaltState : HaltState.HaltState;
  m_Video : GBAVideo;
  m_DidTransfer : bool;
  m_DMACycles : Z;
  m_KeyInput : Z
}.

Arguments Build_GBAMemory {B}.
Arguments m_Rom {B}.
Arguments m_RomSize {B}.
Arguments m_BIOS {B}.
Arguments m_WRAM {B}.
Arguments m_IRAM {B}.
Arguments m_Backup {B}.
Arguments m_SaveType {B}.
Arguments m_DMA {B}.
Arguments m_Timer {B}.
Arguments m_Waitstate {B}.
Arguments m_Interrupt {B}.
Arguments m_HaltState {B}.
Arguments m_Video {B}.
Arguments m_DidTransfer {B}.
Arguments m_DMACycles {B}.
Arguments m_KeyInput {B}.

Definition set_m_Rom {B : Type} (a : list Z) (r : GBAMemory B) : GBAMemory B :=
  Build_GBAMemory a (m_RomSize r) (m_BIOS r) (m_WRAM r) (m_IRAM r) (m_Backup r) (m_SaveType r) (m_DMA r) (m_Timer r) (m_Waitstate r) (m_Interrupt r) (m_HaltState r) (m_Video r) (m_DidTransfer r) (m_DMACycles r) (m_KeyInput r).
Definition set_m_RomSize {B : Type} (a : Z) (r : GBAMemory B) : GBAMemory B :=
  Build_GBAMemory (m_Rom r) a (m_BIOS r) (m_WRAM r) (m_IRAM r) (m_Backup r) (m_SaveType r) (m_DMA r) (m_Timer r) (m_Waitstate r) (m_Interrupt r) (m_HaltState r) (m_Video r) (m_DidTransfer r) (m_DMACycles r) (m_KeyInput r).
Definition set_m_BIOS {B : Type} (a : bytes) (r : GBAMemory B) : GBAMemory B :=
  Build_GBAMemory (m_Rom r) (m_RomSize r) a (m_WRAM r) (m_IRAM r) (m_Backup r) (m_SaveType r) (m_DMA r) (m_Timer r) (m_Waitstate r) (m_Interrupt r) (m_HaltState r) (m_Video r) (m_DidTransfer r) (m_DMACycles r) (m_KeyInput r).
Definition set_m_WRAM {B : Type} (a : bytes) (r : GBAMemory B) : GBAMemory B :=
  Build_GBAMemory (m_Rom r) (m_RomSize r) (m_BIOS r) a (m_IRAM r) (m_Backup r) (m_SaveType r) (m_DMA r) (m_Timer r) (m_Waitstate r) (m_Interrupt r) (m_HaltState r) (m_Video r) (m_DidTransfer r) (m_DMACycles r) (m_KeyInput r).
Definition set_m_IRAM {B : Type} (a : bytes) (r : GBAMemory B) : GBAMemory B :=
  Build_GBAMemory (m_Rom r) (m_RomSize r) (m_BIOS r) (m_WRAM r) a (m_Backup r) (m_SaveType r) (m_DMA r) (m_Timer r) (m_Waitstate r) (m_Interrupt r) (m_HaltState r) (m_Video r) (m_DidTransfer r) (m_DMACycles r) (m_KeyInput r).
Definition set_m_Backup {B : Type} (a : option B) (r : GBAMemory B) : GBAMemory B :=
  Build_GBAMemory (m_Rom r) (m_RomSize r) (m_BIOS r) (m_WRAM r) (m_IRAM r) a (m_SaveType r) (m_DMA r) (m_Timer r) (m_Waitstate r) (m_Interrupt r) (m_HaltState r) (m_Video r) (m_DidTransfer r) (m_DMACycles r) (m_KeyInput r).
Definition set_m_SaveType {B : Type} (a : SaveType.SaveType) (r : GBAMemory B) : GBAMemory B :=
  Build_GBAMemory (m_Rom r) (m_RomSize r) (m_BIOS r) (m_WRAM r) (m_IRAM r) (m_Backup r) a (m_DMA r) (m_Timer r) (m_Waitstate r) (m_Interrupt r) (m_HaltState r) (m_Video r) (m_DidTransfer r) (m_DMACycles r) (m_KeyInput r).
Definition set_m_DMA {B : Type} (a : vec DMA.DMA 4) (r : GBAMemory B) : GBAMemory B :=
  Build_GBAMemory (m_Rom r) (m_RomSize r) (m_BIOS r) (m_WRAM r) (m_IRAM r) (m_Backup r) (m_SaveType r) a (m_Timer r) (m_Waitstate r) (m_Interrupt r) (m_HaltState r) (m_Video r) (m_DidTransfer r) (m_DMACycles r) (m_KeyInput r).
Definition set_m_Timer {B : Type} (a : vec Timer.Timer 4) (r : GBAMemory B) : GBAMemory B :=
  Build_GBAMemory (m_Rom r) (m_RomSize r) (m_BIOS r) (m_WRAM r) (m_IRAM r) (m_Backup r) (m_SaveType r) (m_DMA r) a (m_Waitstate r) (m_Interrupt r) (m_HaltState r) (m_Video r) (m_DidTransfer r) (m_DMACycles r) (m_KeyInput r).
Definition set_m_Waitstate {B : Type} (a : Waitstate.Waitstate) (r : GBAMemory B) : GBAMemory B :=
  Build_GBAMemory (m_Rom r) (m_RomSize r) (m_BIOS r) (m_WRAM r) (m_IRAM r) (m_Backup r) (m_SaveType r) (m_DMA r) (m_Timer r) a (m_Interrupt r) (m_HaltState r) (m_Video r) (m_DidTransfer r) (m_DMACycles r) (m_KeyInput r).
Definition set_m_Interrupt {B : Type} (a : GBAInterrupt) (r : GBAMemory B) : GBAMemory B :=
  Build_GBAMemory (m_Rom r) (m_RomSize r) (m_BIOS r) (m_WRAM r) (m_IRAM r) (m_Backup r) (m_SaveType r) (m_DMA r) (m_Timer r) (m_Waitstate r) a (m_HaltState r) (m_Video r) (m_DidTransfer r) (m_DMACycles r) (m_KeyInput r).
Definition set_m_HaltState {B : Type} (a : HaltState.HaltState) (r : GBAMemory B) : GBAMemory B :=
  Build_GBAMemory (m_Rom r) (m_RomSize r) (m_BIOS r) (m_WRAM r) (m_IRAM r) (m_Backup r) (m_SaveType r) (m_DMA r) (m_Timer r) (m_Waitstate r) (m_Interrupt r) a (m_Video r) (m_DidTransfer r) (m_DMACycles r) (m_KeyInput r).
Definition set_m_Video {B : Type} (a : GBAVideo) (r : GBAMemory B) : GBAMemory B :=
  Build_GBAMemory (m_Rom r) (m_RomSize r) (m_BIOS r) (m_WRAM r) (m_IRAM r) (m_Backup r) (m_SaveType r) (m_DMA r) (m_Timer r) (m_Waitstate r) (m_Interrupt r) (m_HaltState r) a (m_DidTransfer r) (m_DMACycles r) (m_KeyInput r).
Definition set_m_DidTransfer {B : Type} (a : bool) (r : GBAMemory B) : GBAMemory B :=
  Build_GBAMemory (m_Rom r) (m_RomSize r) (m_BIOS r) (m_WRAM r) (m_IRAM r) (m_Backup r) (m_SaveType r) (m_DMA r) (m_Timer r) (m_Waitstate r) (m_Interrupt r) (m_HaltState r) (m_Video r) a (m_DMACycles r) (m_KeyInput r).
Definition set_m_DMACycles {B : Type} (a : Z) (r : GBAMemory B) : GBAMemory B :=
  Build_GBAMemory (m_Rom r) (m_RomSize r) (m_BIOS r) (m_WRAM r) (m_IRAM r) (m_Backup r) (m_SaveType r) (m_DMA r) (m_Timer r) (m_Waitstate r) (m_Interrupt r) (m_HaltState r) (m_Video r) (m_DidTransfer r) a (m_KeyInput r).
Definition set_m_KeyInput {B : Type} (a : Z) (r : GBAMemory B) : GBAMemory B :=
  Build_GBAMemory (m_Rom r) (m_RomSize r) (m_BIOS r) (m_WRAM r) (m_IRAM r) (m_Backup r) (m_SaveType r) (m_DMA r) (m_Timer r) (m_Waitstate r) (m_Interrupt r) (m_HaltState r) (m_Video r) (m_DidTransfer r) (m_DMACycles r) a.

(** ** The bus *)

Section Bus.

Context {B : Type} {backup : GBABackup B}.

Local Abbreviation GBAMemory := (GBAMemory B).

(** [c ? k : 0]. *)
Definition flag (c : bool) (k : Z) : Z := if c then k else 0.

(** [m_Rom[i]]. *)
Definition rom_at (m : GBAMemory) (i : Z) : Z :=
  default 0 (m_Rom m !! Z.to_nat i).

(** The index into [m_VRAM] computed by the bus: the 128 KiB mirror with
    the upper 32 KiB folded onto the block below. *)
Definition vram_index (internal_offset : Z) : Z :=
  let internal_offset := internal_offset mod 0x20000 in
  if 0x18000 <=? internal_offset then internal_offset - 0x8000 else internal_offset.

(** The condition guarding the calls into [m_Backup]. *)
Definition backup_present (m : GBAMemory) : option B :=
  match m_Backup m with
  | Some b =>
      match m_SaveType m with
      | FLASH64 | FLASH128 | SRAM => Some b
      | _ => None
      end
  | None => None
  end.

(** The inner [switch (internal_offset)] of [ReadByte], region 4. *)
Definition ReadIO (m : GBAMemory) (internal_offset : Z) : Z :=
  let v := m_Video m in
  let bg n := m_BG v !!! idx4 n in
  let win n := m_Win v !!! idx2 n in
  let tmr n := m_Timer m !!! idx4 n in
  let ws := m_Waitstate m in
  let irq := m_Interrupt m in
  switch internal_offset
    [ ([DISPCNT],
        Z.lor (Z.lor (Z.lor (Z.lor (m_VideoMode v)
          (flag (m_FrameSelect v) 16))
          (flag (Object.hblank_access (m_Obj v)) 32))
          (flag (Object.two_dimensional (m_Obj v)) 64))
          (flag (m_ForcedBlank v) 128));
      ([DISPCNT + 1],
        Z.lor (Z.lor (Z.lor (Z.lor (Z.lor (Z.lor (Z.lor
          (flag (Background.enable (bg 0)) 1)
          (flag (Background.enable (bg 1)) 2))
          (flag (Background.enable (bg 2)) 4))
          (flag (Background.enable (bg 3)) 8))
          (flag (Object.enable (m_Obj v)) 16))
          (flag (Window.enable (win 0)) 32))
          (flag (Window.enable (win 1)) 64))
          (flag (ObjectWindow.enable (m_ObjWin v)) 128));
      ([DISPSTAT],
        Z.lor (Z.lor (Z.lor (Z.lor (Z.lor
          (flag (match m_State v with Video.VBlank => true | _ => false end) 1)
          (flag (match m_State v with Video.HBlank => true | _ => false end) 2))
          (flag (m_VCountFlag v) 4))
          (flag (m_VBlankIRQ v) 8))
          (flag (m_HBlankIRQ v) 16))
          (flag (m_VCountIRQ v) 32));
      ([VCOUNT], m_VCount v);
      ([BG0CNT; BG1CNT; BG2CNT; BG3CNT],
        let n := (internal_offset - BG0CNT) / 2 in
        Z.lor (Z.lor (Z.lor (Z.lor (Background.priority (bg n))
          (Z.shiftl (Background.tile_base (bg n) / 0x4000) 2))
          (flag (Background.mosaic (bg n)) 64))
          (flag (Background.true_color (bg n)) 128))
          (Z.shiftl 3 4));
      ([BG0CNT + 1; BG1CNT + 1; BG2CNT + 1; BG3CNT + 1],
        let n := (internal_offset - BG0CNT - 1) / 2 in
        Z.lor (Z.lor (Background.map_base (bg n) / 0x800)
          (flag (Background.wraparound (bg n)) 32))
          (Z.shiftl (Background.size (bg n)) 6));
      ([WININ],
        Z.lor (Z.lor (Z.lor (Z.lor (Z.lor
          (flag (Window.bg_in (win 0) !!! 0%fin) 1)
          (flag (Window.bg_in (win 0) !!! 1%fin) 2))
          (flag (Window.bg_in (win 0) !!! 2%fin) 4))
          (flag (Window.bg_in (win 0) !!! 3%fin) 8))
          (flag (Window.obj_in (win 0)) 16))
          (flag (Window.sfx_in (win 0)) 32));
      ([WININ + 1],
        Z.lor (Z.lor (Z.lor (Z.lor (Z.lor
          (flag (Window.bg_in (win 1) !!! 0%fin) 1)
          (flag (Window.bg_in (win 1) !!! 1%fin) 2))
          (flag (Window.bg_in (win 1) !!! 2%fin) 4))
          (flag (Window.bg_in (win 1) !!! 3%fin) 8))
          (flag (Window.obj_in (win 1)) 16))
          (flag (Window.sfx_in (win 1)) 32));
      ([WINOUT],
        Z.lor (Z.lor (Z.lor (Z.lor (Z.lor
          (flag (WindowOuter.bg (m_WinOut v) !!! 0%fin) 1)
          (flag (WindowOuter.bg (m_WinOut v) !!! 1%fin) 2))
          (flag (WindowOuter.bg (m_WinOut v) !!! 2%fin) 4))
          (flag (WindowOuter.bg (m_WinOut v) !!! 3%fin) 8))
          (flag (WindowOuter.obj (m_WinOut v)) 16))
          (flag (WindowOuter.sfx (m_WinOut v)) 32));
      ([WINOUT + 1], 0);
      ([TM0CNT_L], Z.land (Timer.count (tmr 0)) 0xFF);
      ([TM0CNT_L + 1], Z.shiftr (Timer.count (tmr 0)) 8);
      ([TM1CNT_L], Z.land (Timer.count (tmr 1)) 0xFF);
      ([TM1CNT_L + 1], Z.shiftr (Timer.count (tmr 1)) 8);
      ([TM2CNT_L], Z.land (Timer.count (tmr 2)) 0xFF);
      ([TM2CNT_L + 1], Z.shiftr (Timer.count (tmr 2)) 8);
      ([TM3CNT_L], Z.land (Timer.count (tmr 3)) 0xFF);
      ([TM3CNT_L + 1], Z.shiftr (Timer.count (tmr 3)) 8);
      ([TM0CNT_H; TM1CNT_H; TM2CNT_H; TM3CNT_H],
        let n := (internal_offset - TM0CNT_H) / 4 in
        Z.lor (Z.lor (Z.lor (Timer.clock (tmr n))
          (flag (Timer.countup (tmr n)) 4))
          (flag (Timer.interrupt (tmr n)) 64))
          (flag (Timer.enable (tmr n)) 128));
      ([KEYINPUT], Z.land (m_KeyInput m) 0xFF);
      ([KEYINPUT + 1], Z.shiftr (m_KeyInput m) 8);
      ([IE], Z.land (ie irq) 0xFF);
      ([IE + 1], Z.shiftr (ie irq) 8);
      ([IF], Z.land (if_ irq) 0xFF);
      ([IF + 1], Z.shiftr (if_ irq) 8);
      ([WAITCNT],
        Z.lor (Z.lor (Z.lor (Z.lor (Waitstate.sram ws)
          (Z.shiftl (Waitstate.first ws !!! 0%fin) 2))
          (Z.shiftl (Waitstate.second ws !!! 0%fin) 4))
          (Z.shiftl (Waitstate.first ws !!! 1%fin) 5))
          (Z.shiftl (Waitstate.second ws !!! 1%fin) 7));
      ([WAITCNT + 1],
        Z.lor (Z.lor (Z.lor (Waitstate.first ws !!! 2%fin)
          (Z.shiftl (Waitstate.second ws !!! 2%fin) 2))
          (flag (Waitstate.prefetch ws) 64))
          (Z.shiftl 1 7));
      ([IME], Z.land (ime irq) 0xFF);
      ([IME + 1], Z.shiftr (ime irq) 8) ]
    0.

(** [GBAMemory::ReadByte]. *)
Definition ReadByte (m : GBAMemory) (offset : Z) : Z :=
  let offset := u32 offset in
  let page := Z.shiftr offset 24 in
  let internal_offset := Z.land offset 0xFFFFFF in
  u8 (switch page
    [ ([0; 1],
        if 0x4000 <=? internal_offset then 0 else m_BIOS m internal_offset);
      ([2], m_WRAM m (internal_offset mod 0x40000));
      ([3], m_IRAM m (internal_offset mod 0x8000));
      ([4],
        let internal_offset :=
          if Z.land internal_offset 0xFFFF =? 0x800
          then Z.land internal_offset 0xFFFF else internal_offset in
        ReadIO m internal_offset);
      ([5], m_PAL (m_Video m) (internal_offset mod 0x400));
      ([6], m_VRAM (m_Video m) (vram_index internal_offset));
      ([7], m_OAM (m_Video m) (internal_offset mod 0x400));
      ([8],
        if m_RomSize m <=? internal_offset then 0 else rom_at m internal_offset);
      ([9],
        let internal_offset := internal_offset + 0x1000000 in
        if m_RomSize m <=? internal_offset then 0 else rom_at m internal_offset);
      ([0xE],
        match backup_present m with
        | Some b => Backup_ReadByte b offset
        | None => 0
        end) ]
    0).

(** [GBAMemory::ReadHWord]. *)
Definition ReadHWord (m : GBAMemory) (offset : Z) : Z :=
  u16 (Z.lor (ReadByte m offset) (Z.shiftl (ReadByte m (offset + 1)) 8)).

(** [GBAMemory::ReadWord]. *)
Definition ReadWord (m : GBAMemory) (offset : Z) : Z :=
  u32 (Z.lor (Z.lor (Z.lor (ReadByte m offset)
    (Z.shiftl (ReadByte m (offset + 1)) 8))
    (Z.shiftl (ReadByte m (offset + 2)) 16))
    (Z.shiftl (ReadByte m (offset + 3)) 24)).

(** *** Register writes *)

Definition upd_video (f : GBAVideo -> GBAVideo) (m : GBAMemory) : GBAMemory :=
  set_m_Video (f (m_Video m)) m.

Definition upd_bg (n : Z) (f : Background.Background -> Background.Background)
    (v : GBAVideo) : GBAVideo :=
  set_m_BG (vinsert (idx4 n) (f (m_BG v !!! idx4 n)) (m_BG v)) v.

Definition upd_win (n : Z) (f : Window.Window -> Window.Window)
    (v : GBAVideo) : GBAVideo :=
  set_m_Win (vinsert (idx2 n) (f (m_Win v !!! idx2 n)) (m_Win v)) v.

Definition upd_dma (n : Z) (f : DMA.DMA -> DMA.DMA) (m : GBAMemory) : GBAMemory :=
  set_m_DMA (vinsert (idx4 n) (f (m_DMA m !!! idx4 n)) (m_DMA m)) m.

Definition upd_timer (n : Z) (f : Timer.Timer -> Timer.Timer)
    (m : GBAMemory) : GBAMemory :=
  set_m_Timer (vinsert (idx4 n) (f (m_Timer m !!! idx4 n)) (m_Timer m)) m.

Definition upd_irq (f : GBAInterrupt -> GBAInterrupt) (m : GBAMemory) : GBAMemory :=
  set_m_Interrupt (f (m_Interrupt m)) m.

Definition upd_ws (f : Waitstate.Waitstate -> Waitstate.Waitstate)
    (m : GBAMemory) : GBAMemory :=
  set_m_Waitstate (f (m_Waitstate m)) m.

(** [b = value & k;] *)
Definition bit (value k : Z) : bool := to_bool (Z.land value k).

(** [(old & ~(0xFF << n)) | (value << n)]. *)
Definition set_byte (old n value : Z) : Z :=
  Z.lor (Z.land old (Z.lnot (Z.shiftl 0xFF n))) (Z.shiftl value n).

Definition write_DISPCNT (value : Z) (v : GBAVideo) : GBAVideo :=
  let v := set_m_VideoMode (Z.land value 7) v in
  let v := set_m_FrameSelect (bit value 16) v in
  let v := set_m_Obj (Object.set_hblank_access (bit value 32) (m_Obj v)) v in
  let v := set_m_Obj (Object.set_two_dimensional (bit value 64) (m_Obj v)) v in
  set_m_ForcedBlank (bit value 128) v.

Definition write_DISPCNT_1 (value : Z) (v : GBAVideo) : GBAVideo :=
  let v := upd_bg 0 (Background.set_enable (bit value 1)) v in
  let v := upd_bg 1 (Background.set_enable (bit value 2)) v in
  let v := upd_bg 2 (Background.set_enable (bit value 4)) v in
  let v := upd_bg 3 (Background.set_enable (bit value 8)) v in
  let v := set_m_Obj (Object.set_enable (bit value 16) (m_Obj v)) v in
  let v := upd_win 0 (Window.set_enable (bit value 32)) v in
  let v := upd_win 1 (Window.set_enable (bit value 64)) v in
  set_m_ObjWin (ObjectWindow.set_enable (bit value 128) (m_ObjWin v)) v.

Definition write_DISPSTAT (value : Z) (v : GBAVideo) : GBAVideo :=
  let v := set_m_VBlankIRQ (bit value 8) v in
  let v := set_m_HBlankIRQ (bit value 16) v in
  set_m_VCountIRQ (bit value 32) v.

Definition write_BGCNT (value : Z) (b : Background.Background) : Background.Background :=
  let b := Background.set_priority (Z.land value 3) b in
  let b := Background.set_tile_base (Z.land (Z.shiftr value 2) 3 * 0x4000) b in
  let b := Background.set_mosaic (bit value 64) b in
  Background.set_true_color (bit value 128) b.

Definition write_BGCNT_1 (n value : Z) (b : Background.Background) : Background.Background :=
  let b := Background.set_map_base (Z.land value 31 * 0x800) b in
  let b :=
    if (n =? 2) || (n =? 3)
    then Background.set_wraparound (bit value 32) b else b in
  Background.set_size (Z.shiftr value 6) b.

(** [BG2X], [BG3X] and the bytes after them. *)
Definition write_BGX (n value : Z) (b : Background.Background) : Background.Background :=
  let v := u32 (set_byte (Background.x_ref b) n value) in
  let b := Background.set_x_ref (u16 v) b in
  Background.set_x_ref_int (DecodeGBAFloat32 v) b.

Definition write_BGY (n value : Z) (b : Background.Background) : Background.Background :=
  let v := u32 (set_byte (Background.y_ref b) n value) in
  let b := Background.set_y_ref (u16 v) b in
  Background.set_y_ref_int (DecodeGBAFloat32 v) b.

Definition write_WININ (value : Z) (w : Window.Window) : Window.Window :=
  let w := Window.set_bg_in (vinsert 0%fin (bit value 1) (Window.bg_in w)) w in
  let w := Window.set_bg_in (vinsert 1%fin (bit value 2) (Window.bg_in w)) w in
  let w := Window.set_bg_in (vinsert 2%fin (bit value 4) (Window.bg_in w)) w in
  let w := Window.set_bg_in (vinsert 3%fin (bit value 8) (Window.bg_in w)) w in
  let w := Window.set_obj_in (bit value 16) w in
  Window.set_sfx_in (bit value 32) w.

Definition write_WINOUT (value : Z) (w : WindowOuter.WindowOuter) : WindowOuter.WindowOuter :=
  let w := WindowOuter.set_bg (vinsert 0%fin (bit value 1) (WindowOuter.bg w)) w in
  let w := WindowOuter.set_bg (vinsert 1%fin (bit value 2) (WindowOuter.bg w)) w in
  let w := WindowOuter.set_bg (vinsert 2%fin (bit value 4) (WindowOuter.bg w)) w in
  let w := WindowOuter.set_bg (vinsert 3%fin (bit value 8) (WindowOuter.bg w)) w in
  let w := WindowOuter.set_obj (bit value 16) w in
  WindowOuter.set_sfx (bit value 32) w.

(** [DMAnCNT_H], low byte. *)
Definition write_DMACNT_H (value : Z) (d : DMA.DMA) : DMA.DMA :=
  let source_control := AddressControl.to_Z (DMA.source_control d) in
  let source_control :=
    Z.lor (Z.land source_control 2) (Z.land (Z.shiftr value 7) 1) in
  let d := DMA.set_source_control (AddressControl.of_Z source_control) d in
  DMA.set_dest_control (AddressControl.of_Z (Z.land (Z.shiftr value 5) 3)) d.

(** [DMAnCNT_H + 1]: the control bits of the high byte, then the latch
    of the internal registers of channel [n] when the enable bit is
    written as 1.  [count_int] is a [u16]. *)
Definition write_DMACNT_H_1 (n : fin 4) (value : Z) (d : DMA.DMA) : DMA.DMA :=
  let source_control := AddressControl.to_Z (DMA.source_control d) in
  let source_control :=
    Z.lor (Z.land source_control (Z.lnot 3)) (Z.shiftl (Z.land value 1) 1) in
  let d := DMA.set_source_control (AddressControl.of_Z source_control) d in
  let d := DMA.set_repeat (bit value 2) d in
  let d := DMA.set_size (TransferSize.of_Z (Z.land (Z.shiftr value 2) 1)) d in
  let d := DMA.set_gamepack_drq (bit value 8) d in
  let d := DMA.set_start_time (StartTime.of_Z (Z.land (Z.shiftr value 4) 3)) d in
  let d := DMA.set_interrupt (bit value 64) d in
  let d := DMA.set_enable (bit value 128) d in
  if DMA.enable d then
    let d := DMA.set_source_int (u32 (Z.land (DMA.source d) (dma_source_mask !!! n))) d in
    let d := DMA.set_dest_int (u32 (Z.land (DMA.dest d) (dma_dest_mask !!! n))) d in
    let d := DMA.set_count_int (u16 (Z.land (DMA.count d) (dma_count_mask !!! n))) d in
    if DMA.count_int d =? 0
    then DMA.set_count_int (u16 (dma_count_mask !!! n + 1)) d
    else d
  else d.

Definition write_TMCNT_H (value : Z) (t : Timer.Timer) : Timer.Timer :=
  let t := Timer.set_clock (Z.land value 3) t in
  let t := Timer.set_countup (bit value 4) t in
  let t := Timer.set_interrupt (bit value 64) t in
  Timer.set_enable (bit value 128) t.

Definition write_WAITCNT (value : Z) (w : Waitstate.Waitstate) : Waitstate.Waitstate :=
  let w := Waitstate.set_sram (Z.land value 3) w in
  let w := Waitstate.set_first (vinsert 0%fin (Z.land (Z.shiftr value 2) 3) (Waitstate.first w)) w in
  let w := Waitstate.set_second (vinsert 0%fin (Z.land (Z.shiftr value 4) 1) (Waitstate.second w)) w in
  let w := Waitstate.set_first (vinsert 1%fin (Z.land (Z.shiftr value 5) 3) (Waitstate.first w)) w in
  Waitstate.set_second (vinsert 1%fin (Z.shiftr value 7) (Waitstate.second w)) w.

Definition write_WAITCNT_1 (value : Z) (w : Waitstate.Waitstate) : Waitstate.Waitstate :=
  let w := Waitstate.set_first (vinsert 2%fin (Z.land value 3) (Waitstate.first w)) w in
  let w := Waitstate.set_second (vinsert 2%fin (Z.land (Z.shiftr value 2) 1) (Waitstate.second w)) w in
  Waitstate.set_prefetch (bit value 64) w.

(** The inner [switch (internal_offset)] of [WriteByte], region 4. *)
Definition WriteIO (m : GBAMemory) (internal_offset value : Z) : GBAMemory :=
  let bg_field n f := upd_video (upd_bg n f) m in
  let win_field n f := upd_video (upd_win n f) m in
  let dma_source k base :=
    let n := (internal_offset - base) * 8 in
    upd_dma k (fun d => DMA.set_source (u32 (set_byte (DMA.source d) n value)) d) m in
  let dma_dest k base :=
    let n := (internal_offset - base) * 8 in
    upd_dma k (fun d => DMA.set_dest (u32 (set_byte (DMA.dest d) n value)) d) m in
  let dma_count_lo k :=
    upd_dma k (fun d => DMA.set_count (u16 (Z.lor (Z.land (DMA.count d) 0xFF00) value)) d) m in
  let dma_count_hi k :=
    upd_dma k (fun d =>
      DMA.set_count (u16 (Z.lor (Z.land (DMA.count d) 0x00FF) (Z.shiftl value 8))) d) m in
  let reload_lo k :=
    upd_timer k (fun t =>
      Timer.set_reload (u16 (Z.lor (Z.land (Timer.reload t) 0xFF00) value)) t) m in
  let reload_hi k :=
    upd_timer k (fun t =>
      Timer.set_reload (u16 (Z.lor (Z.land (Timer.reload t) 0x00FF) (Z.shiftl value 8))) t) m in
  let affine k base (get : Background.Background -> Z)
      (set : Z -> Background.Background -> Background.Background) :=
    let n := (internal_offset - base) * 8 in
    bg_field k (fun b => set (u16 (set_byte (get b) n value)) b) in
  switch internal_offset
    [ ([DISPCNT], upd_video (write_DISPCNT value) m);
      ([DISPCNT + 1], upd_video (write_DISPCNT_1 value) m);
      ([DISPSTAT], upd_video (write_DISPSTAT value) m);
      ([DISPSTAT + 1], upd_video (set_m_VCountSetting value) m);
      ([BG0CNT; BG1CNT; BG2CNT; BG3CNT],
        let n := (internal_offset - BG0CNT) / 2 in
        bg_field n (write_BGCNT value));
      ([BG0CNT + 1; BG1CNT + 1; BG2CNT + 1; BG3CNT + 1],
        let n := (internal_offset - BG0CNT - 1) / 2 in
        bg_field n (write_BGCNT_1 n value));
      ([BG0HOFS; BG1HOFS; BG2HOFS; BG3HOFS],
        let n := (internal_offset - BG0HOFS) / 4 in
        bg_field n (fun b =>
          Background.set_x (u32 (Z.lor (Z.land (Background.x b) 0x100) value)) b));
      ([BG0HOFS + 1; BG1HOFS + 1; BG2HOFS + 1; BG3HOFS + 1],
        let n := (internal_offset - BG0HOFS - 1) / 4 in
        bg_field n (fun b =>
          Background.set_x
            (u32 (Z.lor (Z.land (Background.x b) 0xFF) (Z.shiftl (Z.land value 1) 8))) b));
      ([BG0VOFS; BG1VOFS; BG2VOFS; BG3VOFS],
        let n := (internal_offset - BG0VOFS) / 4 in
        bg_field n (fun b =>
          Background.set_y (u32 (Z.lor (Z.land (Background.y b) 0x100) value)) b));
      ([BG0VOFS + 1; BG1VOFS + 1; BG2VOFS + 1; BG3VOFS + 1],
        let n := (internal_offset - BG0VOFS - 1) / 4 in
        bg_field n (fun b =>
          Background.set_y
            (u32 (Z.lor (Z.land (Background.y b) 0xFF) (Z.shiftl (Z.land value 1) 8))) b));
      ([BG2X; BG2X + 1; BG2X + 2; BG2X + 3],
        bg_field 2 (write_BGX ((internal_offset - BG2X) * 8) value));
      ([BG3X; BG3X + 1; BG3X + 2; BG3X + 3],
        bg_field 3 (write_BGX ((internal_offset - BG3X) * 8) value));
      ([BG2Y; BG2Y + 1; BG2Y + 2; BG2Y + 3],
        bg_field 2 (write_BGY ((internal_offset - BG2Y) * 8) value));
      ([BG3Y; BG3Y + 1; BG3Y + 2; BG3Y + 3],
        bg_field 3 (write_BGY ((internal_offset - BG3Y) * 8) value));
      ([BG2PA; BG2PA + 1], affine 2 BG2PA Background.pa Background.set_pa);
      ([BG3PA; BG3PA + 1], affine 3 BG3PA Background.pa Background.set_pa);
      ([BG2PB; BG2PB + 1], affine 2 BG2PB Background.pb Background.set_pb);
      ([BG3PB; BG3PB + 1], affine 3 BG3PB Background.pb Background.set_pb);
      ([BG2PC; BG2PC + 1], affine 2 BG2PC Background.pc Background.set_pc);
      ([BG3PC; BG3PC + 1], affine 3 BG3PC Background.pc Background.set_pc);
      ([BG2PD; BG2PD + 1], affine 2 BG2PD Background.pd Background.set_pd);
      ([BG3PD; BG3PD + 1], affine 3 BG3PD Background.pd Background.set_pd);
      ([WIN0H], win_field 0 (Window.set_right value));
      ([WIN0H + 1], win_field 0 (Window.set_left value));
      ([WIN1H], win_field 1 (Window.set_right value));
      ([WIN1H + 1], win_field 1 (Window.set_left value));
      ([WIN0V], win_field 0 (Window.set_bottom value));
      ([WIN0V + 1], win_field 0 (Window.set_top value));
      ([WIN1V], win_field 1 (Window.set_bottom value));
      ([WIN1V + 1], win_field 1 (Window.set_top value));
      ([WININ], win_field 0 (write_WININ value));
      ([WININ + 1], win_field 1 (write_WININ value));
      ([WINOUT],
        upd_video (fun v => set_m_WinOut (write_WINOUT value (m_WinOut v)) v) m);
      ([WINOUT + 1], m);
      ([DMA0SAD; DMA0SAD + 1; DMA0SAD + 2; DMA0SAD + 3], dma_source 0 DMA0SAD);
      ([DMA1SAD; DMA1SAD + 1; DMA1SAD + 2; DMA1SAD + 3], dma_source 1 DMA1SAD);
      ([DMA2SAD; DMA2SAD + 1; DMA2SAD + 2; DMA2SAD + 3], dma_source 2 DMA2SAD);
      ([DMA3SAD; DMA3SAD + 1; DMA3SAD + 2; DMA3SAD + 3], dma_source 3 DMA3SAD);
      ([DMA0DAD; DMA0DAD + 1; DMA0DAD + 2; DMA0DAD + 3], dma_dest 0 DMA0DAD);
      ([DMA1DAD; DMA1DAD + 1; DMA1DAD + 2; DMA1DAD + 3], dma_dest 1 DMA1DAD);
      ([DMA2DAD; DMA2DAD + 1; DMA2DAD + 2; DMA2DAD + 3], dma_dest 2 DMA2DAD);
      ([DMA3DAD; DMA3DAD + 1; DMA3DAD + 2; DMA3DAD + 3], dma_dest 3 DMA3DAD);
      ([DMA0CNT_L], dma_count_lo 0);
      ([DMA0CNT_L + 1], dma_count_hi 0);
      ([DMA1CNT_L], dma_count_lo 1);
      ([DMA1CNT_L + 1], dma_count_hi 1);
      ([DMA2CNT_L], dma_count_lo 2);
      ([DMA2CNT_L + 1], dma_count_hi 2);
      ([DMA3CNT_L], dma_count_lo 3);
      ([DMA3CNT_L + 1], dma_count_hi 3);
      ([DMA0CNT_H], upd_dma 0 (write_DMACNT_H value) m);
      ([DMA0CNT_H + 1], upd_dma 0 (write_DMACNT_H_1 0%fin value) m);
      ([DMA1CNT_H], upd_dma 1 (write_DMACNT_H value) m);
      ([DMA1CNT_H + 1], upd_dma 1 (write_DMACNT_H_1 1%fin value) m);
      ([DMA2CNT_H], upd_dma 2 (write_DMACNT_H value) m);
      ([DMA2CNT_H + 1], upd_dma 2 (write_DMACNT_H_1 2%fin value) m);
      ([DMA3CNT_H], upd_dma 3 (write_DMACNT_H value) m);
      ([DMA3CNT_H + 1], upd_dma 3 (write_DMACNT_H_1 3%fin value) m);
      ([TM0CNT_L], reload_lo 0);
      ([TM0CNT_L + 1], reload_hi 0);
      ([TM1CNT_L], reload_lo 1);
      ([TM1CNT_L + 1], reload_hi 1);
      ([TM2CNT_L], reload_lo 2);
      ([TM2CNT_L + 1], reload_hi 2);
      ([TM3CNT_L], reload_lo 3);
      ([TM3CNT_L + 1], reload_hi 3);
      ([TM0CNT_H; TM1CNT_H; TM2CNT_H; TM3CNT_H],
        let n := (internal_offset - TM0CNT_H) / 4 in
        upd_timer n (write_TMCNT_H value) m);
      ([IE],
        upd_irq (fun i => set_ie (u16 (Z.lor (Z.land (ie i) 0xFF00) value)) i) m);
      ([IE + 1],
        upd_irq (fun i =>
          set_ie (u16 (Z.lor (Z.land (ie i) 0x00FF) (Z.shiftl value 8))) i) m);
      ([IF],
        upd_irq (fun i => set_if_ (u16 (Z.land (if_ i) (Z.lnot value))) i) m);
      ([IF + 1],
        upd_irq (fun i =>
          set_if_ (u16 (Z.land (if_ i) (Z.lnot (Z.shiftl value 8)))) i) m);
      ([WAITCNT], upd_ws (write_WAITCNT value) m);
      ([WAITCNT + 1], upd_ws (write_WAITCNT_1 value) m);
      ([IME],
        upd_irq (fun i => set_ime (u16 (Z.lor (Z.land (ime i) 0xFF00) value)) i) m);
      ([IME + 1],
        upd_irq (fun i =>
          set_ime (u16 (Z.lor (Z.land (ime i) 0x00FF) (Z.shiftl value 8))) i) m);
      ([HALTCNT],
        set_m_HaltState
          (if bit value 0x80 then HaltState.Stop else HaltState.Halt) m) ]
    m.

(** *** Writes *)

(** [GBAMemory::WriteHWord], with the byte writer of its [default:]
    branch as a parameter.  [WriteByte] and [WriteHWord] call each
    other in the source; [WriteByte] only calls [WriteHWord] with an
    address of region 5, 6 or 7, where [WriteHWord] stores directly,
    so the knot is tied below in two steps.  In region 6 the second
    store goes to the index after the folded one without a fold of its
    own: at the folded index 0x17FFF it goes to index 0x18000, one past
    the end of the array [m_VRAM] of the source, which the model keeps
    as a cell of its own that no read reaches. *)
Definition WriteHWord_with (WriteByte : GBAMemory -> Z -> Z -> GBAMemory)
    (m : GBAMemory) (offset value : Z) : GBAMemory :=
  let offset := u32 offset in
  let value := u16 value in
  let page := Z.land (Z.shiftr offset 24) 0xF in
  let internal_offset := Z.land offset 0xFFFFFF in
  switch page
    [ ([5],
        upd_video (fun v =>
          let v := set_m_PAL
            (store (m_PAL v) (internal_offset mod 0x400) (Z.land value 0xFF)) v in
          set_m_PAL
            (store (m_PAL v) ((internal_offset + 1) mod 0x400)
               (Z.land (Z.shiftr value 8) 0xFF)) v) m);
      ([6],
        let internal_offset := vram_index internal_offset in
        upd_video (fun v =>
          let v := set_m_VRAM
            (store (m_VRAM v) internal_offset (Z.land value 0xFF)) v in
          set_m_VRAM
            (store (m_VRAM v) (internal_offset + 1)
               (Z.land (Z.shiftr value 8) 0xFF)) v) m);
      ([7],
        upd_video (fun v =>
          let v := set_m_OAM
            (store (m_OAM v) (internal_offset mod 0x400) (Z.land value 0xFF)) v in
          set_m_OAM
            (store (m_OAM v) ((internal_offset + 1) mod 0x400)
               (Z.land (Z.shiftr value 8) 0xFF)) v) m) ]
    (let m := WriteByte m offset (Z.land value 0xFF) in
     WriteByte m (offset + 1) (Z.land (Z.shiftr value 8) 0xFF)).

(** [GBAMemory::WriteByte]. *)
Definition WriteByte (m : GBAMemory) (offset value : Z) : GBAMemory :=
  let offset := u32 offset in
  let value := u8 value in
  let page := Z.shiftr offset 24 in
  let internal_offset := Z.land offset 0xFFFFFF in
  switch page
    [ ([0], m);
      ([2], set_m_WRAM (store (m_WRAM m) (internal_offset mod 0x40000) value) m);
      ([3], set_m_IRAM (store (m_IRAM m) (internal_offset mod 0x8000) value) m);
      ([4],
        if (0x3FF <=? internal_offset) && negb (Z.land internal_offset 0xFFFF =? 0x800)
        then m
        else
          let internal_offset :=
            if Z.land internal_offset 0xFFFF =? 0x800
            then Z.land internal_offset 0xFFFF else internal_offset in
          WriteIO m internal_offset value);
      ([5; 6; 7],
        WriteHWord_with (fun m _ _ => m) m
          (Z.land offset (Z.lnot 1)) (Z.lor (Z.shiftl value 8) value));
      ([8; 9], m);
      ([0xE],
        match backup_present m with
        | Some b => set_m_Backup (Some (Backup_WriteByte b offset value)) m
        | None => m
        end) ]
    m.

(** [GBAMemory::WriteHWord]. *)
Definition WriteHWord : GBAMemory -> Z -> Z -> GBAMemory :=
  WriteHWord_with WriteByte.

(** [GBAMemory::WriteWord]. *)
Definition WriteWord (m : GBAMemory) (offset value : Z) : GBAMemory :=
  let offset := u32 offset in
  let value := u32 value in
  let m := WriteHWord m offset (Z.land value 0xFFFF) in
  let m := WriteHWord m (offset + 2) (Z.land (Z.shiftr value 16) 0xFFFF) in
  let reload n := upd_timer n (fun t => Timer.set_count (Timer.reload t) t) m in
  if to_bool (Z.land value (Z.shiftl 1 23)) then
    switch offset
      [ ([Z.lor TM0CNT_L 0x04000000], reload 0);
        ([Z.lor TM1CNT_L 0x04000000], reload 1);
        ([Z.lor TM2CNT_L 0x04000000], reload 2);
        ([Z.lor TM3CNT_L 0x04000000], reload 3) ]
      m
  else m.

(** *** Access timing *)

Import AccessSize.

Definition is_word (size : AccessSize) : bool :=
  match size with Word => true | _ => false end.

(** [GBAMemory::SequentialAccess]. *)
Definition SequentialAccess (m : GBAMemory) (offset : Z) (size : AccessSize) : Z :=
  let page := Z.shiftr (u32 offset) 24 in
  let first0 := Waitstate.first (m_Waitstate m) !!! 0%fin in
  if page =? 2 then
    if is_word size then 6 else 3
  else if (page =? 5) || (page =? 6) then
    if is_word size then 2 else 1
  else if page =? 8 then
    if is_word size
    then 1 + 2 * (wsn_table !!! idx4 first0)
    else 1 + wsn_table !!! idx4 first0
  else if page =? 0xE then
    if is_word size
       && negb (match m_SaveType m with SRAM => true | _ => false end)
    then 8 else 5
  else 1.

(** [GBAMemory::NonSequentialAccess]. *)
Definition NonSequentialAccess (m : GBAMemory) (offset : Z) (size : AccessSize) : Z :=
  let page := Z.shiftr (u32 offset) 24 in
  let first0 := Waitstate.first (m_Waitstate m) !!! 0%fin in
  let second0 := Waitstate.second (m_Waitstate m) !!! 0%fin in
  if page =? 8 then
    if is_word size
    then 1 + wss0_table !!! idx2 second0 + wsn_table !!! idx4 first0
    else 1 + wss0_table !!! idx2 second0
  else SequentialAccess m offset size.

(** *** Timers *)

(** The condition
    [(countup && overflow) || (!countup && ++ticks >= tmr_cycles[clock])]
    of [RunTimer], with the increment it performs when its right operand
    is evaluated. *)
Definition timer_due (t : Timer.Timer) (overflow : bool) : bool * Timer.Timer :=
  if Timer.countup t then (overflow, t)
  else
    let t := Timer.set_ticks (Timer.ticks t + 1) t in
    (tmr_cycles !!! idx4 (Timer.clock t) <=? Timer.ticks t, t).

(** One iteration of the loop of [GBAMemory::RunTimer]; [overflow] is
    the local variable declared before the loop. *)
Definition RunTimer_iteration (s : GBAMemory * bool) (i : Z) : GBAMemory * bool :=
  let '(m, overflow) := s in
  let t := m_Timer m !!! idx4 i in
  if negb (Timer.enable t) then (m, overflow)
  else
    let '(due, t) := timer_due t overflow in
    let m := upd_timer i (fun _ => t) m in
    if due then
      let m := upd_timer i (Timer.set_ticks 0) m in
      if negb (Timer.count (m_Timer m !!! idx4 i) =? 0xFFFF) then
        let m := upd_timer i (fun t => Timer.set_count (u16 (Timer.count t + 1)) t) m in
        (m, false)
      else
        let m :=
          if Timer.interrupt (m_Timer m !!! idx4 i)
          then upd_irq (fun q => set_if_ (u16 (Z.lor (if_ q) (Z.shiftl 8 i))) q) m
          else m in
        let m := upd_timer i (fun t => Timer.set_count (Timer.reload t) t) m in
        (m, true)
    else (m, overflow).

(** The state after the first [k] iterations of the loop. *)
Definition RunTimer_upto (k : nat) (m : GBAMemory) : GBAMemory * bool :=
  fold_left RunTimer_iteration (take k [0; 1; 2; 3]) (m, false).

(** [GBAMemory::RunTimer]. *)
Definition RunTimer (m : GBAMemory) : GBAMemory :=
  fst (RunTimer_upto 4 m).

(** *** Construction *)

(** [memcpy(a, src, sizeof src)] into a zeroed array. *)
Definition load (src : list Z) : bytes :=
  fun i => if (0 <=? i) && (i <? Z.of_nat (length src))
           then default 0 (src !! Z.to_nat i) else 0.

(** The constructor of [GBAMemory], after the ROM file has been read
    and the save type detected: [rom] is the content of the file,
    [bios] the optional BIOS image (of at most 0x4000 bytes). *)
Definition GBAMemory_new (rom : list Z) (bios : option (list Z))
    (save_type : SaveType.SaveType) (save : option B) : GBAMemory :=
  Build_GBAMemory rom (Z.of_nat (length rom))
    (load (match bios with Some b => b | None => hle_bios end))
    zeroed zeroed save save_type
    [# DMA.init; DMA.init; DMA.init; DMA.init]
    [# Timer.init; Timer.init; Timer.init; Timer.init]
    Waitstate.init (Build_GBAInterrupt 0 0 0) HaltState.None
    Video.init false 0 0x3FF.

End Bus.

End Memory.

(** ** arm7.h, arm7.cpp *)

Module ARM7.

(** Modelled from the spec: arm7.h is not among the sources.  The
    CPSR masks and the mode numbers are those of the specification
    (section 3): IRQ-disable is bit 7, FIQ-disable bit 6, Thumb bit 5,
    the mode is bits 4..0 with User 0x10, FIQ 0x11, IRQ 0x12, SVC 0x13,
    Abort 0x17, Undefined 0x1B and System 0x1F. *)
Definition Thumb : Z := 0x20.
Definition FIQDisable : Z := 0x40.
Definition IRQDisable : Z := 0x80.

Module ARM7Mode.

Definition User : Z := 0x10.
Definition FIQ : Z := 0x11.
Definition IRQ : Z := 0x12.
Definition SVC : Z := 0x13.
Definition Abort : Z := 0x17.
Definition Undefined : Z := 0x1B.
Definition System : Z := 0x1F.

End ARM7Mode.

(** The register members of [class ARM7].  A pointer into the register
    file ([gprs[i]]) is the name of the member it points to. *)
Inductive Register : Type :=
  | r0 | r1 | r2 | r3 | r4 | r5 | r6 | r7
  | r8 | r9 | r10 | r11 | r12 | r13 | r14 | r15
  | r8_fiq | r9_fiq | r10_fiq | r11_fiq | r12_fiq | r13_fiq | r14_fiq
  | r13_svc | r14_svc
  | r13_abt | r14_abt
  | r13_irq | r14_irq
  | r13_und | r14_und.

Inductive StatusRegister : Type :=
  | spsr_fiq | spsr_svc | spsr_abt | spsr_irq | spsr_und | spsr_def.

#[global] Instance Register_eq_dec : EqDecision Register.
Proof. solve_decision. Defined.

#[global] Instance StatusRegister_eq_dec : EqDecision StatusRegister.
Proof. solve_decision. Defined.

Record ARM7 : Type := Build_ARM7 {
  regs : Register -> Z;
  cpsr : Z;
  spsr : StatusRegister -> Z;
  gprs : vec Register 16;
  pspsr : StatusRegister;
  pipe_opcode : vec Z 3;
  pipe_decode : vec Z 3;
  pipe_status : Z;
  flush_pipe : bool;
  last_fetched_opcode : Z;
  last_fetched_offset : Z;
  last_bios_offset : Z;
  hle : bool
}.

Definition set_regs (a : Register -> Z) (c : ARM7) : ARM7 :=
  Build_ARM7 a (cpsr c) (spsr c) (gprs c) (pspsr c) (pipe_opcode c) (pipe_decode c) (pipe_status c) (flush_pipe c) (last_fetched_opcode c) (last_fetched_offset c) (last_bios_offset c) (hle c).
Definition set_cpsr (a : Z) (c : ARM7) : ARM7 :=
  Build_ARM7 (regs c) a (spsr c) (gprs c) (pspsr c) (pipe_opcode c) (pipe_decode c) (pipe_status c) (flush_pipe c) (last_fetched_opcode c) (last_fetched_offset c) (last_bios_offset c) (hle c).
Definition set_spsr (a : StatusRegister -> Z) (c : ARM7) : ARM7 :=
  Build_ARM7 (regs c) (cpsr c) a (gprs c) (pspsr c) (pipe_opcode c) (pipe_decode c) (pipe_status c) (flush_pipe c) (last_fetched_opcode c) (last_fetched_offset c) (last_bios_offset c) (hle c).
Definition set_gprs (a : vec Register 16) (c : ARM7) : ARM7 :=
  Build_ARM7 (regs c) (cpsr c) (spsr c) a (pspsr c) (pipe_opcode c) (pipe_decode c) (pipe_status c) (flush_pipe c) (last_fetched_opcode c) (last_fetched_offset c) (last_bios_offset c) (hle c).
Definition set_pspsr (a : StatusRegister) (c : ARM7) : ARM7 :=
  Build_ARM7 (regs c) (cpsr c) (spsr c) (gprs c) a (pipe_opcode c) (pipe_decode c) (pipe_status c) (flush_pipe c) (last_fetched_opcode c) (last_fetched_offset c) (last_bios_offset c) (hle c).
Definition set_pipe_status (a : Z) (c : ARM7) : ARM7 :=
  Build_ARM7 (regs c) (cpsr c) (spsr c) (gprs c) (pspsr c) (pipe_opcode c) (pipe_decode c) a (flush_pipe c) (last_fetched_opcode c) (last_fetched_offset c) (last_bios_offset c) (hle c).

(** [member = value;] for a register member. *)
Definition assign (r : Register) (value : Z) (c : ARM7) : ARM7 :=
  set_regs (fun r' => if decide (r' = r) then u32 value else regs c r') c.

Definition assign_spsr (r : StatusRegister) (value : Z) (c : ARM7) : ARM7 :=
  set_spsr (fun r' => if decide (r' = r) then u32 value else spsr c r') c.

(** [reg(r)]: the register that [gprs[r]] points to. *)
Definition reg (c : ARM7) (r : fin 16) : Z := regs c (gprs c !!! r).

(** [gprs[8] = &a8; ... gprs[14] = &a14; pspsr = &s;] *)
Definition remap (a8 a9 a10 a11 a12 a13 a14 : Register) (s : StatusRegister)
    (c : ARM7) : ARM7 :=
  let g := gprs c in
  let g := vinsert 8%fin a8 g in
  let g := vinsert 9%fin a9 g in
  let g := vinsert 10%fin a10 g in
  let g := vinsert 11%fin a11 g in
  let g := vinsert 12%fin a12 g in
  let g := vinsert 13%fin a13 g in
  let g := vinsert 14%fin a14 g in
  set_pspsr s (set_gprs g c).

(** [ARM7::RemapRegisters]. *)
Definition RemapRegisters (c : ARM7) : ARM7 :=
  switch (Z.land (cpsr c) 0x1F)
    [ ([ARM7Mode.User], remap r8 r9 r10 r11 r12 r13 r14 spsr_def c);
      ([ARM7Mode.FIQ],
        remap r8_fiq r9_fiq r10_fiq r11_fiq r12_fiq r13_fiq r14_fiq spsr_fiq c);
      ([ARM7Mode.IRQ], remap r8 r9 r10 r11 r12 r13_irq r14_irq spsr_irq c);
      ([ARM7Mode.SVC], remap r8 r9 r10 r11 r12 r13_svc r14_svc spsr_svc c);
      ([ARM7Mode.Abort], remap r8 r9 r10 r11 r12 r13_abt r14_abt spsr_abt c);
      ([ARM7Mode.Undefined], remap r8 r9 r10 r11 r12 r13_und r14_und spsr_und c);
      ([ARM7Mode.System], remap r8 r9 r10 r11 r12 r13 r14 spsr_def c) ]
    c.

(** [ARM7::GetGeneralRegister]: the bank of [mode] is mapped in, the
    register read, and the bank of the old mode mapped in again. *)
Definition GetGeneralRegister (c : ARM7) (mode : Z) (r : fin 16) : Z * ARM7 :=
  let old_mode := Z.land (cpsr c) 0x1F in
  let c := set_cpsr (u32 (Z.lor (Z.land (cpsr c) (Z.lnot 0x1F)) (u32 mode))) c in
  let c := RemapRegisters c in
  let value := reg c r in
  let c := set_cpsr (u32 (Z.lor (Z.land (cpsr c) (Z.lnot 0x1F)) (u32 old_mode))) c in
  let c := RemapRegisters c in
  (value, c).

(** [ARM7::GetCurrentStatusRegister]. *)
Definition GetCurrentStatusRegister (c : ARM7) : Z := cpsr c.

(** [ARM7::GetSavedStatusRegister]. *)
Definition GetSavedStatusRegister (c : ARM7) (mode : Z) : Z :=
  switch mode
    [ ([ARM7Mode.FIQ], spsr c spsr_fiq);
      ([ARM7Mode.SVC], spsr c spsr_svc);
      ([ARM7Mode.Abort], spsr c spsr_abt);
      ([ARM7Mode.IRQ], spsr c spsr_irq);
      ([ARM7Mode.Undefined], spsr c spsr_und) ]
    0.

(** [ARM7::SetGeneralRegister]. *)
Definition SetGeneralRegister (c : ARM7) (mode : Z) (r : fin 16) (value : Z) : ARM7 :=
  let old_mode := Z.land (cpsr c) 0x1F in
  let c := set_cpsr (u32 (Z.lor (Z.land (cpsr c) (Z.lnot 0x1F)) (u32 mode))) c in
  let c := RemapRegisters c in
  let c := assign (gprs c !!! r) value c in
  let c := set_cpsr (u32 (Z.lor (Z.land (cpsr c) (Z.lnot 0x1F)) (u32 old_mode))) c in
  RemapRegisters c.

(** [ARM7::SetCurrentStatusRegister]. *)
Definition SetCurrentStatusRegister (c : ARM7) (value : Z) : ARM7 :=
  set_cpsr (u32 value) c.

(** [ARM7::SetSavedStatusRegister]. *)
Definition SetSavedStatusRegister (c : ARM7) (mode value : Z) : ARM7 :=
  switch mode
    [ ([ARM7Mode.FIQ], assign_spsr spsr_fiq value c);
      ([ARM7Mode.SVC], assign_spsr spsr_svc value c);
      ([ARM7Mode.Abort], assign_spsr spsr_abt value c);
      ([ARM7Mode.IRQ], assign_spsr spsr_irq value c);
      ([ARM7Mode.Undefined], assign_spsr spsr_und value c) ]
    c.

(** [ARM7::FireIRQ]. *)
Definition FireIRQ (c : ARM7) : ARM7 :=
  if Z.land (cpsr c) IRQDisable =? 0 then
    let c :=
      assign r14_irq
        (regs c r15 - (if to_bool (Z.land (cpsr c) Thumb) then 4 else 8) + 4) c in
    let c := assign_spsr spsr_irq (cpsr c) c in
    let c :=
      set_cpsr
        (u32 (Z.lor (Z.lor (Z.land (cpsr c) (Z.lnot 0x3F)) ARM7Mode.IRQ) IRQDisable)) c in
    let c := RemapRegisters c in
    let c := assign r15 0x18 c in
    set_pipe_status 0 c
  else c.

(** The constructor of [ARM7], up to the decode caches: the static
    part of the pointer table, [RemapRegisters], and the registers set
    to skip the boot logo.  [cpsr0] is the initial value of [cpsr]
    given by its member initialiser in arm7.h. *)
Definition ARM7_new (cpsr0 : Z) (hle : bool) : ARM7 :=
  let c :=
    Build_ARM7 (fun _ => 0) (u32 cpsr0) (fun _ => 0)
      [# r0; r1; r2; r3; r4; r5; r6; r7; r8; r9; r10; r11; r12; r13; r14; r15]
      spsr_def [# 0; 0; 0] [# 0; 0; 0] 0 false 0 0 0 false in
  let c := RemapRegisters c in
  let c := assign r15 0x8000000 c in
  let c := assign r13 0x3007F00 c in
  let c := assign r13_svc 0x3007FE0 c in
  let c := assign r13_irq 0x3007FA0 c in
  Build_ARM7 (regs c) (cpsr c) (spsr c) (gprs c) (pspsr c) (pipe_opcode c)
    (pipe_decode c) (pipe_status c) (flush_pipe c) (last_fetched_opcode c)
    (last_fetched_offset c) (last_bios_offset c) hle.

End ARM7.

(** ** cpu.cpp *)

Module CPU.

(** Modelled from the spec: cpu.hpp, which gives the four waitstate
    tables their values, is not among the sources.  The values are
    those of the specification (section 8, property 5), the same as
    the tables of memory.cpp: N table {4,3,2,8}, sequential tables
    {2,1}, {4,1} and {8,1} for WS0, WS1 and WS2. *)
Definition s_ws_nseq : vec Z 4 := [# 4; 3; 2; 8].
Definition s_ws_seq0 : vec Z 2 := [# 2; 1].
Definition s_ws_seq1 : vec Z 2 := [# 4; 1].
Definition s_ws_seq2 : vec Z 2 := [# 8; 1].

(** The first index of the cycle tables. *)
Inductive AccessType : Type := ACCESS_NSEQ | ACCESS_SEQ.

(** [mmio.waitcnt]. *)
Record WaitstateControl : Type := Build_WaitstateControl {
  sram : Z;
  ws0_n : Z;
  ws0_s : Z;
  ws1_n : Z;
  ws1_s : Z;
  ws2_n : Z;
  ws2_s : Z;
  phi : Z;
  prefetch : Z;
  cgb : Z
}.

(** The part of [class CPU] that [UpdateCycleLUT] reads and writes:
    [cycles16[2][16]] and [cycles32[2][16]], indexed by access type and
    by the top nibble of the address. *)
Record CPU : Type := Build_CPU {
  waitcnt : WaitstateControl;
  cycles16 : AccessType -> Z -> Z;
  cycles32 : AccessType -> Z -> Z
}.

Definition same_type (a b : AccessType) : bool :=
  match a, b with
  | ACCESS_NSEQ, ACCESS_NSEQ | ACCESS_SEQ, ACCESS_SEQ => true
  | _, _ => false
  end.

(** [cycles16[a][page] = v;] *)
Definition set16 (a : AccessType) (page v : Z) (c : CPU) : CPU :=
  Build_CPU (waitcnt c)
    (fun a' page' => if same_type a' a && (page' =? page) then v else cycles16 c a' page')
    (cycles32 c).

(** [cycles32[a][page] = v;] *)
Definition set32 (a : AccessType) (page v : Z) (c : CPU) : CPU :=
  Build_CPU (waitcnt c) (cycles16 c)
    (fun a' page' => if same_type a' a && (page' =? page) then v else cycles32 c a' page').

(** The body of the loop of [UpdateCycleLUT]. *)
Definition UpdateCycleLUT_iteration (c : CPU) (i : Z) : CPU :=
  let w := waitcnt c in
  let c := set16 ACCESS_NSEQ (0x8 + i) (1 + s_ws_nseq !!! idx4 (ws0_n w)) c in
  let c := set16 ACCESS_NSEQ (0xA + i) (1 + s_ws_nseq !!! idx4 (ws1_n w)) c in
  let c := set16 ACCESS_NSEQ (0xC + i) (1 + s_ws_nseq !!! idx4 (ws2_n w)) c in
  let c := set16 ACCESS_SEQ (0x8 + i) (1 + s_ws_seq0 !!! idx2 (ws0_s w)) c in
  let c := set16 ACCESS_SEQ (0xA + i) (1 + s_ws_seq1 !!! idx2 (ws1_s w)) c in
  let c := set16 ACCESS_SEQ (0xC + i) (1 + s_ws_seq2 !!! idx2 (ws2_s w)) c in
  let c := set32 ACCESS_NSEQ (0x8 + i)
             (cycles16 c ACCESS_NSEQ 0x8 + cycles16 c ACCESS_SEQ 0x8) c in
  let c := set32 ACCESS_NSEQ (0xA + i)
             (cycles16 c ACCESS_NSEQ 0xA + cycles16 c ACCESS_SEQ 0xA) c in
  let c := set32 ACCESS_NSEQ (0xC + i)
             (cycles16 c ACCESS_NSEQ 0xC + cycles16 c ACCESS_SEQ 0xC) c in
  let c := set32 ACCESS_SEQ (0x8 + i) (cycles16 c ACCESS_SEQ 0x8 * 2) c in
  let c := set32 ACCESS_SEQ (0xA + i) (cycles16 c ACCESS_SEQ 0xA * 2) c in
  set32 ACCESS_SEQ (0xC + i) (cycles16 c ACCESS_SEQ 0xC * 2) c.

(** [CPU::UpdateCycleLUT]. *)
Definition UpdateCycleLUT (c : CPU) : CPU :=
  let sram_cycles := 1 + s_ws_nseq !!! idx4 (sram (waitcnt c)) in
  let c := set16 ACCESS_NSEQ 0xE sram_cycles c in
  let c := set32 ACCESS_NSEQ 0xE sram_cycles c in
  let c := set16 ACCESS_SEQ 0xE sram_cycles c in
  let c := set32 ACCESS_SEQ 0xE sram_cycles c in
  fold_left UpdateCycleLUT_iteration [0; 1] c.

(** The fixed entries written by [CPU::Reset] before it calls
    [UpdateCycleLUT]. *)
Definition reset_cycles (wide : bool) (page : Z) : Z :=
  switch page
    [ ([0x0; 0x1; 0x3; 0x4; 0x7; 0xF], 1);
      ([0x2], if wide then 6 else 3);
      ([0x5; 0x6], if wide then 2 else 1) ]
    0.

(** The waitstate registers and cycle tables after [CPU::Reset]. *)
Definition Reset : CPU :=
  UpdateCycleLUT
    (Build_CPU (Build_WaitstateControl 0 0 0 0 0 0 0 0 0 0)
       (fun _ => reset_cycles false) (fun _ => reset_cycles true)).

End CPU.

Import Memory.

(** ** Predicates and sample states of the statements below *)

(** The PPU at the first dot of the first scanline of a frame. *)
Definition frame_start (v : GBAVideo) : Prop :=
  m_State v = Scanline /\ m_Ticks v = 0 /\ m_VCount v = 0.

(** Where the PPU is [n] steps after the start of a frame: the line
    counts modulo 227 lines of 1232 dots; lines below 160 spend 960
    dots drawing and 272 in HBlank, the others are in VBlank. *)
Definition phase (n : Z) (v : GBAVideo) : Prop :=
  let line := (n / 1232) mod 227 in
  let dot := n mod 1232 in
  m_VCount v = line /\
  if line <? 160 then
    if dot <? 960 then m_State v = Scanline /\ m_Ticks v = dot
    else m_State v = HBlank /\ m_Ticks v = dot - 960
  else m_State v = VBlank /\ m_Ticks v = dot.

(** Regions whose bytes no bus write changes. *)
Definition read_only (page : Z) : Prop :=
  page = 0 \/ page = 1 \/ 8 <= page <= 0xD.

(** The offsets of [DMAnCNT_H] and [TMnCNT_L]. *)
Definition DMAnCNT_H (n : fin 4) : Z :=
  [# DMA0CNT_H; DMA1CNT_H; DMA2CNT_H; DMA3CNT_H] !!! n.

Definition TMnCNT_L (n : fin 4) : Z :=
  [# TM0CNT_L; TM1CNT_L; TM2CNT_L; TM3CNT_L] !!! n.

(** The addresses at which [WriteWord] looks for its special case. *)
Definition TMnCNT_L_address (offset : Z) : bool :=
  existsb (Z.eqb offset)
    [Z.lor TM0CNT_L 0x04000000; Z.lor TM1CNT_L 0x04000000;
     Z.lor TM2CNT_L 0x04000000; Z.lor TM3CNT_L 0x04000000].

(** The four timer counts. *)
Definition timer_counts {B : Type} (m : GBAMemory B) : vec Z 4 :=
  vmap Timer.count (m_Timer m).

(** Whether timer [i] advances in its iteration of [RunTimer], entered
    in state [s]: it is enabled and the condition of the loop body holds. *)
Definition timer_advances {B : Type} (s : GBAMemory B * bool) (i : Z) : bool :=
  let t := m_Timer (fst s) !!! idx4 i in
  Timer.enable t && fst (timer_due t (snd s)).

(** Whether timer [i] wraps around in its iteration: it advances while
    its count is 0xFFFF. *)
Definition timer_overflows {B : Type} (s : GBAMemory B * bool) (i : Z) : bool :=
  timer_advances s i && (Timer.count (m_Timer (fst s) !!! idx4 i) =? 0xFFFF).

(** The bus as constructed without a BIOS image, a ROM or a backup. *)
Definition power_on : GBAMemory bytes :=
  GBAMemory_new [] None SaveType.SRAM None.

(** The bytes 11 22 33 44 at the start of on-board work RAM. *)
Definition wram_sample : GBAMemory bytes :=
  WriteWord power_on 0x02000000 0x44332211.

(** Interrupts pending and enabled. *)
Definition irq_sample : GBAMemory bytes :=
  set_m_Interrupt (Build_GBAInterrupt 0x3FFF 0x1249 1) power_on.

(** Channel 0 programmed and enabled with source 0x02000010, then its
    source register rewritten while the channel is still enabled. *)
Definition dma_sample : GBAMemory bytes :=
  let m := WriteWord power_on 0x040000B0 0x02000010 in
  let m := WriteByte m 0x040000BB 0x80 in
  WriteWord m 0x040000B0 0x02000020.

(** Timer 0 enabled with its interrupt, prescaler 1 and count 0xFFFF;
    timer 1 disabled; timer 2 enabled in count-up mode with count 5. *)
Definition timer_sample : GBAMemory bytes :=
  let m := WriteWord power_on 0x04000100 0x00C0FFFF in
  WriteWord m 0x04000108 0x00840005.

(** Timer 0 enabled with prescaler 1, reload and count 0xFFFF; timer 1
    enabled in count-up mode, starting at 0. *)
Definition cascade_sample : GBAMemory bytes :=
  let m := WriteWord power_on 0x04000100 0x0080FFFF in
  WriteWord m 0x04000104 0x00840000.

(** The CPU after construction, in System mode and Thumb state with
    interrupts enabled. *)
Definition cpu_sample : ARM7.ARM7 :=
  ARM7.ARM7_new (Z.lor ARM7.ARM7Mode.System ARM7.Thumb) false.

(** The address offset of the control register of timer [n]. *)
Definition TMnCNT_H (n : fin 4) : Z :=
  [# TM0CNT_H; TM1CNT_H; TM2CNT_H; TM3CNT_H] !!! n.

(** The settings of a timer, which only register writes change. *)
Definition timer_settings (t : Timer.Timer) : Z * Z * bool * bool * bool :=
  (Timer.reload t, Timer.clock t, Timer.enable t, Timer.countup t, Timer.interrupt t).

(** The state [m] with the timers and the interrupt flags of [m']. *)
Definition with_timers_of {B : Type} (m' m : GBAMemory B) : GBAMemory B :=
  set_m_Interrupt (set_if_ (if_ (m_Interrupt m')) (m_Interrupt m))
    (set_m_Timer (m_Timer m') m).

(** A background without its latched reference point. *)
Definition background_registers (b : Background.Background) : Background.Background :=
  Background.set_x_ref_int (Build_GBAFloat false 0 0)
    (Background.set_y_ref_int (Build_GBAFloat false 0 0) b).

(** What the bus writes into the video unit and [Step] only reads:
    video memory and the display registers. *)
Definition video_programmed (v : GBAVideo) :=
  (m_PAL v, m_VRAM v, m_OAM v,
   vmap background_registers (m_BG v), m_Obj v, m_Win v, m_WinOut v, m_ObjWin v,
   (m_VideoMode v, m_FrameSelect v, m_ForcedBlank v),
   (m_VBlankIRQ v, m_HBlankIRQ v, m_VCountIRQ v, m_VCountSetting v)).

(** The interrupt registers after flags among VBlank, HBlank and VCount
    (bits 0 to 2 of IF) have been raised: no flag is cleared, none of
    the others changes, and IE and IME are as before. *)
Definition video_flags_raised (irq irq' : GBAInterrupt) : Prop :=
  ie irq' = ie irq /\ ime irq' = ime irq /\
  forall b, 0 <= b < 16 ->
    (Z.testbit (if_ irq) b = true -> Z.testbit (if_ irq') b = true) /\
    (3 <= b -> Z.testbit (if_ irq') b = Z.testbit (if_ irq) b).

(** The modes that [ARM7::RemapRegisters] has a case for. *)
Definition valid_mode (mode : Z) : Prop :=
  In mode [ARM7.ARM7Mode.User; ARM7.ARM7Mode.FIQ; ARM7.ARM7Mode.IRQ; ARM7.ARM7Mode.SVC;
           ARM7.ARM7Mode.Abort; ARM7.ARM7Mode.Undefined; ARM7.ARM7Mode.System].

(** The modes that have a saved status register. *)
Definition exception_mode (mode : Z) : Prop :=
  In mode [ARM7.ARM7Mode.FIQ; ARM7.ARM7Mode.SVC; ARM7.ARM7Mode.Abort;
           ARM7.ARM7Mode.IRQ; ARM7.ARM7Mode.Undefined].

(** The pointer table with its banked entries, 8 to 14, blanked: what
    is left are the entries that [ARM7::RemapRegisters] never assigns. *)
Definition unbanked (g : vec ARM7.Register 16) : vec ARM7.Register 16 :=
  let g := vinsert 8%fin ARM7.r0 g in
  let g := vinsert 9%fin ARM7.r0 g in
  let g := vinsert 10%fin ARM7.r0 g in
  let g := vinsert 11%fin ARM7.r0 g in
  let g := vinsert 12%fin ARM7.r0 g in
  let g := vinsert 13%fin ARM7.r0 g in
  vinsert 14%fin ARM7.r0 g.

(** The register member that [reg(r)] names in [mode]. *)
Definition banked (c : ARM7.ARM7) (mode : Z) (r : fin 16) : ARM7.Register :=
  ARM7.gprs (ARM7.RemapRegisters (ARM7.set_cpsr (u32 mode) c)) !!! r.

(** A cartridge of four bytes and no backup memory. *)
Definition rom_sample : GBAMemory bytes :=
  GBAMemory_new [0x2E; 0x00; 0x00; 0xEA] None SaveType.SRAM None.

(** Timer 0 enabled with prescaler 64, counting from 0. *)
Definition prescaler_sample : GBAMemory bytes :=
  WriteWord power_on 0x04000100 0x00810000.

(** ** Proof automation *)

(** Decide the closed conditions of the conditionals in the goal. *)
Ltac decide_conditions :=
  repeat match goal with
  | |- context [if ?b then _ else _] =>
      let b' := eval vm_compute in b in
      first [constr_eq b' true | constr_eq b' false];
      change b with b'; cbv iota
  end.

(** Resolve lookups in updated fixed-size arrays. *)
Ltac vec_lookups :=
  repeat first
    [ rewrite vlookup_insert
    | rewrite vlookup_insert_ne by discriminate ].

(** Case analysis on a channel or timer number. *)
Ltac each_of_four n :=
  inv_fin n;
  [ | intros n; inv_fin n;
      [ | intros n; inv_fin n;
          [ | intros n; inv_fin n; [ | intros n; inv_fin n ] ] ] ].

(** * Properties *)

(** ** Fixed-width arithmetic *)

Lemma u8_range x : 0 <= u8 x < 2 ^ 8.
Proof. unfold u8. apply Z.mod_pos_bound. lia. Qed.

Lemma u16_range x : 0 <= u16 x < 2 ^ 16.
Proof. unfold u16. apply Z.mod_pos_bound. lia. Qed.

Lemma u32_range x : 0 <= u32 x < 2 ^ 32.
Proof. unfold u32. apply Z.mod_pos_bound. lia. Qed.

Lemma u8_small x : 0 <= x < 2 ^ 8 -> u8 x = x.
Proof. intros H. unfold u8. apply Z.mod_small. exact H. Qed.

Lemma u16_small x : 0 <= x < 2 ^ 16 -> u16 x = x.
Proof. intros H. unfold u16. apply Z.mod_small. exact H. Qed.

Lemma u32_small x : 0 <= x < 2 ^ 32 -> u32 x = x.
Proof. intros H. unfold u32. apply Z.mod_small. exact H. Qed.

Lemma u32_idem x : u32 (u32 x) = u32 x.
Proof. apply u32_small, u32_range. Qed.

Lemma u32_add_l x y : u32 (u32 x + y) = u32 (x + y).
Proof. unfold u32. apply Zplus_mod_idemp_l. Qed.

Lemma u16_land x : u16 x = Z.land x (Z.ones 16).
Proof. unfold u16. symmetry. apply Z.land_ones. lia. Qed.

Lemma u32_land x : u32 x = Z.land x (Z.ones 32).
Proof. unfold u32. symmetry. apply Z.land_ones. lia. Qed.

Lemma land_ones_range x k : 0 <= k -> 0 <= Z.land x (Z.ones k) < 2 ^ k.
Proof.
  intros Hk. rewrite Z.land_ones by exact Hk.
  apply Z.mod_pos_bound. apply Z.pow_pos_nonneg; lia.
Qed.

Lemma land_nibble p : 0 <= p <= 0xF -> Z.land p 0xF = p.
Proof.
  intros Hp. change 0xF with (Z.ones 4). rewrite Z.land_ones by lia.
  apply Z.mod_small. lia.
Qed.

(** Clearing the low [k] bits: [x & ~(2^k - 1)]. *)
Lemma land_lnot_ones x k :
  0 <= k -> Z.land x (Z.lnot (Z.ones k)) = 2 ^ k * (x / 2 ^ k).
Proof.
  intros Hk.
  rewrite <- Z.ldiff_land, Z.ldiff_ones_r by exact Hk.
  rewrite Z.shiftl_mul_pow2, Z.shiftr_div_pow2 by exact Hk. lia.
Qed.

Lemma align_range x k :
  0 <= k -> 0 <= x < 2 ^ 32 ->
  0 <= Z.land x (Z.lnot (Z.ones k)) < 2 ^ 32.
Proof.
  intros Hk Hx. rewrite land_lnot_ones by exact Hk.
  assert (0 < 2 ^ k) by (apply Z.pow_pos_nonneg; lia).
  pose proof (Z.mul_div_le x (2 ^ k) ltac:(lia)).
  assert (0 <= x / 2 ^ k) by (apply Z.div_pos; lia).
  nia.
Qed.

(** Aligning an address keeps it in its region. *)
Lemma align_page x k :
  0 <= k <= 24 ->
  Z.shiftr (Z.land x (Z.lnot (Z.ones k))) 24 = Z.shiftr x 24.
Proof.
  intros Hk. rewrite land_lnot_ones by lia.
  rewrite !Z.shiftr_div_pow2 by lia.
  replace (2 ^ 24) with (2 ^ k * 2 ^ (24 - k))
    by (rewrite <- Z.pow_add_r by lia; f_equal; lia).
  assert (0 < 2 ^ k) by (apply Z.pow_pos_nonneg; lia).
  assert (0 < 2 ^ (24 - k)) by (apply Z.pow_pos_nonneg; lia).
  rewrite <- !Z.div_div by lia.
  rewrite (Z.mul_comm (2 ^ k)), Z.div_mul by lia. reflexivity.
Qed.

Lemma already_aligned x k :
  0 <= k -> Z.land x (Z.ones k) = 0 -> Z.land x (Z.lnot (Z.ones k)) = x.
Proof.
  intros Hk H0. rewrite land_lnot_ones by exact Hk.
  rewrite Z.land_ones in H0 by exact Hk.
  assert (0 < 2 ^ k) by (apply Z.pow_pos_nonneg; lia).
  pose proof (Z.div_mod x (2 ^ k) ltac:(lia)). lia.
Qed.

(** Bits that do not overlap add up. *)
Lemma lor_shiftl_add lo hi k :
  0 <= k -> 0 <= lo < 2 ^ k ->
  Z.lor lo (Z.shiftl hi k) = lo + 2 ^ k * hi.
Proof.
  intros Hk Hlo.
  assert (Hdisj : Z.land lo (Z.shiftl hi k) = 0).
  { apply Z.bits_inj'. intros i Hi.
    rewrite Z.land_spec, Z.bits_0.
    destruct (Z.lt_ge_cases i k).
    - rewrite Z.shiftl_spec_low by lia. apply andb_false_r.
    - destruct (Z.eq_dec lo 0) as [-> | Hne]; [rewrite Z.bits_0; reflexivity|].
      rewrite (Z.bits_above_log2 lo i); [reflexivity | lia |].
      apply Z.log2_lt_pow2; [lia|].
      apply Z.lt_le_trans with (2 ^ k); [lia|].
      apply Z.pow_le_mono_r; lia. }
  rewrite <- Z.lxor_lor by exact Hdisj.
  rewrite <- Z.add_nocarry_lxor by exact Hdisj.
  rewrite Z.shiftl_mul_pow2 by exact Hk. lia.
Qed.

(** The region of an address a few bytes further on. *)
Lemma next_page x k :
  0 <= k <= 3 -> Z.shiftr (u32 x) 24 < 0xFF ->
  Z.shiftr (u32 (u32 x + k)) 24 = Z.shiftr (u32 x) 24 \/
  Z.shiftr (u32 (u32 x + k)) 24 = Z.shiftr (u32 x) 24 + 1.
Proof.
  intros Hk. rewrite !Z.shiftr_div_pow2 by lia. intros Hp.
  pose proof (u32_range x) as Hx.
  pose proof (Z.div_mod (u32 x) (2 ^ 24) ltac:(lia)) as Hd.
  pose proof (Z.mod_pos_bound (u32 x) (2 ^ 24) ltac:(lia)) as Hm.
  rewrite (u32_small (u32 x + k)) by lia.
  pose proof (Z.div_mod (u32 x + k) (2 ^ 24) ltac:(lia)) as Hd'.
  pose proof (Z.mod_pos_bound (u32 x + k) (2 ^ 24) ltac:(lia)) as Hm'.
  lia.
Qed.

Lemma mod_succ_ne x n : 1 < n -> x mod n <> (x + 1) mod n.
Proof.
  intros Hn Heq.
  pose proof (Z.mod_pos_bound x n ltac:(lia)).
  pose proof (Z.div_mod x n ltac:(lia)).
  pose proof (Z.div_mod (x + 1) n ltac:(lia)).
  rewrite <- Heq in *.
  assert (n * ((x + 1) / n - x / n) = 1) by lia.
  assert ((x + 1) / n - x / n = 1 \/ (x + 1) / n - x / n <= 0 \/
          2 <= (x + 1) / n - x / n) by lia.
  nia.
Qed.

(** A property of bytes checked on each of the 256 values. *)
Lemma byte_cases (P : Z -> bool) :
  forallb P (map Z.of_nat (seq 0 256)) = true ->
  forall v, 0 <= v < 2 ^ 8 -> P v = true.
Proof.
  intros Hall v Hv.
  rewrite forallb_forall in Hall. apply Hall.
  apply in_map_iff. exists (Z.to_nat v). split; [lia|].
  apply in_seq. lia.
Qed.

(** ** Arrays and switches *)

Lemma store_eq a i v : store a i v i = v.
Proof. unfold store. rewrite Z.eqb_refl. reflexivity. Qed.

Lemma store_ne a i j v : j <> i -> store a i v j = a j.
Proof.
  unfold store. intros H.
  destruct (Z.eqb_spec j i); [contradiction | reflexivity].
Qed.

(** What holds of every case body and of the default holds of the
    [switch]. *)
Lemma switch_ind {A : Type} (P : A -> Prop) x cases default :
  P default -> Forall (fun c => P (snd c)) cases -> P (switch x cases default).
Proof.
  intros Hd Hall. induction Hall as [|[labels body] rest Hb _ IH]; cbn.
  - exact Hd.
  - destruct (existsb (Z.eqb x) labels); [exact Hb | exact IH].
Qed.

Lemma vmap_vinsert_same {A C : Type} {n} (f : A -> C) (g : A -> A)
    (i : fin n) (v : vec A n) :
  f (g (v !!! i)) = f (v !!! i) ->
  vmap f (vinsert i (g (v !!! i)) v) = vmap f v.
Proof.
  intros H. rewrite vmap_insert, H, <- vlookup_map. apply vlookup_insert_self.
Qed.

(** ** Access timing of the ROM region *)

(** [CPU::UpdateCycleLUT] fills the ROM entries of the cycle tables from
    the waitstate registers: a 16-bit access costs 1 + N (first access)
    or 1 + S (sequential), a 32-bit access the sum of a first and a
    sequential access or twice a sequential one, for each of the three
    ROM images and both of its regions. *)
Lemma UpdateCycleLUT_rom c :
  let w := CPU.waitcnt c in
  let c' := CPU.UpdateCycleLUT c in
  let n16 := CPU.cycles16 c' CPU.ACCESS_NSEQ in
  let s16 := CPU.cycles16 c' CPU.ACCESS_SEQ in
  let n32 := CPU.cycles32 c' CPU.ACCESS_NSEQ in
  let s32 := CPU.cycles32 c' CPU.ACCESS_SEQ in
  let N k := CPU.s_ws_nseq !!! idx4 k in
  let S0 := CPU.s_ws_seq0 !!! idx2 (CPU.ws0_s w) in
  let S1 := CPU.s_ws_seq1 !!! idx2 (CPU.ws1_s w) in
  let S2 := CPU.s_ws_seq2 !!! idx2 (CPU.ws2_s w) in
  (forall p, p = 0x8 \/ p = 0x9 ->
     n16 p = 1 + N (CPU.ws0_n w) /\ s16 p = 1 + S0 /\
     n32 p = (1 + N (CPU.ws0_n w)) + (1 + S0) /\ s32 p = 2 * (1 + S0)) /\
  (forall p, p = 0xA \/ p = 0xB ->
     n16 p = 1 + N (CPU.ws1_n w) /\ s16 p = 1 + S1 /\
     n32 p = (1 + N (CPU.ws1_n w)) + (1 + S1) /\ s32 p = 2 * (1 + S1)) /\
  (forall p, p = 0xC \/ p = 0xD ->
     n16 p = 1 + N (CPU.ws2_n w) /\ s16 p = 1 + S2 /\
     n32 p = (1 + N (CPU.ws2_n w)) + (1 + S2) /\ s32 p = 2 * (1 + S2)).
Proof.
  cbv zeta.
  split; [|split]; intros p [-> | ->]; cbn; decide_conditions; repeat split; lia.
Qed.

Section AccessTiming.

Context {B : Type} {backup : GBABackup B}.
Implicit Types m : GBAMemory B.

(** [GBAMemory::NonSequentialAccess] and [GBAMemory::SequentialAccess]
    in region 8: the non-sequential halfword access reads the WS0
    sequential table, the sequential word access the first-access
    table. *)
Lemma rom_access_cycles m offset :
  Z.shiftr (u32 offset) 24 = 8 ->
  let ws0_n := Waitstate.first (m_Waitstate m) !!! 0%fin in
  let ws0_s := Waitstate.second (m_Waitstate m) !!! 0%fin in
  NonSequentialAccess m offset AccessSize.Hword = 1 + wss0_table !!! idx2 ws0_s /\
  SequentialAccess m offset AccessSize.Word = 1 + 2 * (wsn_table !!! idx4 ws0_n).
Proof.
  intros Hpage. unfold NonSequentialAccess, SequentialAccess.
  rewrite Hpage. cbn. auto.
Qed.

Lemma WriteByte_WAITCNT m value :
  WriteByte m 0x04000204 value = upd_ws (write_WAITCNT (u8 value)) m.
Proof. reflexivity. Qed.

Lemma WAITCNT_low_written m value :
  let m' := WriteByte m 0x04000204 value in
  Waitstate.first (m_Waitstate m') !!! 0%fin = Z.land (Z.shiftr (u8 value) 2) 3 /\
  Waitstate.second (m_Waitstate m') !!! 0%fin = Z.land (Z.shiftr (u8 value) 4) 1.
Proof.
  cbv zeta. rewrite WriteByte_WAITCNT. unfold upd_ws, write_WAITCNT. cbn -[vinsert].
  vec_lookups. split; reflexivity.
Qed.

(** After any value is written to WAITCNT, a non-sequential halfword
    access to region 8 costs 1 + the WS0 sequential waitstate and a
    sequential word access 1 + twice the WS0 first-access waitstate. *)
Lemma rom_access_after_WAITCNT m value :
  let m' := WriteByte m 0x04000204 value in
  let ws0_n := Z.land (Z.shiftr (u8 value) 2) 3 in
  let ws0_s := Z.land (Z.shiftr (u8 value) 4) 1 in
  NonSequentialAccess m' 0x08000000 AccessSize.Hword = 1 + wss0_table !!! idx2 ws0_s /\
  SequentialAccess m' 0x08000000 AccessSize.Word = 1 + 2 * (wsn_table !!! idx4 ws0_n).
Proof.
  cbv zeta.
  destruct (WAITCNT_low_written m value) as [Hn Hs]. cbv zeta in Hn, Hs.
  destruct (rom_access_cycles (WriteByte m 0x04000204 value) 0x08000000 eq_refl)
    as [H1 H2].
  cbv zeta in H1, H2. rewrite Hs in H1. rewrite Hn in H2. auto.
Qed.

End AccessTiming.

(** C1.  With WAITCNT written as 0 (ws0_n = 0, ws0_s = 0), the claimed
    costs in region 8 are 1 + N[0] = 5 cycles for a non-sequential
    16-bit access and 2 * (1 + S[0]) = 6 cycles for a sequential 32-bit
    access.  [GBAMemory::NonSequentialAccess] returns 3 and
    [GBAMemory::SequentialAccess] returns 9: the two functions read each
    other's table.  ([UpdateCycleLUT_rom] shows the cycle tables of
    cpu.cpp holding the claimed values.) *)
Theorem C1_rom_access_tables_swapped :
  let m := WriteByte power_on 0x04000204 0 in
  let ws0_n := Waitstate.first (m_Waitstate m) !!! 0%fin in
  let ws0_s := Waitstate.second (m_Waitstate m) !!! 0%fin in
  ws0_n = 0 /\ ws0_s = 0 /\
  NonSequentialAccess m 0x08000000 AccessSize.Hword = 3 /\
  1 + wsn_table !!! idx4 ws0_n = 5 /\
  SequentialAccess m 0x08000000 AccessSize.Word = 9 /\
  2 * (1 + wss0_table !!! idx2 ws0_s) = 6 /\
  CPU.cycles16 CPU.Reset CPU.ACCESS_NSEQ 0x8 = 5 /\
  CPU.cycles32 CPU.Reset CPU.ACCESS_SEQ 0x8 = 6.
Proof. vm_compute. repeat split. Qed.

(** ** Halfword and word accesses *)

Section Access.

Context {B : Type} {backup : GBABackup B}.
Implicit Types m : GBAMemory B.

Lemma ReadByte_range m offset : 0 <= ReadByte m offset < 2 ^ 8.
Proof. unfold ReadByte. cbv zeta. apply u8_range. Qed.

Lemma ReadByte_u32 m offset : ReadByte m (u32 offset) = ReadByte m offset.
Proof. unfold ReadByte. cbv zeta. rewrite u32_idem. reflexivity. Qed.

Lemma ReadByte_u32_add m offset k :
  ReadByte m (u32 offset + k) = ReadByte m (offset + k).
Proof.
  rewrite <- (ReadByte_u32 m (u32 offset + k)), u32_add_l. apply ReadByte_u32.
Qed.

(** A halfword read is the little-endian pair of the bytes at the
    address given and at the next one. *)
Lemma ReadHWord_bytes m offset :
  ReadHWord m offset = ReadByte m offset + 2 ^ 8 * ReadByte m (offset + 1).
Proof.
  unfold ReadHWord.
  pose proof (ReadByte_range m offset).
  pose proof (ReadByte_range m (offset + 1)).
  rewrite lor_shiftl_add by lia.
  unfold u16. apply Z.mod_small. lia.
Qed.

Lemma ReadWord_bytes m offset :
  ReadWord m offset =
  ReadByte m offset + 2 ^ 8 * ReadByte m (offset + 1) +
  2 ^ 16 * ReadByte m (offset + 2) + 2 ^ 24 * ReadByte m (offset + 3).
Proof.
  unfold ReadWord.
  pose proof (ReadByte_range m offset).
  pose proof (ReadByte_range m (offset + 1)).
  pose proof (ReadByte_range m (offset + 2)).
  pose proof (ReadByte_range m (offset + 3)).
  rewrite (lor_shiftl_add _ _ 8) by lia.
  rewrite (lor_shiftl_add _ _ 16) by lia.
  rewrite (lor_shiftl_add _ _ 24) by lia.
  apply u32_small. lia.
Qed.

Lemma ReadHWord_u32 m offset : ReadHWord m (u32 offset) = ReadHWord m offset.
Proof. unfold ReadHWord. rewrite ReadByte_u32, ReadByte_u32_add. reflexivity. Qed.

Lemma ReadWord_u32 m offset : ReadWord m (u32 offset) = ReadWord m offset.
Proof. unfold ReadWord. rewrite ReadByte_u32, !ReadByte_u32_add. reflexivity. Qed.

Lemma WriteHWord_u32 m offset value :
  WriteHWord m (u32 offset) value = WriteHWord m offset value.
Proof.
  unfold WriteHWord, WriteHWord_with. cbv zeta. rewrite u32_idem. reflexivity.
Qed.

Lemma WriteWord_u32 m offset value :
  WriteWord m (u32 offset) value = WriteWord m offset value.
Proof. unfold WriteWord. cbv zeta. rewrite u32_idem. reflexivity. Qed.

(** Outside regions 5, 6 and 7 a halfword write is two byte writes, at
    the address given and at the next one. *)
Lemma WriteHWord_bytes m offset value :
  ~ 5 <= Z.land (Z.shiftr (u32 offset) 24) 0xF <= 7 ->
  WriteHWord m offset value =
  WriteByte (WriteByte m (u32 offset) (Z.land (u16 value) 0xFF))
    (u32 offset + 1) (Z.land (Z.shiftr (u16 value) 8) 0xFF).
Proof.
  intros Hpage. unfold WriteHWord, WriteHWord_with. cbv zeta.
  set (page := Z.land (Z.shiftr (u32 offset) 24) 0xF) in *.
  unfold switch, existsb.
  destruct (Z.eqb_spec page 5); [lia|].
  destruct (Z.eqb_spec page 6); [lia|].
  destruct (Z.eqb_spec page 7); [lia|].
  reflexivity.
Qed.

(** A halfword write reduces its address modulo 2^32 like the other
    accesses. *)
Lemma WriteHWord_u32_add m offset k value :
  WriteHWord m (u32 offset + k) value = WriteHWord m (offset + k) value.
Proof.
  rewrite <- (WriteHWord_u32 m (u32 offset + k)), u32_add_l. apply WriteHWord_u32.
Qed.

(** The two halfword writes of a word write. *)
Lemma WriteWord_halves m offset value :
  let halves :=
    WriteHWord (WriteHWord m offset (Z.land (u32 value) 0xFFFF))
      (offset + 2) (Z.land (Z.shiftr (u32 value) 16) 0xFFFF) in
  (to_bool (Z.land (u32 value) (Z.shiftl 1 23)) && TMnCNT_L_address (u32 offset) = false ->
     WriteWord m offset value = halves) /\
  (forall n : fin 4,
     to_bool (Z.land (u32 value) (Z.shiftl 1 23)) = true ->
     u32 offset = 0x04000000 + TMnCNT_L n ->
     WriteWord m offset value =
     set_m_Timer
       (vinsert n
          (Timer.set_count (Timer.reload (m_Timer halves !!! n)) (m_Timer halves !!! n))
          (m_Timer halves))
       halves).
Proof.
  cbv zeta. unfold WriteWord. cbv zeta.
  rewrite WriteHWord_u32, WriteHWord_u32_add.
  split.
  - intros Hno.
    destruct (to_bool (Z.land (u32 value) (Z.shiftl 1 23))); [|reflexivity].
    cbn [andb] in Hno. unfold TMnCNT_L_address in Hno. cbn [existsb] in Hno.
    apply orb_false_iff in Hno. destruct Hno as [H0 Hno].
    apply orb_false_iff in Hno. destruct Hno as [H1 Hno].
    apply orb_false_iff in Hno. destruct Hno as [H2 Hno].
    apply orb_false_iff in Hno. destruct Hno as [H3 _].
    unfold switch. cbn [existsb]. rewrite H0, H1, H2, H3. reflexivity.
  - intros n Hbit Ha. rewrite Hbit, Ha.
    each_of_four n; reflexivity.
Qed.

(** At an odd address the masked halfword read starts one byte
    earlier. *)
Lemma ReadHWord_masked_odd m offset :
  Z.land (u32 offset) 1 = 1 ->
  ReadHWord m (Z.land (u32 offset) (Z.lnot 1)) =
  ReadByte m (offset - 1) + 2 ^ 8 * ReadByte m offset.
Proof.
  intros Hodd.
  change (Z.lnot 1) with (Z.lnot (Z.ones 1)).
  rewrite land_lnot_ones by lia.
  change 1 with (Z.ones 1) in Hodd at 1. rewrite Z.land_ones in Hodd by lia.
  pose proof (Z.div_mod (u32 offset) (2 ^ 1) ltac:(lia)) as Hdm.
  replace (2 ^ 1 * (u32 offset / 2 ^ 1)) with (u32 offset + -1) by lia.
  rewrite ReadHWord_bytes.
  replace (u32 offset + -1 + 1) with (u32 offset) by lia.
  rewrite ReadByte_u32, ReadByte_u32_add.
  replace (offset + -1) with (offset - 1) by lia. reflexivity.
Qed.

End Access.

(** C4, as the code has it.  The bus does not align: a halfword read
    combines the bytes at [a] and [a + 1], a word read those at [a] to
    [a + 3]; a halfword write outside palette RAM, VRAM and OAM stores
    its two bytes at [a] and [a + 1]; a word write is the halfword
    write of the low half at [a] followed by that of the high half at
    [a + 2], and, when bit 23 of the value is set and [a] is the address
    of a TMnCNT_L register, the load of that timer's count from its
    reload after them.  At an odd [a] the halfword read at the masked
    address combines the bytes at [a - 1] and [a] instead.  An access at
    [a] and the access at the masked address agree when [a] is aligned
    already. *)
Theorem C4_accesses_use_the_address_given {B : Type} {backup : GBABackup B}
    (m : GBAMemory B) (a v : Z) :
  let halves :=
    WriteHWord (WriteHWord m a (Z.land (u32 v) 0xFFFF))
      (a + 2) (Z.land (Z.shiftr (u32 v) 16) 0xFFFF) in
  ReadHWord m a = ReadByte m a + 2 ^ 8 * ReadByte m (a + 1) /\
  ReadWord m a =
    ReadByte m a + 2 ^ 8 * ReadByte m (a + 1) +
    2 ^ 16 * ReadByte m (a + 2) + 2 ^ 24 * ReadByte m (a + 3) /\
  (~ 5 <= Z.land (Z.shiftr (u32 a) 24) 0xF <= 7 ->
     WriteHWord m a v =
     WriteByte (WriteByte m (u32 a) (Z.land (u16 v) 0xFF))
       (u32 a + 1) (Z.land (Z.shiftr (u16 v) 8) 0xFF)) /\
  (to_bool (Z.land (u32 v) (Z.shiftl 1 23)) && TMnCNT_L_address (u32 a) = false ->
     WriteWord m a v = halves) /\
  (forall n : fin 4,
     to_bool (Z.land (u32 v) (Z.shiftl 1 23)) = true ->
     u32 a = 0x04000000 + TMnCNT_L n ->
     WriteWord m a v =
     set_m_Timer
       (vinsert n
          (Timer.set_count (Timer.reload (m_Timer halves !!! n)) (m_Timer halves !!! n))
          (m_Timer halves))
       halves) /\
  (Z.land (u32 a) 1 = 1 ->
     ReadHWord m (Z.land (u32 a) (Z.lnot 1)) =
     ReadByte m (a - 1) + 2 ^ 8 * ReadByte m a) /\
  (Z.land (u32 a) 1 = 0 ->
     ReadHWord m (Z.land (u32 a) (Z.lnot 1)) = ReadHWord m a /\
     WriteHWord m (Z.land (u32 a) (Z.lnot 1)) v = WriteHWord m a v) /\
  (Z.land (u32 a) 3 = 0 ->
     ReadWord m (Z.land (u32 a) (Z.lnot 3)) = ReadWord m a /\
     WriteWord m (Z.land (u32 a) (Z.lnot 3)) v = WriteWord m a v).
Proof.
  cbv zeta.
  split; [apply ReadHWord_bytes|].
  split; [apply ReadWord_bytes|].
  split; [apply WriteHWord_bytes|].
  split; [apply (WriteWord_halves m a v)|].
  split; [apply (WriteWord_halves m a v)|].
  split; [apply ReadHWord_masked_odd|].
  split; intros Hal.
  - change (Z.lnot 1) with (Z.lnot (Z.ones 1)).
    rewrite (already_aligned (u32 a) 1) by (exact Hal || lia).
    split; [apply ReadHWord_u32 | apply WriteHWord_u32].
  - change (Z.lnot 3) with (Z.lnot (Z.ones 2)).
    rewrite (already_aligned (u32 a) 2) by (exact Hal || lia).
    split; [apply ReadWord_u32 | apply WriteWord_u32].
Qed.

(** C4, as stated, fails at the odd address 0x02000001: the halfword
    and word reads there differ from the reads at the masked address,
    and the writes land on different bytes. *)
Lemma C4_counterexample :
  let m := wram_sample in
  ReadHWord m 0x02000001 = 0x3322 /\
  ReadHWord m (Z.land 0x02000001 (Z.lnot 1)) = 0x2211 /\
  ReadWord m 0x02000001 = 0x00443322 /\
  ReadWord m (Z.land 0x02000001 (Z.lnot 3)) = 0x44332211 /\
  ReadByte (WriteHWord m 0x02000001 0xBBAA) 0x02000000 = 0x11 /\
  ReadByte (WriteHWord m (Z.land 0x02000001 (Z.lnot 1)) 0xBBAA) 0x02000000 = 0xAA /\
  ReadByte (WriteWord m 0x02000001 0xDDCCBBAA) 0x02000000 = 0x11 /\
  ReadByte (WriteWord m (Z.land 0x02000001 (Z.lnot 3)) 0xDDCCBBAA) 0x02000000 = 0xAA.
Proof. vm_compute. repeat split. Qed.

(** C4 at addresses of work RAM and at TM0CNT_L: the accesses at
    aligned addresses, a word write as its two halfword writes, the
    count of timer 0 loaded by the word write and not by the halfword
    writes, and the masked read at an odd address. *)
Lemma C4_witness :
  let m := wram_sample in
  ReadHWord m 0x02000002 = 0x4433 /\
  WriteHWord m 0x02000002 0xBBAA =
    WriteByte (WriteByte m 0x02000002 0xAA) 0x02000003 0xBB /\
  WriteWord m 0x02000004 0xDDCCBBAA =
    WriteHWord (WriteHWord m 0x02000004 0xBBAA) 0x02000006 0xDDCC /\
  Timer.count (m_Timer (WriteWord m 0x04000100 0x0080FFFF) !!! 0%fin) = 0xFFFF /\
  Timer.count
    (m_Timer (WriteHWord (WriteHWord m 0x04000100 0xFFFF) 0x04000102 0x0080) !!! 0%fin) = 0 /\
  ReadHWord m (Z.land 0x02000001 (Z.lnot 1)) = 0x2211 /\
  ReadHWord m (Z.land 0x02000002 (Z.lnot 1)) = ReadHWord m 0x02000002 /\
  ReadWord m (Z.land 0x02000004 (Z.lnot 3)) = ReadWord m 0x02000004.
Proof.
  cbv zeta.
  destruct (C4_accesses_use_the_address_given wram_sample 0x02000002 0xBBAA)
    as (Hr16 & _ & Hw16 & _ & _ & _ & Hal16 & _).
  destruct (C4_accesses_use_the_address_given wram_sample 0x02000004 0xDDCCBBAA)
    as (_ & _ & _ & Hw32 & _ & _ & _ & Hal32).
  destruct (C4_accesses_use_the_address_given wram_sample 0x04000100 0x0080FFFF)
    as (_ & _ & _ & _ & Htimer & _).
  destruct (C4_accesses_use_the_address_given wram_sample 0x02000001 0)
    as (_ & _ & _ & _ & _ & Hodd & _).
  split; [rewrite Hr16; vm_compute; reflexivity|].
  split; [apply Hw16; vm_compute; intros [H _]; apply H; reflexivity|].
  split; [exact (Hw32 eq_refl)|].
  split; [rewrite (Htimer 0%fin eq_refl eq_refl); vm_compute; reflexivity|].
  split; [vm_compute; reflexivity|].
  split; [exact (eq_trans (Hodd eq_refl) eq_refl)|].
  split; [apply Hal16; reflexivity | apply Hal32; reflexivity].
Defined.

(** ** Writes to video memory and to read-only regions *)

Lemma widened_halves v :
  0 <= v < 2 ^ 8 ->
  let h := u16 (Z.lor (Z.shiftl v 8) v) in
  Z.land h 0xFF = v /\ Z.land (Z.shiftr h 8) 0xFF = v.
Proof.
  intros Hv. cbv zeta.
  pose proof (byte_cases
    (fun v => (Z.land (u16 (Z.lor (Z.shiftl v 8) v)) 0xFF =? v) &&
              (Z.land (Z.shiftr (u16 (Z.lor (Z.shiftl v 8) v)) 8) 0xFF =? v))
    ltac:(vm_compute; reflexivity) v Hv) as H.
  cbv beta in H. apply andb_true_iff in H. destruct H as [H1 H2].
  split; apply Z.eqb_eq; assumption.
Qed.

Section VideoMemory.

Context {B : Type} {backup : GBABackup B}.
Implicit Types m : GBAMemory B.

(** In regions 5, 6 and 7 [WriteHWord] never reaches its byte writer. *)
Lemma WriteHWord_with_direct f g m offset value :
  5 <= Z.land (Z.shiftr (u32 offset) 24) 0xF <= 7 ->
  WriteHWord_with f m offset value = WriteHWord_with g m offset value.
Proof.
  intros Hpage. unfold WriteHWord_with. cbv zeta.
  assert (Hc : Z.land (Z.shiftr (u32 offset) 24) 0xF = 5 \/
               Z.land (Z.shiftr (u32 offset) 24) 0xF = 6 \/
               Z.land (Z.shiftr (u32 offset) 24) 0xF = 7) by lia.
  destruct Hc as [-> | [-> | ->]]; reflexivity.
Qed.

(** The call [WriteHWord(offset & ~1, (value << 8) | value)] made by
    [WriteByte] in regions 5, 6 and 7. *)
Lemma WriteByte_widened m offset value :
  5 <= Z.shiftr (u32 offset) 24 <= 7 ->
  WriteByte m offset value =
  WriteHWord m (Z.land (u32 offset) (Z.lnot 1))
    (Z.lor (Z.shiftl (u8 value) 8) (u8 value)).
Proof.
  intros Hpage.
  assert (Halign : u32 (Z.land (u32 offset) (Z.lnot 1)) = Z.land (u32 offset) (Z.lnot 1)).
  { apply u32_small. apply (align_range _ 1); [lia | apply u32_range]. }
  assert (Hpage' : Z.shiftr (Z.land (u32 offset) (Z.lnot 1)) 24 = Z.shiftr (u32 offset) 24).
  { apply (align_page _ 1). lia. }
  assert (Hc : Z.shiftr (u32 offset) 24 = 5 \/ Z.shiftr (u32 offset) 24 = 6 \/
               Z.shiftr (u32 offset) 24 = 7) by lia.
  assert (E : WriteByte m offset value =
              WriteHWord_with (fun m _ _ => m) m (Z.land (u32 offset) (Z.lnot 1))
                (Z.lor (Z.shiftl (u8 value) 8) (u8 value))).
  { unfold WriteByte. cbv zeta.
    destruct Hc as [-> | [-> | ->]]; reflexivity. }
  rewrite E. unfold WriteHWord. apply WriteHWord_with_direct.
  rewrite Halign, Hpage'.
  destruct Hc as [-> | [-> | ->]]; vm_compute; split; discriminate.
Qed.

Lemma WriteHWord_PAL m offset value :
  Z.land (Z.shiftr (u32 offset) 24) 0xF = 5 ->
  let io := Z.land (u32 offset) 0xFFFFFF in
  let pal := m_PAL (m_Video (WriteHWord m offset value)) in
  pal (io mod 0x400) = Z.land (u16 value) 0xFF /\
  pal ((io + 1) mod 0x400) = Z.land (Z.shiftr (u16 value) 8) 0xFF.
Proof.
  intros Hpage. cbv zeta. unfold WriteHWord, WriteHWord_with. cbv zeta.
  rewrite Hpage. cbn.
  split.
  - rewrite store_ne by (apply mod_succ_ne; lia). apply store_eq.
  - apply store_eq.
Qed.

Lemma WriteHWord_OAM m offset value :
  Z.land (Z.shiftr (u32 offset) 24) 0xF = 7 ->
  let io := Z.land (u32 offset) 0xFFFFFF in
  let oam := m_OAM (m_Video (WriteHWord m offset value)) in
  oam (io mod 0x400) = Z.land (u16 value) 0xFF /\
  oam ((io + 1) mod 0x400) = Z.land (Z.shiftr (u16 value) 8) 0xFF.
Proof.
  intros Hpage. cbv zeta. unfold WriteHWord, WriteHWord_with. cbv zeta.
  rewrite Hpage. cbn.
  split.
  - rewrite store_ne by (apply mod_succ_ne; lia). apply store_eq.
  - apply store_eq.
Qed.

Lemma WriteHWord_VRAM m offset value :
  Z.land (Z.shiftr (u32 offset) 24) 0xF = 6 ->
  let i := vram_index (Z.land (u32 offset) 0xFFFFFF) in
  let vram := m_VRAM (m_Video (WriteHWord m offset value)) in
  vram i = Z.land (u16 value) 0xFF /\
  vram (i + 1) = Z.land (Z.shiftr (u16 value) 8) 0xFF.
Proof.
  intros Hpage. cbv zeta. unfold WriteHWord, WriteHWord_with. cbv zeta.
  rewrite Hpage. cbn.
  split.
  - rewrite store_ne by lia. apply store_eq.
  - apply store_eq.
Qed.

(** The bus keeps its VRAM index inside the 96 KiB array. *)
Lemma vram_index_range io : 0 <= vram_index io < 0x18000.
Proof.
  unfold vram_index. cbv zeta.
  pose proof (Z.mod_pos_bound io 0x20000 ltac:(lia)).
  destruct (Z.leb_spec 0x18000 (io mod 0x20000)); lia.
Qed.

Lemma WriteByte_dropped m offset value :
  read_only (Z.shiftr (u32 offset) 24) -> WriteByte m offset value = m.
Proof.
  intros Hpage. unfold WriteByte. cbv zeta.
  assert (Hc : Z.shiftr (u32 offset) 24 = 0 \/ Z.shiftr (u32 offset) 24 = 1 \/
               Z.shiftr (u32 offset) 24 = 8 \/ Z.shiftr (u32 offset) 24 = 9 \/
               Z.shiftr (u32 offset) 24 = 0xA \/ Z.shiftr (u32 offset) 24 = 0xB \/
               Z.shiftr (u32 offset) 24 = 0xC \/ Z.shiftr (u32 offset) 24 = 0xD)
    by (unfold read_only in Hpage; lia).
  destruct Hc as [-> | [-> | [-> | [-> | [-> | [-> | [-> | ->]]]]]]]; reflexivity.
Qed.

Lemma read_only_next x k :
  0 <= k <= 3 ->
  (let page := Z.shiftr (u32 x) 24 in page = 0 \/ 8 <= page <= 0xC) ->
  read_only (Z.shiftr (u32 (u32 x + k)) 24).
Proof.
  cbv zeta. intros Hk Hpage.
  destruct (next_page x k Hk ltac:(lia)) as [E | E];
    rewrite E; unfold read_only; lia.
Qed.

Lemma WriteHWord_read_only m offset value :
  read_only (Z.shiftr (u32 offset) 24) ->
  read_only (Z.shiftr (u32 (u32 offset + 1)) 24) ->
  WriteHWord m offset value = m.
Proof.
  intros H0 H1.
  rewrite WriteHWord_bytes by (rewrite land_nibble; unfold read_only in H0; lia).
  rewrite (WriteByte_dropped m (u32 offset)) by (rewrite u32_idem; exact H0).
  apply WriteByte_dropped. exact H1.
Qed.

Lemma WriteHWord_dropped m offset value :
  (let page := Z.shiftr (u32 offset) 24 in page = 0 \/ 8 <= page <= 0xC) ->
  WriteHWord m offset value = m.
Proof.
  cbv zeta. intros Hpage. apply WriteHWord_read_only.
  - unfold read_only. lia.
  - apply read_only_next; [lia | exact Hpage].
Qed.

Lemma WriteWord_dropped m offset value :
  (let page := Z.shiftr (u32 offset) 24 in page = 0 \/ 8 <= page <= 0xC) ->
  WriteWord m offset value = m.
Proof.
  cbv zeta. intros Hpage. unfold WriteWord. cbv zeta.
  rewrite (WriteHWord_dropped m (u32 offset)) by (cbv zeta; rewrite u32_idem; lia).
  rewrite (WriteHWord_read_only m (u32 offset + 2)).
  2:{ apply read_only_next; [lia | exact Hpage]. }
  2:{ rewrite u32_add_l. replace (u32 offset + 2 + 1) with (u32 offset + 3) by lia.
      apply read_only_next; [lia | exact Hpage]. }
  destruct (to_bool _); [|reflexivity].
  unfold switch, existsb.
  repeat match goal with
  | |- context [Z.eqb (u32 offset) ?c] =>
      destruct (Z.eqb_spec (u32 offset) c) as [E | _];
      [rewrite E in Hpage; change (Z.shiftr c 24) with 4 in Hpage; lia|]
  end.
  reflexivity.
Qed.

End VideoMemory.

(** C3, as the code has it.  A 16-bit write to palette RAM, VRAM or OAM
    stores the low byte at the index of the address and the high byte
    at the next index (for VRAM, where that index is inside the array,
    as at every even address); an 8-bit write to palette RAM, VRAM or
    OAM alike is the 16-bit write at the address with bit 0 cleared of
    the byte repeated in both halves; an 8-bit write to a ROM region
    leaves the whole bus state as it was. *)
Theorem C3_video_memory_writes {B : Type} {backup : GBABackup B}
    (m : GBAMemory B) (offset value : Z) :
  let page := Z.shiftr (u32 offset) 24 in
  let io := Z.land (u32 offset) 0xFFFFFF in
  let lo := Z.land (u16 value) 0xFF in
  let hi := Z.land (Z.shiftr (u16 value) 8) 0xFF in
  let v := m_Video (WriteHWord m offset value) in
  let h := Z.lor (Z.shiftl (u8 value) 8) (u8 value) in
  (page = 5 ->
     m_PAL v (io mod 0x400) = lo /\ m_PAL v ((io + 1) mod 0x400) = hi) /\
  (page = 6 -> vram_index io + 1 < 0x18000 ->
     m_VRAM v (vram_index io) = lo /\ m_VRAM v (vram_index io + 1) = hi) /\
  (page = 7 ->
     m_OAM v (io mod 0x400) = lo /\ m_OAM v ((io + 1) mod 0x400) = hi) /\
  (5 <= page <= 7 ->
     WriteByte m offset value = WriteHWord m (Z.land (u32 offset) (Z.lnot 1)) h /\
     Z.land (u16 h) 0xFF = u8 value /\
     Z.land (Z.shiftr (u16 h) 8) 0xFF = u8 value) /\
  (8 <= page <= 0xD -> WriteByte m offset value = m).
Proof.
  cbv zeta.
  split; [intros Hp; apply WriteHWord_PAL; rewrite Hp; reflexivity|].
  split; [intros Hp _; apply WriteHWord_VRAM; rewrite Hp; reflexivity|].
  split; [intros Hp; apply WriteHWord_OAM; rewrite Hp; reflexivity|].
  split.
  - intros Hp. split; [apply WriteByte_widened; exact Hp|].
    apply (widened_halves (u8 value)), u8_range.
  - intros Hp. apply WriteByte_dropped. unfold read_only. lia.
Qed.

(** C3, as stated, fails for OAM: the byte 0xAB written to 0x07000001
    is not ignored, it is stored at both 0x07000000 and 0x07000001. *)
Lemma C3_counterexample :
  let m := power_on in
  let m' := WriteByte m 0x07000001 0xAB in
  Z.shiftr (u32 0x07000001) 24 = 7 /\
  ReadByte m 0x07000000 = 0 /\ ReadByte m 0x07000001 = 0 /\
  ReadByte m' 0x07000000 = 0xAB /\ ReadByte m' 0x07000001 = 0xAB.
Proof. vm_compute. repeat split. Qed.

(** C3 at one address of each region. *)
Lemma C3_witness :
  let m := power_on in
  (let v := m_Video (WriteHWord m 0x05000010 0xBBAA) in
   m_PAL v 0x10 = 0xAA /\ m_PAL v 0x11 = 0xBB) /\
  (let v := m_Video (WriteHWord m 0x06012344 0xBBAA) in
   m_VRAM v 0x12344 = 0xAA /\ m_VRAM v 0x12345 = 0xBB) /\
  (let v := m_Video (WriteHWord m 0x07000010 0xBBAA) in
   m_OAM v 0x10 = 0xAA /\ m_OAM v 0x11 = 0xBB) /\
  WriteByte m 0x06012345 0xAB = WriteHWord m 0x06012344 0xABAB /\
  WriteByte m 0x08000000 0xAB = m.
Proof.
  cbv zeta.
  destruct (C3_video_memory_writes power_on 0x05000010 0xBBAA) as (Hpal & _).
  destruct (C3_video_memory_writes power_on 0x06012344 0xBBAA) as (_ & Hvram & _).
  destruct (C3_video_memory_writes power_on 0x07000010 0xBBAA) as (_ & _ & Hoam & _).
  destruct (C3_video_memory_writes power_on 0x06012345 0xAB) as (_ & _ & _ & Hwide & _).
  destruct (C3_video_memory_writes power_on 0x08000000 0xAB) as (_ & _ & _ & _ & Hrom).
  split; [exact (Hpal eq_refl)|].
  split; [exact (Hvram eq_refl eq_refl)|].
  split; [exact (Hoam eq_refl)|].
  split.
  - apply Hwide. vm_compute. split; discriminate.
  - apply Hrom. vm_compute. split; discriminate.
Defined.

(** C5, as the code has it.  A read of region 0 (or 1) returns 0 above
    offset 0x4000 and the BIOS byte below it; [ReadByte] is not given
    the program counter and does not depend on it.  A write of any
    width to the BIOS region or to a ROM region leaves the whole bus
    state as it was (byte writes: regions 8 to D; halfword and word
    writes: regions 8 to C, whose last bytes stay inside ROM). *)
Theorem C5_bios_reads_and_dropped_writes {B : Type} {backup : GBABackup B}
    (m : GBAMemory B) (offset value : Z) :
  let page := Z.shiftr (u32 offset) 24 in
  let io := Z.land (u32 offset) 0xFFFFFF in
  (page = 0 \/ page = 1 -> 0x4000 <= io -> ReadByte m offset = 0) /\
  (page = 0 \/ page = 1 -> io < 0x4000 -> ReadByte m offset = u8 (m_BIOS m io)) /\
  (page = 0 \/ 8 <= page <= 0xD -> WriteByte m offset value = m) /\
  (page = 0 \/ 8 <= page <= 0xC ->
     WriteHWord m offset value = m /\ WriteWord m offset value = m).
Proof.
  cbv zeta. split; [|split; [|split]].
  - intros Hpage Hio. unfold ReadByte. cbv zeta.
    destruct Hpage as [-> | ->]; cbn;
      destruct (Z.leb_spec 0x4000 (Z.land (u32 offset) 0xFFFFFF)); (reflexivity || lia).
  - intros Hpage Hio. unfold ReadByte. cbv zeta.
    destruct Hpage as [-> | ->]; cbn;
      destruct (Z.leb_spec 0x4000 (Z.land (u32 offset) 0xFFFFFF)); (reflexivity || lia).
  - intros Hpage. apply WriteByte_dropped. unfold read_only. lia.
  - intros Hpage.
    split; [apply WriteHWord_dropped | apply WriteWord_dropped]; exact Hpage.
Qed.

(** C5, as stated, fails on the dependence on the program counter: with the
    CPU at 0x08000000, outside the BIOS, the read of address 0 returns
    the first byte of the BIOS image. *)
Lemma C5_counterexample :
  let cpu := cpu_sample in
  let m := power_on in
  ARM7.regs cpu ARM7.r15 = 0x08000000 /\
  m_BIOS m 0 = 0x06 /\
  ReadByte m 0x00000000 = 0x06.
Proof. vm_compute. repeat split. Qed.

(** C5 at addresses of the BIOS and of the ROM. *)
Lemma C5_witness :
  let m := power_on in
  ReadByte m 0x00004000 = 0 /\
  ReadByte m 0x00000003 = 0xEA /\
  WriteByte m 0x00000003 0xFF = m /\
  WriteByte m 0x08000000 0xFF = m /\
  WriteHWord m 0x08000000 0xFFFF = m /\
  WriteWord m 0x00000000 0xFFFFFFFF = m.
Proof.
  cbv zeta.
  destruct (C5_bios_reads_and_dropped_writes power_on 0x00004000 0)
    as (Hout & _).
  destruct (C5_bios_reads_and_dropped_writes power_on 0x00000003 0xFF)
    as (_ & Hin & Hw8 & _).
  destruct (C5_bios_reads_and_dropped_writes power_on 0x08000000 0xFF)
    as (_ & _ & Hrom8 & _).
  destruct (C5_bios_reads_and_dropped_writes power_on 0x08000000 0xFFFF)
    as (_ & _ & _ & Hrom16).
  destruct (C5_bios_reads_and_dropped_writes power_on 0x00000000 0xFFFFFFFF)
    as (_ & _ & _ & Hbios32).
  split; [apply Hout; [left; reflexivity | vm_compute; discriminate]|].
  split; [rewrite Hin; [reflexivity | left; reflexivity | vm_compute; reflexivity]|].
  split; [apply Hw8; left; reflexivity|].
  split; [apply Hrom8; right; vm_compute; split; discriminate|].
  split; [apply Hrom16; right; vm_compute; split; discriminate|].
  apply Hbios32. left. reflexivity.
Defined.

(** ** The interrupt flag register *)

Section InterruptFlags.

Context {B : Type} {backup : GBABackup B}.
Implicit Types m : GBAMemory B.

Lemma WriteByte_IF m value :
  WriteByte m 0x04000202 value =
  upd_irq (fun q => set_if_ (u16 (Z.land (if_ q) (Z.lnot (u8 value)))) q) m.
Proof. reflexivity. Qed.

Lemma WriteByte_IF_1 m value :
  WriteByte m 0x04000203 value =
  upd_irq (fun q => set_if_ (u16 (Z.land (if_ q) (Z.lnot (Z.shiftl (u8 value) 8)))) q) m.
Proof. reflexivity. Qed.

Lemma clear_bits_spec x mask i :
  0 <= i < 16 ->
  Z.testbit (u16 (Z.land x (Z.lnot mask))) i = Z.testbit x i && negb (Z.testbit mask i).
Proof.
  intros Hi. unfold u16.
  rewrite Z.mod_pow2_bits_low by lia.
  rewrite Z.land_spec, Z.lnot_spec by lia. reflexivity.
Qed.

End InterruptFlags.

(** C6.  A byte written to IF (0x04000202) or to its high byte
    (0x04000203) clears the flags at which the written byte, placed at
    its position in the register, has a 1, and keeps every other flag;
    IE and IME keep their values, and so does the rest of the bus
    state. *)
Theorem C6_IF_write_one_to_clear {B : Type} {backup : GBABackup B}
    (m : GBAMemory B) (value i : Z) :
  0 <= i < 16 ->
  let irq := m_Interrupt m in
  let lo := WriteByte m 0x04000202 value in
  let hi := WriteByte m 0x04000203 value in
  Z.testbit (if_ (m_Interrupt lo)) i =
    Z.testbit (if_ irq) i && negb (Z.testbit (u8 value) i) /\
  Z.testbit (if_ (m_Interrupt hi)) i =
    Z.testbit (if_ irq) i && negb (Z.testbit (Z.shiftl (u8 value) 8) i) /\
  ie (m_Interrupt lo) = ie irq /\ ime (m_Interrupt lo) = ime irq /\
  ie (m_Interrupt hi) = ie irq /\ ime (m_Interrupt hi) = ime irq /\
  lo = set_m_Interrupt (set_if_ (if_ (m_Interrupt lo)) irq) m /\
  hi = set_m_Interrupt (set_if_ (if_ (m_Interrupt hi)) irq) m.
Proof.
  intros Hi. cbv zeta. rewrite WriteByte_IF, WriteByte_IF_1.
  unfold upd_irq. cbn.
  split; [apply clear_bits_spec; exact Hi|].
  split; [apply clear_bits_spec; exact Hi|].
  repeat split.
Qed.

(** C6 with the flags 0x1249 pending and the byte 0x09 written: the
    flags 0 and 3 are cleared, the others stay. *)
Lemma C6_witness :
  let m := irq_sample in
  let lo := WriteByte m 0x04000202 0x09 in
  0 <= 3 < 16 /\
  Z.testbit (if_ (m_Interrupt m)) 3 = true /\
  Z.testbit (if_ (m_Interrupt lo)) 3 = false /\
  if_ (m_Interrupt lo) = 0x1240 /\
  ie (m_Interrupt lo) = 0x3FFF /\ ime (m_Interrupt lo) = 1.
Proof.
  cbv zeta.
  destruct (C6_IF_write_one_to_clear irq_sample 0x09 3 ltac:(lia))
    as (Hlo & _ & Hie & Hime & _).
  split; [lia|].
  split; [reflexivity|].
  split; [rewrite Hlo; reflexivity|].
  split; [reflexivity|].
  split; [rewrite Hie; reflexivity | rewrite Hime; reflexivity].
Defined.

(** ** The DMA control register *)

Lemma dma_source_masked x n :
  u32 (Z.land x (dma_source_mask !!! n)) = Z.land x (dma_source_mask !!! n).
Proof.
  apply u32_small.
  pose proof (land_ones_range x 27 ltac:(lia)) as H27.
  pose proof (land_ones_range x 28 ltac:(lia)) as H28.
  change (Z.ones 27) with 0x7FFFFFF in H27. change (Z.ones 28) with 0xFFFFFFF in H28.
  each_of_four n; cbn; lia.
Qed.

Lemma dma_dest_masked x n :
  u32 (Z.land x (dma_dest_mask !!! n)) = Z.land x (dma_dest_mask !!! n).
Proof.
  apply u32_small.
  pose proof (land_ones_range x 27 ltac:(lia)) as H27.
  pose proof (land_ones_range x 28 ltac:(lia)) as H28.
  change (Z.ones 27) with 0x7FFFFFF in H27. change (Z.ones 28) with 0xFFFFFFF in H28.
  each_of_four n; cbn; lia.
Qed.

Lemma dma_count_masked x n :
  u16 (Z.land x (dma_count_mask !!! n)) = Z.land x (dma_count_mask !!! n).
Proof.
  apply u16_small.
  pose proof (land_ones_range x 14 ltac:(lia)) as H14.
  pose proof (land_ones_range x 16 ltac:(lia)) as H16.
  change (Z.ones 14) with 0x3FFF in H14. change (Z.ones 16) with 0xFFFF in H16.
  each_of_four n; cbn; lia.
Qed.

Section DMAControl.

Context {B : Type} {backup : GBABackup B}.
Implicit Types m : GBAMemory B.

Lemma WriteByte_DMAnCNT_H_1 m n value :
  WriteByte m (0x04000000 + DMAnCNT_H n + 1) value =
  set_m_DMA (vinsert n (write_DMACNT_H_1 n (u8 value) (m_DMA m !!! n)) (m_DMA m)) m.
Proof. each_of_four n; reflexivity. Qed.

(** The latch performed by a write of the high control byte with the
    enable bit set. *)
Lemma write_DMACNT_H_1_latch n value d :
  bit value 128 = true ->
  let d' := write_DMACNT_H_1 n value d in
  let count := Z.land (DMA.count d) (dma_count_mask !!! n) in
  DMA.enable d' = true /\
  DMA.source_int d' = Z.land (DMA.source d) (dma_source_mask !!! n) /\
  DMA.dest_int d' = Z.land (DMA.dest d) (dma_dest_mask !!! n) /\
  DMA.count_int d' = (if count =? 0 then u16 (dma_count_mask !!! n + 1) else count).
Proof.
  intros Hen. cbv zeta. unfold write_DMACNT_H_1. cbv zeta.
  cbn [DMA.enable DMA.source DMA.dest DMA.count DMA.count_int DMA.source_int
       DMA.dest_int DMA.set_enable DMA.set_interrupt DMA.set_start_time
       DMA.set_gamepack_drq DMA.set_size DMA.set_repeat DMA.set_source_control
       DMA.set_source_int DMA.set_dest_int DMA.set_count_int].
  rewrite Hen.
  cbn [DMA.enable DMA.source DMA.dest DMA.count DMA.count_int DMA.source_int
       DMA.dest_int DMA.set_enable DMA.set_interrupt DMA.set_start_time
       DMA.set_gamepack_drq DMA.set_size DMA.set_repeat DMA.set_source_control
       DMA.set_source_int DMA.set_dest_int DMA.set_count_int].
  rewrite dma_source_masked, dma_dest_masked, dma_count_masked.
  destruct (Z.land (DMA.count d) (dma_count_mask !!! n) =? 0); cbn; auto.
Qed.

End DMAControl.

(** C8, as the code has it.  A write of the high byte of DMAnCNT_H with
    the enable bit set latches the internal registers of channel n,
    whether the channel was enabled before the write or not: source_int
    is source under the source mask, dest_int is dest under the dest
    mask, count_int is count under the count mask when that is not 0,
    and for channels 0 to 2 a masked count of 0 is latched as 0x4000,
    the count mask plus 1. *)
Theorem C8_DMA_enable_latches {B : Type} {backup : GBABackup B}
    (m : GBAMemory B) (n : fin 4) (value : Z) :
  bit (u8 value) 128 = true ->
  let d := m_DMA m !!! n in
  let d' := m_DMA (WriteByte m (0x04000000 + DMAnCNT_H n + 1) value) !!! n in
  let count := Z.land (DMA.count d) (dma_count_mask !!! n) in
  DMA.enable d' = true /\
  DMA.source_int d' = Z.land (DMA.source d) (dma_source_mask !!! n) /\
  DMA.dest_int d' = Z.land (DMA.dest d) (dma_dest_mask !!! n) /\
  (count <> 0 -> DMA.count_int d' = count) /\
  (count = 0 -> n <> 3%fin ->
     DMA.count_int d' = dma_count_mask !!! n + 1 /\ dma_count_mask !!! n + 1 = 0x4000).
Proof.
  intros Hen. cbv zeta. rewrite WriteByte_DMAnCNT_H_1.
  cbn [m_DMA set_m_DMA]. rewrite vlookup_insert.
  destruct (write_DMACNT_H_1_latch n (u8 value) (m_DMA m !!! n) Hen)
    as (He & Hs & Hd & Hc).
  cbv zeta in Hc.
  split; [exact He|]. split; [exact Hs|]. split; [exact Hd|]. split.
  - intros Hnz. rewrite Hc.
    destruct (Z.eqb_spec (Z.land (DMA.count (m_DMA m !!! n)) (dma_count_mask !!! n)) 0);
      [contradiction | reflexivity].
  - intros Hz Hn. rewrite Hc, Hz. cbn [Z.eqb].
    revert Hn. clear. each_of_four n; intros Hn; try contradiction; split; reflexivity.
Qed.

(** C8, as stated, fails on the enable edge: channel 0 is enabled
    already, with 0x02000010 latched, when 0x80 is written to the high
    byte of DMA0CNT_H once more; the source register, rewritten in
    between, is latched again. *)
Lemma C8_counterexample :
  let m := dma_sample in
  let m' := WriteByte m 0x040000BB 0x80 in
  DMA.enable (m_DMA m !!! 0%fin) = true /\
  DMA.source_int (m_DMA m !!! 0%fin) = 0x02000010 /\
  DMA.enable (m_DMA m' !!! 0%fin) = true /\
  DMA.source_int (m_DMA m' !!! 0%fin) = 0x02000020.
Proof. vm_compute. repeat split. Qed.

(** C8 on channel 0, with a programmed count of 0. *)
Lemma C8_witness :
  let m := dma_sample in
  let m' := WriteByte m 0x040000BB 0x80 in
  bit (u8 0x80) 128 = true /\
  DMA.enable (m_DMA m' !!! 0%fin) = true /\
  DMA.source_int (m_DMA m' !!! 0%fin) = 0x02000020 /\
  DMA.dest_int (m_DMA m' !!! 0%fin) = 0 /\
  DMA.count_int (m_DMA m' !!! 0%fin) = 0x4000.
Proof.
  cbv zeta.
  destruct (C8_DMA_enable_latches dma_sample 0%fin 0x80 eq_refl)
    as (He & Hs & Hd & _ & Hc).
  split; [reflexivity|].
  split; [exact He|].
  split; [exact Hs|].
  split; [exact Hd|].
  apply Hc; [reflexivity | discriminate].
Defined.

(** The word count of channel 3 is a [u16]: the value 0x10000 assigned
    to it for a programmed count of 0 is stored as 0. *)
Lemma DMA3_zero_count_truncated :
  let m := WriteByte power_on 0x040000DF 0x80 in
  DMA.count (m_DMA power_on !!! 3%fin) = 0 /\
  dma_count_mask !!! 3%fin + 1 = 0x10000 /\
  DMA.count_int (m_DMA m !!! 3%fin) = 0.
Proof. vm_compute. repeat split. Qed.

(** ** Timer registers on the bus *)

(** No byte or halfword write changes a timer count. *)
Section TimerCounts.

Context {B : Type} {backup : GBABackup B}.
Implicit Types m : GBAMemory B.

Lemma upd_timer_counts m n f :
  (forall t, Timer.count (f t) = Timer.count t) ->
  timer_counts (upd_timer n f m) = timer_counts m.
Proof.
  intros Hf. unfold timer_counts, upd_timer. cbn [m_Timer set_m_Timer].
  apply vmap_vinsert_same, Hf.
Qed.

Lemma WriteIO_counts m internal_offset value :
  timer_counts (WriteIO m internal_offset value) = timer_counts m.
Proof.
  unfold WriteIO. cbv zeta.
  apply switch_ind; [reflexivity|].
  repeat (apply Forall_cons; split;
          [first [reflexivity | apply upd_timer_counts; intros t; reflexivity]|]).
  apply Forall_nil. exact I.
Qed.

Lemma WriteHWord_with_counts f m offset value :
  (forall m' o v, timer_counts (f m' o v) = timer_counts m') ->
  timer_counts (WriteHWord_with f m offset value) = timer_counts m.
Proof.
  intros Hf. unfold WriteHWord_with. cbv zeta.
  apply switch_ind.
  - rewrite !Hf. reflexivity.
  - repeat (apply Forall_cons; split; [reflexivity|]). apply Forall_nil. exact I.
Qed.

Lemma WriteByte_counts m offset value :
  timer_counts (WriteByte m offset value) = timer_counts m.
Proof.
  unfold WriteByte. cbv zeta.
  apply switch_ind; [reflexivity|].
  repeat (apply Forall_cons; split;
          [first [ reflexivity
                 | apply WriteHWord_with_counts; reflexivity
                 | idtac ]|]);
    [ | | apply Forall_nil; exact I ].
  - cbn [snd]. destruct (_ && _); [reflexivity | apply WriteIO_counts].
  - cbn [snd]. destruct (backup_present m); reflexivity.
Qed.

Lemma WriteHWord_counts m offset value :
  timer_counts (WriteHWord m offset value) = timer_counts m.
Proof. apply WriteHWord_with_counts. intros. apply WriteByte_counts. Qed.

Lemma WriteWord_counts m offset value :
  to_bool (Z.land (u32 value) (Z.shiftl 1 23)) && TMnCNT_L_address (u32 offset) = false ->
  timer_counts (WriteWord m offset value) = timer_counts m.
Proof.
  intros Hno. unfold WriteWord. cbv zeta.
  destruct (to_bool (Z.land (u32 value) (Z.shiftl 1 23))).
  - cbn [andb] in Hno. unfold TMnCNT_L_address in Hno. cbn [existsb] in Hno.
    apply orb_false_iff in Hno. destruct Hno as [H0 Hno].
    apply orb_false_iff in Hno. destruct Hno as [H1 Hno].
    apply orb_false_iff in Hno. destruct Hno as [H2 Hno].
    apply orb_false_iff in Hno. destruct Hno as [H3 _].
    unfold switch. cbn [existsb]. rewrite H0, H1, H2, H3. cbn [orb].
    rewrite !WriteHWord_counts. reflexivity.
  - rewrite !WriteHWord_counts. reflexivity.
Qed.

End TimerCounts.

(** The reload register after its two bytes have been written from
    the halfword [x]. *)
Lemma reload_from_bytes r x :
  0 <= x < 2 ^ 16 ->
  let lo := u8 (Z.land x 0xFF) in
  let hi := u8 (Z.land (Z.shiftr x 8) 0xFF) in
  u16 (Z.lor (Z.land (u16 (Z.lor (Z.land r 0xFF00) lo)) 0x00FF) (Z.shiftl hi 8)) = x.
Proof.
  intros Hx. cbv zeta.
  change 0xFF with (Z.ones 8).
  rewrite !Z.land_ones, Z.shiftr_div_pow2 by lia.
  pose proof (Z.mod_pos_bound x (2 ^ 8) ltac:(lia)) as Hlo.
  pose proof (Z.div_mod x (2 ^ 8) ltac:(lia)) as Hdm.
  assert (Hhi : 0 <= x / 2 ^ 8 < 2 ^ 8).
  { split; [apply Z.div_pos; lia | apply Z.div_lt_upper_bound; lia]. }
  rewrite (Z.mod_small (x / 2 ^ 8)) by exact Hhi.
  rewrite (u8_small (x mod 2 ^ 8)) by exact Hlo.
  rewrite (u8_small (x / 2 ^ 8)) by exact Hhi.
  assert (Hkeep : u16 (Z.lor (Z.land r 0xFF00) (x mod 2 ^ 8)) mod 2 ^ 8 = x mod 2 ^ 8).
  { rewrite u16_land, <- !Z.land_ones by lia.
    rewrite <- Z.land_assoc. change (Z.land (Z.ones 16) (Z.ones 8)) with (Z.ones 8).
    rewrite Z.land_lor_distr_l, <- Z.land_assoc.
    change (Z.land 0xFF00 (Z.ones 8)) with 0. rewrite Z.land_0_r, Z.lor_0_l.
    rewrite !Z.land_ones by lia. apply Z.mod_mod. lia. }
  rewrite Hkeep, lor_shiftl_add by lia.
  replace (x mod 2 ^ 8 + 2 ^ 8 * (x / 2 ^ 8)) with x by lia.
  apply u16_small. exact Hx.
Qed.

Section TimerReload.

Context {B : Type} {backup : GBABackup B}.
Implicit Types m : GBAMemory B.

Lemma WriteByte_TMnCNT_L m n value :
  WriteByte m (u32 (0x04000000 + TMnCNT_L n)) value =
  set_m_Timer
    (vinsert n
       (Timer.set_reload
          (u16 (Z.lor (Z.land (Timer.reload (m_Timer m !!! n)) 0xFF00) (u8 value)))
          (m_Timer m !!! n))
       (m_Timer m)) m.
Proof. each_of_four n; reflexivity. Qed.

Lemma WriteByte_TMnCNT_L_1 m n value :
  WriteByte m (u32 (0x04000000 + TMnCNT_L n) + 1) value =
  set_m_Timer
    (vinsert n
       (Timer.set_reload
          (u16 (Z.lor (Z.land (Timer.reload (m_Timer m !!! n)) 0x00FF)
                  (Z.shiftl (u8 value) 8)))
          (m_Timer m !!! n))
       (m_Timer m)) m.
Proof. each_of_four n; reflexivity. Qed.

Lemma WriteHWord_TMnCNT_L_reload m n value :
  Timer.reload (m_Timer (WriteHWord m (0x04000000 + TMnCNT_L n) value) !!! n) = u16 value.
Proof.
  rewrite WriteHWord_bytes by (each_of_four n; vm_compute; intros [H _]; apply H; reflexivity).
  rewrite WriteByte_TMnCNT_L_1, WriteByte_TMnCNT_L.
  cbn [m_Timer set_m_Timer]. rewrite !vlookup_insert.
  cbn [Timer.reload Timer.set_reload].
  apply (reload_from_bytes _ (u16 value)).
  unfold u16. apply Z.mod_pos_bound. lia.
Qed.

Lemma WriteHWord_TMnCNT_H m n value :
  WriteHWord m (u32 (0x04000000 + TMnCNT_L n) + 2) value =
  set_m_Timer
    (vinsert n (write_TMCNT_H (u8 (Z.land (u16 value) 0xFF)) (m_Timer m !!! n))
       (m_Timer m)) m.
Proof. each_of_four n; reflexivity. Qed.

Lemma land_u32_low x : 0 <= Z.land (u32 x) 0xFFFF < 2 ^ 16.
Proof.
  change 0xFFFF with (Z.ones 16). rewrite Z.land_ones by lia.
  apply Z.mod_pos_bound. lia.
Qed.

Lemma WriteWord_TMnCNT_L m n value :
  to_bool (Z.land (u32 value) (Z.shiftl 1 23)) = true ->
  let m' := WriteWord m (0x04000000 + TMnCNT_L n) value in
  Timer.reload (m_Timer m' !!! n) = Z.land (u32 value) 0xFFFF /\
  Timer.count (m_Timer m' !!! n) = Z.land (u32 value) 0xFFFF.
Proof.
  intros Hbit. cbv zeta. unfold WriteWord. cbv zeta. rewrite Hbit.
  rewrite WriteHWord_TMnCNT_H.
  pose proof (WriteHWord_TMnCNT_L_reload m n (Z.land (u32 value) 0xFFFF)) as Hr.
  rewrite (u16_small _ (land_u32_low value)) in Hr.
  assert (Hu : WriteHWord m (u32 (0x04000000 + TMnCNT_L n)) (Z.land (u32 value) 0xFFFF) =
               WriteHWord m (0x04000000 + TMnCNT_L n) (Z.land (u32 value) 0xFFFF))
    by (each_of_four n; reflexivity).
  rewrite Hu.
  set (m1 := WriteHWord m (0x04000000 + TMnCNT_L n) (Z.land (u32 value) 0xFFFF)) in *.
  clearbody m1.
  unfold switch, upd_timer.
  each_of_four n; decide_conditions; cbn [m_Timer set_m_Timer idx4];
    rewrite !vlookup_insert;
    cbn [Timer.count Timer.reload Timer.set_count write_TMCNT_H Timer.set_enable
         Timer.set_interrupt Timer.set_countup Timer.set_clock];
    split; exact Hr.
Qed.

End TimerReload.

(** C10.  TMnCNT_L is at 0x04000100 + 4n.  A word write there whose
    value has bit 23 set leaves the low halfword of the value in the
    reload register of timer n and copies it into the count.  A
    halfword write there sets the reload register to the halfword, a
    byte write sets its low byte.  No byte write and no halfword write,
    at any address, changes any timer count, and a word write changes
    none unless its value has bit 23 set and its address is that of a
    TMnCNT_L. *)
Theorem C10_count_loaded_only_by_word_write {B : Type} {backup : GBABackup B}
    (m : GBAMemory B) (n : fin 4) (offset value : Z) :
  let TMnCNT_L_n := 0x04000000 + TMnCNT_L n in
  let timer m' := m_Timer m' !!! n in
  TMnCNT_L_n = 0x04000100 + 4 * Z.of_nat (fin_to_nat n) /\
  (to_bool (Z.land (u32 value) (Z.shiftl 1 23)) = true ->
     Timer.reload (timer (WriteWord m TMnCNT_L_n value)) = Z.land (u32 value) 0xFFFF /\
     Timer.count (timer (WriteWord m TMnCNT_L_n value)) =
       Timer.reload (timer (WriteWord m TMnCNT_L_n value))) /\
  Timer.reload (timer (WriteHWord m TMnCNT_L_n value)) = u16 value /\
  Timer.reload (timer (WriteByte m TMnCNT_L_n value)) =
    u16 (Z.lor (Z.land (Timer.reload (timer m)) 0xFF00) (u8 value)) /\
  timer_counts (WriteByte m offset value) = timer_counts m /\
  timer_counts (WriteHWord m offset value) = timer_counts m /\
  (to_bool (Z.land (u32 value) (Z.shiftl 1 23)) && TMnCNT_L_address (u32 offset) = false ->
     timer_counts (WriteWord m offset value) = timer_counts m).
Proof.
  cbv zeta.
  split; [each_of_four n; reflexivity|].
  split.
  { intros Hbit. destruct (WriteWord_TMnCNT_L m n value Hbit) as [Hr Hc].
    split; [exact Hr | rewrite Hc, Hr; reflexivity]. }
  split; [apply WriteHWord_TMnCNT_L_reload|].
  split.
  { assert (Hu : WriteByte m (0x04000000 + TMnCNT_L n) value =
                 WriteByte m (u32 (0x04000000 + TMnCNT_L n)) value)
      by (each_of_four n; reflexivity).
    rewrite Hu, WriteByte_TMnCNT_L. cbn [m_Timer set_m_Timer].
    rewrite vlookup_insert. reflexivity. }
  split; [apply WriteByte_counts|].
  split; [apply WriteHWord_counts | apply WriteWord_counts].
Qed.

(** C10 on timer 0: a halfword write sets the reload and leaves the
    count at 0, a word write with bit 23 set loads the count, and a
    word write without bit 23 leaves the counts alone. *)
Lemma C10_witness :
  let m := WriteHWord power_on 0x04000100 0x1234 in
  let m' := WriteWord m 0x04000100 0x0080FFFF in
  to_bool (Z.land (u32 0x0080FFFF) (Z.shiftl 1 23)) = true /\
  Timer.count (m_Timer m !!! 0%fin) = 0 /\
  Timer.reload (m_Timer m !!! 0%fin) = 0x1234 /\
  Timer.reload (m_Timer m' !!! 0%fin) = 0xFFFF /\
  Timer.count (m_Timer m' !!! 0%fin) = 0xFFFF /\
  timer_counts (WriteWord m 0x04000104 0x0000FFFF) = timer_counts m.
Proof.
  cbv zeta.
  destruct (C10_count_loaded_only_by_word_write power_on 0%fin 0x04000100 0x1234)
    as (_ & _ & Hr16 & _ & _ & Hc16 & _).
  destruct (C10_count_loaded_only_by_word_write
              (WriteHWord power_on 0x04000100 0x1234) 0%fin 0x04000104 0x0080FFFF)
    as (_ & Hw & _).
  destruct (C10_count_loaded_only_by_word_write
              (WriteHWord power_on 0x04000100 0x1234) 0%fin 0x04000104 0x0000FFFF)
    as (_ & _ & _ & _ & _ & _ & Hother).
  destruct (Hw eq_refl) as (Hr & Hc).
  split; [reflexivity|].
  split; [reflexivity|].
  split; [exact Hr16|].
  split; [exact Hr|].
  split; [exact (eq_trans Hc Hr)|].
  apply Hother. reflexivity.
Defined.

(** ** The timers *)

Section Timers.

Context {B : Type} {backup : GBABackup B}.
Implicit Types m : GBAMemory B.

(** What the iteration of a timer that wraps around does. *)
Lemma RunTimer_iteration_overflow (s : GBAMemory B * bool) (i : Z) :
  0 <= i <= 3 ->
  let t := m_Timer (fst s) !!! idx4 i in
  let s' := RunTimer_iteration s i in
  let t' := m_Timer (fst s') !!! idx4 i in
  timer_overflows s i = true ->
  Timer.count t' = Timer.reload t /\
  snd s' = true /\
  if_ (m_Interrupt (fst s')) =
    (if Timer.interrupt t
     then u16 (Z.lor (if_ (m_Interrupt (fst s))) (Z.shiftl 8 i))
     else if_ (m_Interrupt (fst s))).
Proof.
  intros Hi. destruct s as [m ov].
  destruct m as [rom romsize bios wram iram bk st dma tm ws irq halt video didt cyc key].
  inv_vec tm. intros t0 t1 t2 t3.
  assert (Hc : i = 0 \/ i = 1 \/ i = 2 \/ i = 3) by lia.
  destruct Hc as [-> | [-> | [-> | ->]]]; cbv zeta;
    unfold timer_overflows, timer_advances, RunTimer_iteration, timer_due;
    cbn -[Z.shiftl].
  all: match goal with
       | |- context [Timer.enable ?t] => destruct t as [c r cl tk en cu it ovf]
       end; cbn -[Z.shiftl].
  all: destruct en; cbn -[Z.shiftl]; [|discriminate].
  all: destruct cu; cbn -[Z.shiftl].
  all: try (destruct ov; cbn -[Z.shiftl]; [|discriminate]).
  all: try (destruct (_ <=? tk + 1); cbn -[Z.shiftl]; [|discriminate]).
  all: destruct (Z.eqb_spec c 0xFFFF); cbn -[Z.shiftl]; [|discriminate].
  all: intros _; destruct it; cbn -[Z.shiftl]; auto.
Qed.

(** An iteration only writes the timer it is about. *)
Lemma RunTimer_iteration_other (s : GBAMemory B * bool) (i j : Z) :
  0 <= i <= 3 -> 0 <= j <= 3 -> j <> i ->
  m_Timer (fst (RunTimer_iteration s i)) !!! idx4 j = m_Timer (fst s) !!! idx4 j.
Proof.
  intros Hi Hj Hne. destruct s as [m ov].
  destruct m as [rom romsize bios wram iram bk st dma tm ws irq halt video didt cyc key].
  inv_vec tm. intros t0 t1 t2 t3.
  assert (Hc : i = 0 \/ i = 1 \/ i = 2 \/ i = 3) by lia.
  assert (Hd : j = 0 \/ j = 1 \/ j = 2 \/ j = 3) by lia.
  destruct Hc as [-> | [-> | [-> | ->]]];
    destruct Hd as [-> | [-> | [-> | ->]]]; try lia;
    unfold RunTimer_iteration, timer_due; cbn;
    repeat case_match; reflexivity.
Qed.

(** The flag handed to the next iteration. *)
Lemma RunTimer_iteration_flag (s : GBAMemory B * bool) (i : Z) :
  0 <= i <= 3 ->
  snd (RunTimer_iteration s i) =
  if timer_advances s i then timer_overflows s i else snd s.
Proof.
  intros Hi. destruct s as [m ov].
  destruct m as [rom romsize bios wram iram bk st dma tm ws irq halt video didt cyc key].
  inv_vec tm. intros t0 t1 t2 t3.
  assert (Hc : i = 0 \/ i = 1 \/ i = 2 \/ i = 3) by lia.
  destruct Hc as [-> | [-> | [-> | ->]]];
    unfold timer_overflows, timer_advances, RunTimer_iteration, timer_due; cbn.
  all: match goal with
       | |- context [Timer.enable ?t] => destruct t as [c r cl tk en cu it ovf]
       end; cbn.
  all: destruct en, cu; cbn; try reflexivity.
  all: try (destruct ov; cbn; try reflexivity).
  all: try (destruct (_ <=? tk + 1); cbn; try reflexivity).
  all: destruct (Z.eqb_spec c 0xFFFF); cbn; reflexivity.
Qed.

(** Interrupt flags already raised stay raised through an iteration. *)
Lemma RunTimer_iteration_IF_kept (s : GBAMemory B * bool) (i b : Z) :
  0 <= i <= 3 -> 0 <= b < 16 ->
  Z.testbit (if_ (m_Interrupt (fst s))) b = true ->
  Z.testbit (if_ (m_Interrupt (fst (RunTimer_iteration s i)))) b = true.
Proof.
  intros Hi Hb. destruct s as [m ov].
  destruct m as [rom romsize bios wram iram bk st dma tm ws irq halt video didt cyc key].
  inv_vec tm. intros t0 t1 t2 t3. cbn [fst m_Interrupt]. intros Hset.
  assert (Hc : i = 0 \/ i = 1 \/ i = 2 \/ i = 3) by lia.
  destruct Hc as [-> | [-> | [-> | ->]]];
    unfold RunTimer_iteration, timer_due; cbn -[Z.shiftl];
    repeat case_match; cbn -[Z.shiftl]; try exact Hset.
  all: unfold u16; rewrite Z.mod_pow2_bits_low by lia;
       rewrite Z.lor_spec, Hset; reflexivity.
Qed.

Lemma RunTimer_upto_next m (i : Z) :
  0 <= i <= 3 ->
  RunTimer_upto (S (Z.to_nat i)) m = RunTimer_iteration (RunTimer_upto (Z.to_nat i) m) i.
Proof.
  intros Hi.
  assert (Hc : i = 0 \/ i = 1 \/ i = 2 \/ i = 3) by lia.
  destruct Hc as [-> | [-> | [-> | ->]]]; reflexivity.
Qed.

(** Timers not yet reached by the loop are as they were on entry. *)
Lemma RunTimer_upto_later m (i j : Z) :
  0 <= i <= j -> j <= 3 ->
  m_Timer (fst (RunTimer_upto (Z.to_nat i) m)) !!! idx4 j = m_Timer m !!! idx4 j.
Proof.
  intros Hi Hj.
  assert (Hc : i = 0 \/ i = 1 \/ i = 2 \/ i = 3) by lia.
  destruct Hc as [-> | [-> | [-> | ->]]].
  - reflexivity.
  - change (RunTimer_upto (Z.to_nat 1) m) with (RunTimer_iteration (m, false) 0).
    apply RunTimer_iteration_other; lia.
  - change (RunTimer_upto (Z.to_nat 2) m)
      with (RunTimer_iteration (RunTimer_iteration (m, false) 0) 1).
    rewrite !RunTimer_iteration_other by lia. reflexivity.
  - change (RunTimer_upto (Z.to_nat 3) m)
      with (RunTimer_iteration (RunTimer_iteration (RunTimer_iteration (m, false) 0) 1) 2).
    rewrite !RunTimer_iteration_other by lia. reflexivity.
Qed.

(** A flag raised by iteration [i] is still raised when [RunTimer]
    returns. *)
Lemma RunTimer_IF_kept m (i b : Z) :
  0 <= i <= 3 -> 0 <= b < 16 ->
  Z.testbit (if_ (m_Interrupt (fst (RunTimer_upto (S (Z.to_nat i)) m)))) b = true ->
  Z.testbit (if_ (m_Interrupt (RunTimer m))) b = true.
Proof.
  intros Hi Hb. unfold RunTimer.
  assert (Hc : i = 0 \/ i = 1 \/ i = 2 \/ i = 3) by lia.
  destruct Hc as [-> | [-> | [-> | ->]]]; intros H.
  - change (RunTimer_upto 4 m) with
      (RunTimer_iteration (RunTimer_iteration (RunTimer_iteration
         (RunTimer_upto (S (Z.to_nat 0)) m) 1) 2) 3).
    do 3 (apply RunTimer_iteration_IF_kept; [lia | lia |]). exact H.
  - change (RunTimer_upto 4 m) with
      (RunTimer_iteration (RunTimer_iteration (RunTimer_upto (S (Z.to_nat 1)) m) 2) 3).
    do 2 (apply RunTimer_iteration_IF_kept; [lia | lia |]). exact H.
  - change (RunTimer_upto 4 m) with
      (RunTimer_iteration (RunTimer_upto (S (Z.to_nat 2)) m) 3).
    apply RunTimer_iteration_IF_kept; [lia | lia |]. exact H.
  - exact H.
Qed.

Lemma timer_interrupt_bit (x i : Z) :
  0 <= i <= 3 ->
  Z.shiftl 8 i = [# 0x08; 0x10; 0x20; 0x40] !!! idx4 i /\
  Z.testbit (u16 (Z.lor x (Z.shiftl 8 i))) (3 + i) = true.
Proof.
  intros Hi.
  assert (Hc : i = 0 \/ i = 1 \/ i = 2 \/ i = 3) by lia.
  destruct Hc as [-> | [-> | [-> | ->]]]; (split; [reflexivity|]);
    unfold u16; rewrite Z.mod_pow2_bits_low by lia;
    rewrite Z.lor_spec; apply orb_true_r.
Qed.

(** A count-up timer advances exactly when the flag it is handed is set. *)
Lemma countup_advances (s : GBAMemory B * bool) (j : Z) :
  let t := m_Timer (fst s) !!! idx4 j in
  Timer.enable t = true -> Timer.countup t = true ->
  timer_advances s j = snd s.
Proof.
  cbv zeta. intros Hen Hcu. unfold timer_advances, timer_due.
  rewrite Hen, Hcu. reflexivity.
Qed.

(** What the iteration of a timer that advances below 0xFFFF does. *)
Lemma RunTimer_iteration_increment (s : GBAMemory B * bool) (i : Z) :
  0 <= i <= 3 ->
  let t := m_Timer (fst s) !!! idx4 i in
  let s' := RunTimer_iteration s i in
  let t' := m_Timer (fst s') !!! idx4 i in
  timer_advances s i = true -> Timer.count t <> 0xFFFF ->
  Timer.count t' = u16 (Timer.count t + 1) /\ snd s' = false.
Proof.
  intros Hi. destruct s as [m ov].
  destruct m as [rom romsize bios wram iram bk st dma tm ws irq halt video didt cyc key].
  inv_vec tm. intros t0 t1 t2 t3.
  assert (Hc : i = 0 \/ i = 1 \/ i = 2 \/ i = 3) by lia.
  destruct Hc as [-> | [-> | [-> | ->]]]; cbv zeta;
    unfold timer_advances, RunTimer_iteration, timer_due; cbn.
  all: match goal with
       | |- context [Timer.enable ?t] => destruct t as [c r cl tk en cu it ovf]
       end; cbn.
  all: destruct en; cbn; [|discriminate].
  all: destruct cu; cbn.
  all: try (destruct ov; cbn; [|discriminate]).
  all: try (destruct (_ <=? tk + 1); cbn; [|discriminate]).
  all: intros _ Hne; destruct (Z.eqb_spec c 0xFFFF); [contradiction|]; cbn; auto.
Qed.

(** The iteration of a timer that does not advance leaves its count and
    the overflow flag as they were. *)
Lemma RunTimer_iteration_idle (s : GBAMemory B * bool) (i : Z) :
  0 <= i <= 3 ->
  let t := m_Timer (fst s) !!! idx4 i in
  let s' := RunTimer_iteration s i in
  let t' := m_Timer (fst s') !!! idx4 i in
  timer_advances s i = false ->
  Timer.count t' = Timer.count t /\ snd s' = snd s.
Proof.
  intros Hi. destruct s as [m ov].
  destruct m as [rom romsize bios wram iram bk st dma tm ws irq halt video didt cyc key].
  inv_vec tm. intros t0 t1 t2 t3.
  assert (Hc : i = 0 \/ i = 1 \/ i = 2 \/ i = 3) by lia.
  destruct Hc as [-> | [-> | [-> | ->]]]; cbv zeta;
    unfold timer_advances, RunTimer_iteration, timer_due; cbn.
  all: match goal with
       | |- context [Timer.enable ?t] => destruct t as [c r cl tk en cu it ovf]
       end; cbn.
  all: destruct en; cbn; [|auto].
  all: destruct cu; cbn.
  all: try (destruct ov; cbn; [discriminate|auto]).
  all: try (destruct (_ <=? tk + 1); cbn; [discriminate|auto]).
Qed.

(** The iterations after its own leave a timer as it is. *)
Lemma RunTimer_timer_final m (i : Z) :
  0 <= i <= 3 ->
  m_Timer (RunTimer m) !!! idx4 i =
  m_Timer (fst (RunTimer_upto (S (Z.to_nat i)) m)) !!! idx4 i.
Proof.
  intros Hi. unfold RunTimer.
  assert (Hc : i = 0 \/ i = 1 \/ i = 2 \/ i = 3) by lia.
  destruct Hc as [-> | [-> | [-> | ->]]].
  - change (RunTimer_upto 4 m) with
      (RunTimer_iteration (RunTimer_iteration (RunTimer_iteration
         (RunTimer_upto (S (Z.to_nat 0)) m) 1) 2) 3).
    rewrite !RunTimer_iteration_other by lia. reflexivity.
  - change (RunTimer_upto 4 m) with
      (RunTimer_iteration (RunTimer_iteration (RunTimer_upto (S (Z.to_nat 1)) m) 2) 3).
    rewrite !RunTimer_iteration_other by lia. reflexivity.
  - change (RunTimer_upto 4 m) with
      (RunTimer_iteration (RunTimer_upto (S (Z.to_nat 2)) m) 3).
    rewrite !RunTimer_iteration_other by lia. reflexivity.
  - reflexivity.
Qed.

End Timers.

(** C9.  In [RunTimer], a timer i that advances in its iteration while
    its count is 0xFFFF has its count reloaded from its reload value,
    the overflow flag handed to the next iteration is set, and, if its
    interrupt is enabled, the bit 8 << i (0x08, 0x10, 0x20, 0x40 for
    timers 0 to 3, which is bit 3 + i) is raised in IF and is still set
    when [RunTimer] returns.  A timer that advances below 0xFFFF has
    its count incremented and clears the flag; a timer that does not
    advance keeps its count and hands on the flag it was handed.  An
    enabled count-up timer i+1 advances exactly when the flag handed to
    it is set: it advances if timer i overflowed, it does not advance
    if timer i advanced without overflowing, and timer 1 advances
    exactly when timer 0 overflowed; but when timer i did not advance,
    timer i+1 advances on the flag that was handed to timer i, set by
    an earlier timer, although timer i did not overflow. *)
Theorem C9_timer_overflow_and_cascade {B : Type} {backup : GBABackup B}
    (m : GBAMemory B) (i : Z) :
  0 <= i <= 3 ->
  let s := RunTimer_upto (Z.to_nat i) m in
  let s' := RunTimer_upto (S (Z.to_nat i)) m in
  let t := m_Timer m !!! idx4 i in
  let t' := m_Timer (RunTimer m) !!! idx4 i in
  let next := m_Timer m !!! idx4 (i + 1) in
  (timer_overflows s i = true ->
     Timer.count t' = Timer.reload t /\
     snd s' = true /\
     (Timer.interrupt t = true ->
        if_ (m_Interrupt (fst s')) = u16 (Z.lor (if_ (m_Interrupt (fst s))) (Z.shiftl 8 i)) /\
        Z.shiftl 8 i = [# 0x08; 0x10; 0x20; 0x40] !!! idx4 i /\
        Z.testbit (if_ (m_Interrupt (RunTimer m))) (3 + i) = true)) /\
  (timer_advances s i = true -> Timer.count t <> 0xFFFF ->
     Timer.count t' = u16 (Timer.count t + 1) /\ snd s' = false) /\
  (timer_advances s i = false ->
     Timer.count t' = Timer.count t /\ snd s' = snd s) /\
  (i < 3 -> Timer.enable next = true -> Timer.countup next = true ->
     timer_advances s' (i + 1) = snd s' /\
     (timer_overflows s i = true -> timer_advances s' (i + 1) = true) /\
     (timer_advances s i = true -> timer_overflows s i = false ->
        timer_advances s' (i + 1) = false) /\
     (timer_advances s i = false -> timer_advances s' (i + 1) = snd s) /\
     (i = 0 -> timer_advances s' (i + 1) = timer_overflows s i)).
Proof.
  intros Hi. cbv zeta.
  rewrite (RunTimer_timer_final m i Hi).
  rewrite (RunTimer_upto_next m i Hi).
  pose proof (RunTimer_upto_later m i i ltac:(lia) ltac:(lia)) as Ht.
  split; [|split; [|split]].
  - intros Hov.
    destruct (RunTimer_iteration_overflow (RunTimer_upto (Z.to_nat i) m) i Hi Hov)
      as (Hcount & Hflag & Hif).
    rewrite Ht in Hcount, Hif.
    split; [exact Hcount|]. split; [exact Hflag|].
    intros Hirq. rewrite Hirq in Hif.
    destruct (timer_interrupt_bit
                (if_ (m_Interrupt (fst (RunTimer_upto (Z.to_nat i) m)))) i Hi)
      as (Hbit & Hset).
    split; [exact Hif|]. split; [exact Hbit|].
    apply (RunTimer_IF_kept m i (3 + i) Hi ltac:(lia)).
    rewrite (RunTimer_upto_next m i Hi), Hif. exact Hset.
  - intros Hadv Hne.
    rewrite <- Ht in Hne |- *.
    apply (RunTimer_iteration_increment _ i Hi Hadv Hne).
  - intros Hidle.
    rewrite <- Ht.
    apply (RunTimer_iteration_idle _ i Hi Hidle).
  - intros Hlt Hen Hcu.
    pose proof (RunTimer_upto_later m i (i + 1) ltac:(lia) ltac:(lia)) as Hnext.
    pose proof (RunTimer_iteration_other (RunTimer_upto (Z.to_nat i) m) i (i + 1)
                  Hi ltac:(lia) ltac:(lia)) as Hkeep.
    rewrite Hnext in Hkeep.
    rewrite countup_advances by (rewrite Hkeep; assumption).
    split; [reflexivity|].
    rewrite RunTimer_iteration_flag by exact Hi.
    split; [|split; [|split]].
    + intros Hov. unfold timer_overflows in Hov |- *.
      apply andb_true_iff in Hov. destruct Hov as [Ha Hc].
      rewrite Ha, Hc. reflexivity.
    + intros Ha Hov. rewrite Ha. exact Hov.
    + intros Ha. rewrite Ha. reflexivity.
    + intros ->. change (RunTimer_upto (Z.to_nat 0) m) with (m, false).
      unfold timer_overflows.
      destruct (timer_advances (m, false) 0); reflexivity.
Qed.

(** C9 on timer 0 overflowing with its interrupt enabled, on the
    disabled timer 1 handing the flag of timer 0 on to the count-up
    timer 2, whose count goes from 5 to 6, and on timer 1 counting the
    overflows of timer 0. *)
Lemma C9_witness :
  let m := timer_sample in
  let c := cascade_sample in
  0 <= 0 <= 3 /\
  timer_overflows (RunTimer_upto 0 m) 0 = true /\
  Timer.count (m_Timer (RunTimer m) !!! 0%fin) = 0xFFFF /\
  snd (RunTimer_upto 1 m) = true /\
  Z.testbit (if_ (m_Interrupt (RunTimer m))) 3 = true /\
  timer_advances (RunTimer_upto 1 m) 1 = false /\
  timer_advances (RunTimer_upto 2 m) 2 = true /\
  Timer.count (m_Timer m !!! 2%fin) = 5 /\
  Timer.count (m_Timer (RunTimer m) !!! 2%fin) = 6 /\
  timer_overflows (RunTimer_upto 0 c) 0 = true /\
  timer_advances (RunTimer_upto 1 c) 1 = true /\
  Timer.count (m_Timer c !!! 1%fin) = 0 /\
  Timer.count (m_Timer (RunTimer c) !!! 1%fin) = 1.
Proof.
  cbv zeta.
  destruct (C9_timer_overflow_and_cascade timer_sample 0 ltac:(lia)) as (Hov & _).
  destruct (Hov eq_refl) as (Hcount & Hflag & Hirq).
  destruct (Hirq eq_refl) as (_ & _ & Hbit).
  destruct (C9_timer_overflow_and_cascade timer_sample 1 ltac:(lia)) as (_ & _ & _ & Hstale).
  destruct (Hstale ltac:(lia) eq_refl eq_refl) as (_ & _ & _ & Hpass & _).
  destruct (C9_timer_overflow_and_cascade timer_sample 2 ltac:(lia)) as (_ & Hinc & _).
  destruct (Hinc eq_refl ltac:(vm_compute; discriminate)) as (Hsix & _).
  destruct (C9_timer_overflow_and_cascade cascade_sample 0 ltac:(lia)) as (_ & _ & _ & Hchain).
  destruct (Hchain ltac:(lia) eq_refl eq_refl) as (_ & Hnext & _).
  destruct (C9_timer_overflow_and_cascade cascade_sample 1 ltac:(lia)) as (_ & Hinc1 & _).
  destruct (Hinc1 eq_refl ltac:(vm_compute; discriminate)) as (Hone & _).
  split; [lia|].
  split; [reflexivity|].
  split; [exact Hcount|].
  split; [exact Hflag|].
  split; [exact Hbit|].
  split; [reflexivity|].
  split; [exact (Hpass eq_refl)|].
  split; [reflexivity|].
  split; [exact Hsix|].
  split; [reflexivity|].
  split; [exact (Hnext eq_refl)|].
  split; [reflexivity | exact Hone].
Defined.

(** The overflow flag of [RunTimer] is a local of the whole loop: a
    timer that does not advance hands on the flag it was handed.  With
    timer 0 wrapping around and timer 1 disabled, the count-up timer 2
    advances. *)
Lemma RunTimer_flag_passes_disabled_timer :
  let m := timer_sample in
  Timer.enable (m_Timer m !!! 1%fin) = false /\
  timer_overflows (RunTimer_upto 0 m) 0 = true /\
  timer_advances (RunTimer_upto 1 m) 1 = false /\
  Timer.enable (m_Timer m !!! 2%fin) = true /\
  Timer.countup (m_Timer m !!! 2%fin) = true /\
  timer_advances (RunTimer_upto 2 m) 2 = true /\
  Timer.count (m_Timer m !!! 2%fin) = 5 /\
  Timer.count (m_Timer (RunTimer m) !!! 2%fin) = 6.
Proof. vm_compute. repeat split. Qed.

(** ** The scanline counter *)

(** The dot after dot [n] of the frame. *)
Lemma next_dot n :
  0 <= n ->
  let line := (n / 1232) mod 227 in
  let dot := n mod 1232 in
  (dot + 1 < 1232 /\ (n + 1) mod 1232 = dot + 1 /\ ((n + 1) / 1232) mod 227 = line) \/
  (dot + 1 = 1232 /\ (n + 1) mod 1232 = 0 /\
   ((n + 1) / 1232) mod 227 = (if line + 1 =? 227 then 0 else line + 1)).
Proof.
  intros Hn line dot.
  pose proof (Z.mod_pos_bound n 1232 ltac:(lia)) as Hd.
  pose proof (Z.div_mod n 1232 ltac:(lia)) as Hq.
  pose proof (Z.mod_pos_bound (n / 1232) 227 ltac:(lia)) as Hl.
  pose proof (Z.div_mod (n / 1232) 227 ltac:(lia)) as Hql.
  fold dot in Hd, Hq. fold line in Hl, Hql.
  destruct (Z.eq_dec (dot + 1) 1232) as [He | Hne].
  - right. split; [exact He|].
    assert (H1 : n + 1 = 1232 * (n / 1232 + 1) + 0) by lia.
    assert ((n + 1) / 1232 = n / 1232 + 1) as Hdiv.
    { symmetry. apply (Z.div_unique (n + 1) 1232 (n / 1232 + 1) 0); lia. }
    assert ((n + 1) mod 1232 = 0) as Hmod.
    { symmetry. apply (Z.mod_unique (n + 1) 1232 (n / 1232 + 1) 0); lia. }
    split; [exact Hmod|]. rewrite Hdiv.
    destruct (Z.eqb_spec (line + 1) 227) as [E | E].
    + symmetry. apply (Z.mod_unique _ 227 (n / 1232 / 227 + 1) 0); lia.
    + symmetry. apply (Z.mod_unique _ 227 (n / 1232 / 227) (line + 1)); lia.
  - left. split; [lia|].
    assert ((n + 1) / 1232 = n / 1232) as Hdiv.
    { symmetry. apply (Z.div_unique (n + 1) 1232 (n / 1232) (dot + 1)); lia. }
    assert ((n + 1) mod 1232 = dot + 1) as Hmod.
    { symmetry. apply (Z.mod_unique (n + 1) 1232 (n / 1232) (dot + 1)); lia. }
    rewrite Hdiv. auto.
Qed.

(** State, dot counter and line counter after a step. *)
Lemma Step_core v irq :
  let v' := fst (Step v irq) in
  let t := m_Ticks v + 1 in
  (m_State v', m_Ticks v', m_VCount v') =
  match m_State v with
  | Scanline => if 960 <=? t then (HBlank, 0, m_VCount v) else (Scanline, t, m_VCount v)
  | HBlank =>
      if 272 <=? t then
        if u16 (m_VCount v + 1) =? 160 then (VBlank, 0, u16 (m_VCount v + 1))
        else (Scanline, 0, u16 (m_VCount v + 1))
      else (HBlank, t, m_VCount v)
  | VBlank =>
      if 1232 <=? t then
        if u16 (m_VCount v + 1) =? 227 then (Scanline, 0, 0)
        else (VBlank, 0, u16 (m_VCount v + 1))
      else (VBlank, t, m_VCount v)
  end.
Proof.
  destruct v as [bg ob wi wo ow t s rs pal vr oa hd vd c vm fs fb vf vi hi ci cs].
  unfold Step. cbn.
  destruct s; cbn.
  - destruct (960 <=? t + 1); cbn; reflexivity.
  - destruct (272 <=? t + 1); cbn; [|reflexivity].
    destruct (u16 (c + 1) =? 160); cbn; reflexivity.
  - destruct (1232 <=? t + 1); cbn; [|reflexivity].
    destruct (u16 (c + 1) =? 227); cbn; reflexivity.
Qed.

(** A step moves the PPU from one dot of the frame to the next. *)
Lemma Step_phase n v irq :
  0 <= n -> phase n v -> phase (n + 1) (fst (Step v irq)).
Proof.
  intros Hn [Hc Hst].
  pose proof (Step_core v irq) as Hcore. cbv zeta in Hcore.
  pose proof (next_dot n Hn) as Hnext. cbv zeta in Hnext.
  pose proof (Z.mod_pos_bound n 1232 ltac:(lia)) as Hd.
  pose proof (Z.mod_pos_bound (n / 1232) 227 ltac:(lia)) as Hl.
  unfold phase. cbv zeta.
  set (line := (n / 1232) mod 227) in *.
  set (dot := n mod 1232) in *.
  set (v' := fst (Step v irq)) in *.
  assert (Hu : u16 (m_VCount v + 1) = line + 1).
  { rewrite Hc. apply u16_small. lia. }
  destruct (Z.ltb_spec line 160) as [Hvis | Hvb].
  - destruct (Z.ltb_spec dot 960) as [Hdraw | Hhb].
    + destruct Hst as [Hs Ht]. rewrite Hs, Ht in Hcore.
      destruct Hnext as [(Hlt & Hm & Hq) | (Heq & _)]; [|lia].
      rewrite Hm, Hq.
      destruct (Z.ltb_spec line 160); [|lia].
      destruct (Z.leb_spec 960 (dot + 1)) as [Hge | Hlt'].
      * injection Hcore as Hs' Ht' Hc'.
        destruct (Z.ltb_spec (dot + 1) 960); [lia|].
        repeat split; [congruence | assumption | lia].
      * injection Hcore as Hs' Ht' Hc'.
        destruct (Z.ltb_spec (dot + 1) 960); [|lia].
        repeat split; [congruence | assumption | lia].
    + destruct Hst as [Hs Ht]. rewrite Hs, Ht, Hu in Hcore.
      destruct Hnext as [(Hlt & Hm & Hq) | (Heq & Hm & Hq)].
      * rewrite Hm, Hq.
        destruct (Z.leb_spec 272 (dot - 960 + 1)); [lia|].
        injection Hcore as Hs' Ht' Hc'.
        destruct (Z.ltb_spec line 160); [|lia].
        destruct (Z.ltb_spec (dot + 1) 960); [lia|].
        repeat split; [congruence | assumption | lia].
      * rewrite Hm, Hq.
        destruct (Z.leb_spec 272 (dot - 960 + 1)); [|lia].
        destruct (Z.eqb_spec (line + 1) 227); [lia|].
        destruct (Z.eqb_spec (line + 1) 160) as [E160 | N160];
          injection Hcore as Hs' Ht' Hc'.
        -- destruct (Z.ltb_spec (line + 1) 160); [lia|].
           repeat split; [congruence | assumption | assumption].
        -- destruct (Z.ltb_spec (line + 1) 160); [|lia].
           cbn. repeat split; [congruence | assumption | assumption].
  - destruct Hst as [Hs Ht]. rewrite Hs, Ht, Hu in Hcore.
    destruct Hnext as [(Hlt & Hm & Hq) | (Heq & Hm & Hq)].
    + rewrite Hm, Hq.
      destruct (Z.leb_spec 1232 (dot + 1)); [lia|].
      injection Hcore as Hs' Ht' Hc'.
      destruct (Z.ltb_spec line 160); [lia|].
      repeat split; [congruence | assumption | lia].
    + rewrite Hm, Hq.
      destruct (Z.leb_spec 1232 (dot + 1)); [|lia].
      destruct (Z.eqb_spec (line + 1) 227) as [E | E];
        injection Hcore as Hs' Ht' Hc'.
      * cbn. repeat split; [congruence | assumption | assumption].
      * destruct (Z.ltb_spec (line + 1) 160); [lia|].
        repeat split; [congruence | assumption | assumption].
Qed.

Lemma Steps_succ n s :
  Steps (N.succ n) s = Step (fst (Steps n s)) (snd (Steps n s)).
Proof. unfold Steps. rewrite N.iter_succ. reflexivity. Qed.

Lemma Steps_phase n v irq :
  frame_start v -> phase (Z.of_N n) (fst (Steps n (v, irq))).
Proof.
  intros (Hs & Ht & Hc).
  induction n as [|n IH] using N.peano_ind.
  - unfold Steps, phase. cbn. rewrite Hs, Ht, Hc. vm_compute. auto.
  - rewrite Steps_succ, N2Z.inj_succ.
    apply Step_phase; [lia | exact IH].
Qed.

(** C2, as the code has it.  [n] steps after the start of a frame
    VCOUNT is (n / 1232) mod 227: between steps it runs through 0, 1,
    ..., 226 and back to 0, and it is never 227, the value at which
    [Step] resets it before returning.  The PPU is in the VBlank state
    exactly when 160 <= VCOUNT <= 226. *)
Theorem C2_vcount_sequence n v irq :
  frame_start v ->
  let v' := fst (Steps n (v, irq)) in
  m_VCount v' = (Z.of_N n / 1232) mod 227 /\
  m_VCount v' <> 227 /\
  (m_State v' = VBlank <-> 160 <= m_VCount v' <= 226).
Proof.
  intros Hstart v'.
  destruct (Steps_phase n v irq Hstart) as [Hc Hst]. fold v' in Hc, Hst.
  cbv zeta in Hst.
  pose proof (Z.mod_pos_bound (Z.of_N n / 1232) 227 ltac:(lia)) as Hl.
  split; [exact Hc|]. split; [lia|].
  rewrite <- Hc in Hst, Hl.
  destruct (Z.ltb_spec (m_VCount v') 160).
  - destruct (Z.of_N n mod 1232 <? 960); destruct Hst as [Hs _]; rewrite Hs;
      split; (discriminate || lia).
  - destruct Hst as [Hs _]. rewrite Hs. split; [lia | reflexivity].
Qed.

(** C2 from reset, a whole frame of 227 lines of 1232 dots later. *)
Lemma C2_witness :
  frame_start Video.init /\
  let v' := fst (Steps 279664 (Video.init, Build_GBAInterrupt 0 0 0)) in
  m_VCount v' = (Z.of_N 279664 / 1232) mod 227 /\
  m_VCount v' <> 227 /\
  (m_State v' = VBlank <-> 160 <= m_VCount v' <= 226).
Proof.
  split.
  - repeat split.
  - apply (C2_vcount_sequence 279664 Video.init (Build_GBAInterrupt 0 0 0)).
    repeat split.
Defined.

(** The last line of a frame from reset: VCOUNT is 226 one step before
    the end of the 227th line and 0 afterwards. *)
Lemma VCount_wraps_after_226 :
  let s := (Video.init, Build_GBAInterrupt 0 0 0) in
  m_VCount (fst (Steps 279663 s)) = 226 /\
  m_State (fst (Steps 279663 s)) = VBlank /\
  m_VCount (fst (Steps 279664 s)) = 0 /\
  m_State (fst (Steps 279664 s)) = Scanline.
Proof. vm_compute. repeat split. Qed.

(** ** Interrupt entry *)

Import ARM7.

(** The new CPSR of [FireIRQ] seen through a mask. *)
Lemma irq_cpsr_masked c mask :
  Z.land (u32 (Z.lor (Z.lor (Z.land c (Z.lnot 0x3F)) ARM7Mode.IRQ) IRQDisable)) mask =
  Z.lor (Z.lor (Z.land c (Z.land (Z.lnot 0x3F) (Z.land (Z.ones 32) mask)))
               (Z.land ARM7Mode.IRQ (Z.land (Z.ones 32) mask)))
        (Z.land IRQDisable (Z.land (Z.ones 32) mask)).
Proof.
  rewrite u32_land, <- Z.land_assoc.
  rewrite !Z.land_lor_distr_l, <- Z.land_assoc. reflexivity.
Qed.

(** [FireIRQ] with interrupts enabled. *)
Lemma FireIRQ_taken c :
  Z.land (cpsr c) IRQDisable = 0 ->
  FireIRQ c =
  set_pipe_status 0
    (assign r15 0x18
      (RemapRegisters
        (set_cpsr
          (u32 (Z.lor (Z.lor (Z.land (cpsr c) (Z.lnot 0x3F)) ARM7Mode.IRQ) IRQDisable))
          (assign_spsr spsr_irq (cpsr c)
            (assign r14_irq
              (regs c r15 - (if to_bool (Z.land (cpsr c) Thumb) then 4 else 8) + 4)
              c))))).
Proof. intros H. unfold FireIRQ. rewrite H. reflexivity. Qed.

(** The register bank of IRQ mode. *)
Lemma RemapRegisters_IRQ c :
  Z.land (cpsr c) 0x1F = ARM7Mode.IRQ ->
  RemapRegisters c = remap r8 r9 r10 r11 r12 r13_irq r14_irq spsr_irq c.
Proof. intros H. unfold RemapRegisters. rewrite H. reflexivity. Qed.

(** C7.  When [FireIRQ] is called with the I flag of CPSR clear, then
    afterwards r14_irq holds r15 minus the pipeline lead (4 in Thumb
    state, 8 in ARM state) plus 4, as a 32-bit value, SPSR_irq holds the
    old CPSR, the mode bits are those of IRQ mode, the I flag is set,
    the T flag is clear, the remaining bits of CPSR are the old ones,
    r15 is 0x18, the pipeline status is 0, and r13, r14 and the SPSR
    accessed are those of the IRQ bank.  With the I flag set the CPU
    state is unchanged. *)
Theorem C7_FireIRQ (c : ARM7) :
  0 <= cpsr c < 2 ^ 32 ->
  let c' := FireIRQ c in
  (Z.land (cpsr c) IRQDisable = 0 ->
     regs c' r14_irq =
       u32 (regs c r15 - (if to_bool (Z.land (cpsr c) Thumb) then 4 else 8) + 4) /\
     spsr c' spsr_irq = cpsr c /\
     Z.land (cpsr c') 0x1F = ARM7Mode.IRQ /\
     Z.land (cpsr c') IRQDisable = IRQDisable /\
     Z.land (cpsr c') Thumb = 0 /\
     Z.land (cpsr c') 0xFFFFFF40 = Z.land (cpsr c) 0xFFFFFF40 /\
     regs c' r15 = 0x18 /\
     pipe_status c' = 0 /\
     gprs c' !!! 13%fin = r13_irq /\ gprs c' !!! 14%fin = r14_irq /\
     pspsr c' = spsr_irq) /\
  (Z.land (cpsr c) IRQDisable <> 0 -> c' = c).
Proof.
  intros Hrange. cbv zeta. split.
  - intros Hen. rewrite (FireIRQ_taken c Hen).
    set (new := u32 (Z.lor (Z.lor (Z.land (cpsr c) (Z.lnot 0x3F)) ARM7Mode.IRQ) IRQDisable)).
    assert (Hmode : Z.land new 0x1F = ARM7Mode.IRQ).
    { unfold new. rewrite irq_cpsr_masked.
      change (Z.land (Z.lnot 0x3F) (Z.land (Z.ones 32) 0x1F)) with 0.
      rewrite Z.land_0_r. reflexivity. }
    rewrite RemapRegisters_IRQ by exact Hmode.
    cbn [regs cpsr spsr gprs pspsr pipe_status set_pipe_status assign assign_spsr
         set_cpsr set_regs set_spsr set_gprs set_pspsr remap].
    split; [reflexivity|].
    split; [cbn; apply u32_small; exact Hrange|].
    split; [exact Hmode|].
    split.
    { unfold new. rewrite irq_cpsr_masked.
      change (Z.land (Z.lnot 0x3F) (Z.land (Z.ones 32) IRQDisable)) with IRQDisable.
      rewrite Hen. reflexivity. }
    split.
    { unfold new. rewrite irq_cpsr_masked.
      change (Z.land (Z.lnot 0x3F) (Z.land (Z.ones 32) Thumb)) with 0.
      rewrite Z.land_0_r. reflexivity. }
    split.
    { unfold new. rewrite irq_cpsr_masked.
      change (Z.land (Z.lnot 0x3F) (Z.land (Z.ones 32) 0xFFFFFF40)) with 0xFFFFFF40.
      change (Z.land ARM7Mode.IRQ (Z.land (Z.ones 32) 0xFFFFFF40)) with 0.
      change (Z.land IRQDisable (Z.land (Z.ones 32) 0xFFFFFF40)) with 0.
      rewrite !Z.lor_0_r. reflexivity. }
    split; [reflexivity|]. split; [reflexivity|].
    split; [vec_lookups; reflexivity|].
    split; [vec_lookups; reflexivity|]. reflexivity.
  - intros Hdis. unfold FireIRQ.
    destruct (Z.eqb_spec (Z.land (cpsr c) IRQDisable) 0); [contradiction | reflexivity].
Qed.

(** C7 on the CPU after construction, in Thumb state with interrupts
    enabled and r15 = 0x08000000; a second request, arriving with the
    I flag set by the first, changes nothing. *)
Lemma C7_witness :
  let c := cpu_sample in
  let c' := FireIRQ c in
  0 <= cpsr c < 2 ^ 32 /\
  Z.land (cpsr c) IRQDisable = 0 /\
  regs c' r14_irq = 0x08000000 /\
  spsr c' spsr_irq = 0x3F /\
  Z.land (cpsr c') 0x1F = ARM7Mode.IRQ /\
  Z.land (cpsr c') IRQDisable = IRQDisable /\
  Z.land (cpsr c') Thumb = 0 /\
  regs c' r15 = 0x18 /\
  pipe_status c' = 0 /\
  FireIRQ c' = c'.
Proof.
  cbv zeta.
  assert (Hr : 0 <= cpsr cpu_sample < 2 ^ 32) by (vm_compute; split; [discriminate | reflexivity]).
  assert (Hr' : 0 <= cpsr (FireIRQ cpu_sample) < 2 ^ 32)
    by (vm_compute; split; [discriminate | reflexivity]).
  destruct (C7_FireIRQ cpu_sample Hr) as (Htaken & _).
  destruct (C7_FireIRQ (FireIRQ cpu_sample) Hr') as (_ & Hblocked).
  destruct (Htaken eq_refl)
    as (H14 & Hspsr & Hmode & Hi & Ht & _ & H15 & Hpipe & _).
  split; [exact Hr|].
  split; [reflexivity|].
  split; [rewrite H14; reflexivity|].
  split; [rewrite Hspsr; reflexivity|].
  split; [exact Hmode|].
  split; [exact Hi|].
  split; [exact Ht|].
  split; [exact H15|].
  split; [exact Hpipe|].
  apply Hblocked. rewrite Hi. discriminate.
Defined.

(** ** Work RAM *)

(** One case of a [switch] peeled off. *)
Lemma switch_cons {A : Type} (x : Z) labels (body : A) rest default :
  switch x ((labels, body) :: rest) default =
  if existsb (Z.eqb x) labels then body else switch x rest default.
Proof. reflexivity. Qed.

Lemma u8_idem x : u8 (u8 x) = u8 x.
Proof. apply u8_small, u8_range. Qed.

Section WorkRAM.
Context {B : Type} {backup : GBABackup B}.
Implicit Types m : GBAMemory B.

Lemma ReadByte_set_m_WRAM m w b :
  ReadByte (set_m_WRAM w m) b =
  if Z.shiftr (u32 b) 24 =? 2
  then u8 (w (Z.land (u32 b) 0xFFFFFF mod 0x40000))
  else ReadByte m b.
Proof.
  unfold ReadByte. cbv zeta.
  set (page := Z.shiftr (u32 b) 24).
  rewrite !(switch_cons page [0; 1]), !(switch_cons page [2]).
  destruct (existsb (Z.eqb page) [0; 1]) eqn:H01.
  - assert (page <> 2).
    { intros E. rewrite E in H01. discriminate. }
    destruct (Z.eqb_spec page 2); [contradiction | reflexivity].
  - cbn [existsb]. rewrite orb_false_r.
    destruct (Z.eqb_spec page 2); reflexivity.
Qed.

Lemma ReadByte_set_m_IRAM m w b :
  ReadByte (set_m_IRAM w m) b =
  if Z.shiftr (u32 b) 24 =? 3
  then u8 (w (Z.land (u32 b) 0xFFFFFF mod 0x8000))
  else ReadByte m b.
Proof.
  unfold ReadByte. cbv zeta.
  set (page := Z.shiftr (u32 b) 24).
  rewrite !(switch_cons page [0; 1]), !(switch_cons page [2]), !(switch_cons page [3]).
  destruct (existsb (Z.eqb page) [0; 1]) eqn:H01.
  - assert (page <> 3).
    { intros E. rewrite E in H01. discriminate. }
    destruct (Z.eqb_spec page 3); [contradiction | reflexivity].
  - cbn [existsb]. rewrite !orb_false_r.
    destruct (Z.eqb_spec page 2) as [E2 | N2].
    + rewrite E2. reflexivity.
    + destruct (Z.eqb_spec page 3); reflexivity.
Qed.

Lemma ReadByte_WRAM m b :
  Z.shiftr (u32 b) 24 = 2 ->
  ReadByte m b = u8 (m_WRAM m (Z.land (u32 b) 0xFFFFFF mod 0x40000)).
Proof. intros H. unfold ReadByte. cbv zeta. rewrite H. reflexivity. Qed.

Lemma ReadByte_IRAM m b :
  Z.shiftr (u32 b) 24 = 3 ->
  ReadByte m b = u8 (m_IRAM m (Z.land (u32 b) 0xFFFFFF mod 0x8000)).
Proof. intros H. unfold ReadByte. cbv zeta. rewrite H. reflexivity. Qed.

Lemma WriteByte_WRAM m a v :
  Z.shiftr (u32 a) 24 = 2 ->
  WriteByte m a v =
  set_m_WRAM (store (m_WRAM m) (Z.land (u32 a) 0xFFFFFF mod 0x40000) (u8 v)) m.
Proof. intros H. unfold WriteByte. cbv zeta. rewrite H. reflexivity. Qed.

Lemma WriteByte_IRAM m a v :
  Z.shiftr (u32 a) 24 = 3 ->
  WriteByte m a v =
  set_m_IRAM (store (m_IRAM m) (Z.land (u32 a) 0xFFFFFF mod 0x8000) (u8 v)) m.
Proof. intros H. unfold WriteByte. cbv zeta. rewrite H. reflexivity. Qed.

(** The byte read after a byte write to on-board work RAM. *)
Lemma WRAM_read_after_write m a b v :
  Z.shiftr (u32 a) 24 = 2 ->
  ReadByte (WriteByte m a v) b =
  if (Z.shiftr (u32 b) 24 =? 2) &&
     (Z.land (u32 b) 0xFFFFFF mod 0x40000 =? Z.land (u32 a) 0xFFFFFF mod 0x40000)
  then u8 v else ReadByte m b.
Proof.
  intros Ha. rewrite (WriteByte_WRAM m a v Ha), ReadByte_set_m_WRAM.
  destruct (Z.eqb_spec (Z.shiftr (u32 b) 24) 2) as [Hb | Hb]; [|reflexivity].
  cbn [andb]. unfold store.
  destruct (_ =? _); [apply u8_idem | symmetry; apply ReadByte_WRAM; exact Hb].
Qed.

(** The byte read after a byte write to on-chip work RAM. *)
Lemma IRAM_read_after_write m a b v :
  Z.shiftr (u32 a) 24 = 3 ->
  ReadByte (WriteByte m a v) b =
  if (Z.shiftr (u32 b) 24 =? 3) &&
     (Z.land (u32 b) 0xFFFFFF mod 0x8000 =? Z.land (u32 a) 0xFFFFFF mod 0x8000)
  then u8 v else ReadByte m b.
Proof.
  intros Ha. rewrite (WriteByte_IRAM m a v Ha), ReadByte_set_m_IRAM.
  destruct (Z.eqb_spec (Z.shiftr (u32 b) 24) 3) as [Hb | Hb]; [|reflexivity].
  cbn [andb]. unfold store.
  destruct (_ =? _); [apply u8_idem | symmetry; apply ReadByte_IRAM; exact Hb].
Qed.

End WorkRAM.

(** X1.  A byte written to work RAM is read back, as an 8-bit value, at
    every address of the same region whose offset is the same modulo
    the size of the memory (0x40000 for region 2, 0x8000 for region 3),
    and every other address of the bus reads what it read before the
    write.  The write changes nothing but the array of its region. *)
Theorem work_RAM_write_then_read {B : Type} {backup : GBABackup B}
    (m : GBAMemory B) (a b v : Z) :
  let page x := Z.shiftr (u32 x) 24 in
  let index size x := Z.land (u32 x) 0xFFFFFF mod size in
  (page a = 2 ->
     ReadByte (WriteByte m a v) b =
       (if (page b =? 2) && (index 0x40000 b =? index 0x40000 a)
        then u8 v else ReadByte m b) /\
     WriteByte m a v = set_m_WRAM (m_WRAM (WriteByte m a v)) m) /\
  (page a = 3 ->
     ReadByte (WriteByte m a v) b =
       (if (page b =? 3) && (index 0x8000 b =? index 0x8000 a)
        then u8 v else ReadByte m b) /\
     WriteByte m a v = set_m_IRAM (m_IRAM (WriteByte m a v)) m).
Proof.
  cbv zeta. split; intros Ha.
  - split; [apply WRAM_read_after_write, Ha|].
    rewrite (WriteByte_WRAM m a v Ha). reflexivity.
  - split; [apply IRAM_read_after_write, Ha|].
    rewrite (WriteByte_IRAM m a v Ha). reflexivity.
Qed.

Lemma work_RAM_write_then_read_witness :
  let m := WriteByte wram_sample 0x02000001 0xAB in
  ReadByte m 0x02000001 = 0xAB /\
  ReadByte m 0x02040001 = 0xAB /\
  ReadByte m 0x02000000 = 0x11 /\
  ReadByte (WriteByte wram_sample 0x03000000 0xCD) 0x03FF8000 = 0xCD.
Proof.
  cbv zeta.
  destruct (work_RAM_write_then_read wram_sample 0x02000001 0x02000001 0xAB) as (H1 & _).
  destruct (work_RAM_write_then_read wram_sample 0x02000001 0x02040001 0xAB) as (H2 & _).
  destruct (work_RAM_write_then_read wram_sample 0x02000001 0x02000000 0xAB) as (H3 & _).
  destruct (work_RAM_write_then_read wram_sample 0x03000000 0x03FF8000 0xCD) as (_ & H4).
  split; [exact (proj1 (H1 eq_refl))|].
  split; [exact (proj1 (H2 eq_refl))|].
  split; [exact (eq_trans (proj1 (H3 eq_refl)) eq_refl)|].
  exact (proj1 (H4 eq_refl)).
Defined.

(** The bytes of a 32-bit value, as the word and halfword writes cut
    them out. *)
Lemma word_bytes v :
  let lo := Z.land (u32 v) 0xFFFF in
  let hi := Z.land (Z.shiftr (u32 v) 16) 0xFFFF in
  u8 (Z.land (u16 lo) 0xFF) + 2 ^ 8 * u8 (Z.land (Z.shiftr (u16 lo) 8) 0xFF) +
  2 ^ 16 * u8 (Z.land (u16 hi) 0xFF) +
  2 ^ 24 * u8 (Z.land (Z.shiftr (u16 hi) 8) 0xFF) = u32 v.
Proof.
  cbv zeta. pose proof (u32_range v) as Hv. set (x := u32 v) in *.
  change 0xFFFF with (Z.ones 16). change 0xFF with (Z.ones 8).
  unfold u8, u16.
  rewrite !Z.land_ones, !Z.shiftr_div_pow2 by lia.
  rewrite !Z.mod_mod by lia.
  pose proof (Z.div_mod x (2 ^ 16) ltac:(lia)).
  pose proof (Z.mod_pos_bound x (2 ^ 16) ltac:(lia)).
  assert (0 <= x / 2 ^ 16 < 2 ^ 16).
  { split; [apply Z.div_pos; lia | apply Z.div_lt_upper_bound; lia]. }
  rewrite (Z.mod_small (x / 2 ^ 16) (2 ^ 16)) by lia.
  set (l := x mod 2 ^ 16) in *. set (h := x / 2 ^ 16) in *.
  pose proof (Z.div_mod l (2 ^ 8) ltac:(lia)).
  pose proof (Z.div_mod h (2 ^ 8) ltac:(lia)).
  assert (0 <= l / 2 ^ 8 < 2 ^ 8).
  { split; [apply Z.div_pos; lia | apply Z.div_lt_upper_bound; lia]. }
  assert (0 <= h / 2 ^ 8 < 2 ^ 8).
  { split; [apply Z.div_pos; lia | apply Z.div_lt_upper_bound; lia]. }
  rewrite (Z.mod_small (l / 2 ^ 8) (2 ^ 8)), (Z.mod_small (h / 2 ^ 8) (2 ^ 8)) by lia.
  lia.
Qed.

Lemma halfword_bytes v :
  u8 (Z.land (u16 v) 0xFF) + 2 ^ 8 * u8 (Z.land (Z.shiftr (u16 v) 8) 0xFF) = u16 v.
Proof.
  pose proof (u16_range v) as Hv. set (x := u16 v) in *.
  change 0xFF with (Z.ones 8). unfold u8.
  rewrite !Z.land_ones, !Z.shiftr_div_pow2 by lia.
  rewrite !Z.mod_mod by lia.
  assert (0 <= x / 2 ^ 8 < 2 ^ 8).
  { split; [apply Z.div_pos; lia | apply Z.div_lt_upper_bound; lia]. }
  rewrite (Z.mod_small (x / 2 ^ 8)) by lia.
  pose proof (Z.div_mod x (2 ^ 8) ltac:(lia)). lia.
Qed.

(** Region and offset of an address a few bytes further on, inside
    the region. *)
Lemma address_parts a k :
  0 <= k <= 3 -> Z.land (u32 a) 0xFFFFFF <= 0xFFFFFC ->
  Z.shiftr (u32 (a + k)) 24 = Z.shiftr (u32 a) 24 /\
  Z.land (u32 (a + k)) 0xFFFFFF = Z.land (u32 a) 0xFFFFFF + k.
Proof.
  intros Hk. rewrite <- (u32_add_l a k).
  pose proof (u32_range a) as Hx. set (x := u32 a) in *.
  change 0xFFFFFF with (Z.ones 24).
  rewrite !Z.land_ones, !Z.shiftr_div_pow2 by lia. intros Hio.
  pose proof (Z.div_mod x (2 ^ 24) ltac:(lia)) as Hd.
  pose proof (Z.mod_pos_bound x (2 ^ 24) ltac:(lia)) as Hm.
  assert (Hq : 0 <= x / 2 ^ 24 < 2 ^ 8).
  { split; [apply Z.div_pos; lia | apply Z.div_lt_upper_bound; lia]. }
  rewrite (u32_small (x + k)) by lia.
  split.
  - symmetry. apply (Z.div_unique (x + k) (2 ^ 24) (x / 2 ^ 24) (x mod 2 ^ 24 + k)); lia.
  - symmetry. apply (Z.mod_unique (x + k) (2 ^ 24) (x / 2 ^ 24) (x mod 2 ^ 24 + k)); lia.
Qed.

Lemma mod_add_ne x j k n :
  3 < n -> 0 <= j <= 3 -> 0 <= k <= 3 -> j <> k -> (x + j) mod n <> (x + k) mod n.
Proof.
  intros Hn Hj Hk Hne Heq.
  pose proof (Z.mod_pos_bound (x + j) n ltac:(lia)).
  pose proof (Z.div_mod (x + j) n ltac:(lia)).
  pose proof (Z.div_mod (x + k) n ltac:(lia)).
  rewrite <- Heq in *.
  assert (n * ((x + j) / n - (x + k) / n) = j - k) by lia.
  assert ((x + j) / n - (x + k) / n = 0 \/ (x + j) / n - (x + k) / n <= -1 \/
          1 <= (x + j) / n - (x + k) / n) by lia.
  nia.
Qed.

Section WorkRAMWords.
Context {B : Type} {backup : GBABackup B}.
Implicit Types m : GBAMemory B.

Lemma WriteByte_u32 m offset value :
  WriteByte m (u32 offset) value = WriteByte m offset value.
Proof. unfold WriteByte. cbv zeta. rewrite u32_idem. reflexivity. Qed.

Lemma WriteByte_u32_add m offset k value :
  WriteByte m (u32 offset + k) value = WriteByte m (offset + k) value.
Proof.
  rewrite <- (WriteByte_u32 m (u32 offset + k)), u32_add_l. apply WriteByte_u32.
Qed.

(** Bytes [j] and [k] of a word inside work RAM. *)
Lemma RAM_byte_of_word m a j k v :
  Z.shiftr (u32 a) 24 = 2 \/ Z.shiftr (u32 a) 24 = 3 ->
  Z.land (u32 a) 0xFFFFFF <= 0xFFFFFC ->
  0 <= j <= 3 -> 0 <= k <= 3 ->
  ReadByte (WriteByte m (a + j) v) (a + k) =
  if j =? k then u8 v else ReadByte m (a + k).
Proof.
  intros Hpage Hio Hj Hk.
  destruct (address_parts a j Hj Hio) as (Hpj & Hoj).
  destruct (address_parts a k Hk Hio) as (Hpk & Hok).
  pose proof (WRAM_read_after_write m (a + j) (a + k) v) as H2.
  pose proof (IRAM_read_after_write m (a + j) (a + k) v) as H3.
  rewrite Hpj, Hpk, Hoj, Hok in H2, H3.
  destruct Hpage as [Hp | Hp]; rewrite Hp in *.
  - rewrite (H2 eq_refl). cbn [Z.eqb Pos.eqb andb].
    destruct (Z.eqb_spec j k) as [-> | Hne]; [rewrite Z.eqb_refl; reflexivity|].
    destruct (Z.eqb_spec ((Z.land (u32 a) 0xFFFFFF + k) mod 0x40000)
                         ((Z.land (u32 a) 0xFFFFFF + j) mod 0x40000)) as [E | _];
      [|reflexivity].
    exfalso. revert E. apply mod_add_ne; lia.
  - rewrite (H3 eq_refl). cbn [Z.eqb Pos.eqb andb].
    destruct (Z.eqb_spec j k) as [-> | Hne]; [rewrite Z.eqb_refl; reflexivity|].
    destruct (Z.eqb_spec ((Z.land (u32 a) 0xFFFFFF + k) mod 0x8000)
                         ((Z.land (u32 a) 0xFFFFFF + j) mod 0x8000)) as [E | _];
      [|reflexivity].
    exfalso. revert E. apply mod_add_ne; lia.
Qed.

Lemma WriteHWord_RAM m a v :
  Z.shiftr (u32 a) 24 = 2 \/ Z.shiftr (u32 a) 24 = 3 ->
  WriteHWord m a v =
  WriteByte (WriteByte m a (Z.land (u16 v) 0xFF))
    (a + 1) (Z.land (Z.shiftr (u16 v) 8) 0xFF).
Proof.
  intros Hpage. rewrite WriteHWord_bytes, WriteByte_u32, WriteByte_u32_add.
  - reflexivity.
  - destruct Hpage as [-> | ->]; vm_compute; intros [H _]; apply H; reflexivity.
Qed.

End WorkRAMWords.

(** X2.  In work RAM (regions 2 and 3), at an address whose offset
    leaves room for four bytes below the end of the region, a halfword
    write followed by a halfword read at the same address gives the
    value written as a 16-bit value, and a word write followed by a
    word read gives it as a 32-bit value; the address need not be
    aligned. *)
Theorem work_RAM_word_round_trip {B : Type} {backup : GBABackup B}
    (m : GBAMemory B) (a v : Z) :
  Z.shiftr (u32 a) 24 = 2 \/ Z.shiftr (u32 a) 24 = 3 ->
  Z.land (u32 a) 0xFFFFFF <= 0xFFFFFC ->
  ReadHWord (WriteHWord m a v) a = u16 v /\
  ReadWord (WriteWord m a v) a = u32 v.
Proof.
  intros Hpage Hio.
  assert (Hpage2 : Z.shiftr (u32 (a + 2)) 24 = 2 \/ Z.shiftr (u32 (a + 2)) 24 = 3).
  { destruct (address_parts a 2 ltac:(lia) Hio) as (-> & _). exact Hpage. }
  assert (Hrw : forall m' x y w j k,
            x = a + j -> y = a + k -> 0 <= j <= 3 -> 0 <= k <= 3 ->
            ReadByte (WriteByte m' x w) y = if j =? k then u8 w else ReadByte m' y).
  { intros m' x y w j k -> -> Hj Hk. apply RAM_byte_of_word; assumption. }
  split.
  - rewrite ReadHWord_bytes, (WriteHWord_RAM m a v Hpage).
    rewrite (Hrw _ (a + 1) a _ 1 0), (Hrw _ a a _ 0 0),
            (Hrw _ (a + 1) (a + 1) _ 1 1) by lia.
    cbn [Z.eqb Pos.eqb].
    apply halfword_bytes.
  - destruct (WriteWord_halves m a v) as (Hhalves & _). cbv zeta in Hhalves.
    rewrite Hhalves.
    2:{ apply andb_false_iff. right. unfold TMnCNT_L_address. cbn [existsb].
        repeat (apply orb_false_iff; split); try reflexivity;
          apply Z.eqb_neq; intros E; rewrite E in Hpage;
          destruct Hpage as [Hp | Hp]; vm_compute in Hp; discriminate. }
    rewrite ReadWord_bytes.
    rewrite (WriteHWord_RAM _ (a + 2) _ Hpage2), (WriteHWord_RAM m a _ Hpage).
    replace (a + 2 + 1) with (a + 3) by lia.
    rewrite (Hrw _ (a + 3) a _ 3 0), (Hrw _ (a + 2) a _ 2 0),
            (Hrw _ (a + 1) a _ 1 0), (Hrw _ a a _ 0 0) by lia.
    rewrite (Hrw _ (a + 3) (a + 1) _ 3 1), (Hrw _ (a + 2) (a + 1) _ 2 1),
            (Hrw _ (a + 1) (a + 1) _ 1 1) by lia.
    rewrite (Hrw _ (a + 3) (a + 2) _ 3 2), (Hrw _ (a + 2) (a + 2) _ 2 2) by lia.
    rewrite (Hrw _ (a + 3) (a + 3) _ 3 3) by lia.
    cbn [Z.eqb Pos.eqb].
    apply word_bytes.
Qed.


Lemma work_RAM_word_round_trip_witness :
  ReadHWord (WriteHWord power_on 0x02000001 0x1BEEF) 0x02000001 = 0xBEEF /\
  ReadWord (WriteWord power_on 0x03007FFC 0xCAFEF00D) 0x03007FFC = 0xCAFEF00D.
Proof.
  destruct (work_RAM_word_round_trip power_on 0x02000001 0x1BEEF)
    as (Hh & _); [left; reflexivity | vm_compute; discriminate |].
  destruct (work_RAM_word_round_trip power_on 0x03007FFC 0xCAFEF00D)
    as (_ & Hw); [right; reflexivity | vm_compute; discriminate |].
  split; [exact Hh | exact Hw].
Defined.

(** ** Unmapped addresses *)

(** A scrutinee above every label takes the default. *)
Lemma switch_above {A : Type} (x bound : Z) (cases : list (list Z * A)) default :
  forallb (fun c => forallb (fun l => l <? bound) (fst c)) cases = true ->
  bound <= x -> switch x cases default = default.
Proof.
  intros Hall Hx. induction cases as [|[labels body] rest IH]; [reflexivity|].
  cbn [forallb fst] in Hall. apply andb_true_iff in Hall. destruct Hall as [Hl Hr].
  cbn [switch].
  assert (Hno : existsb (Z.eqb x) labels = false).
  { clear -Hl Hx. induction labels as [|l ls IHl]; [reflexivity|].
    cbn [forallb] in Hl. apply andb_true_iff in Hl. destruct Hl as [H1 H2].
    cbn [existsb]. apply Z.ltb_lt in H1.
    destruct (Z.eqb_spec x l); [lia|]. apply IHl. exact H2. }
  rewrite Hno. apply IH. exact Hr.
Qed.

Section Unmapped.
Context {B : Type} {backup : GBABackup B}.
Implicit Types m : GBAMemory B.

Lemma ReadIO_above m io : 0x3FF <= io -> ReadIO m io = 0.
Proof.
  intros Hio. unfold ReadIO. cbv zeta.
  apply (switch_above io 0x3FF); [reflexivity | exact Hio].
Qed.

Lemma WriteIO_above m io v : 0x3FF <= io -> WriteIO m io v = m.
Proof.
  intros Hio. unfold WriteIO. cbv zeta.
  apply (switch_above io 0x3FF); [reflexivity | exact Hio].
Qed.

End Unmapped.

(** X3.  In the I/O region an offset from 0x3FF on names no register:
    a byte write there leaves the whole bus state unchanged and a byte
    read gives 0.  This includes the offsets 0x800 + k * 0x10000 that
    the bus folds onto 0x800. *)
Theorem IO_beyond_registers {B : Type} {backup : GBABackup B}
    (m : GBAMemory B) (a v : Z) :
  Z.shiftr (u32 a) 24 = 4 -> 0x3FF <= Z.land (u32 a) 0xFFFFFF ->
  WriteByte m a v = m /\ ReadByte m a = 0.
Proof.
  intros Hpage Hio. split.
  - unfold WriteByte. cbv zeta. rewrite Hpage.
    rewrite (switch_cons 4 [0]), (switch_cons 4 [2]), (switch_cons 4 [3]), (switch_cons 4 [4]).
    cbn [existsb Z.eqb Pos.eqb orb].
    destruct (Z.leb_spec 0x3FF (Z.land (u32 a) 0xFFFFFF)); [|lia]. cbn [andb].
    destruct (Z.eqb_spec (Z.land (Z.land (u32 a) 0xFFFFFF) 0xFFFF) 0x800) as [E | E];
      cbn [negb]; [|reflexivity].
    rewrite E. apply WriteIO_above. lia.
  - unfold ReadByte. cbv zeta. rewrite Hpage.
    rewrite (switch_cons 4 [0; 1]), (switch_cons 4 [2]), (switch_cons 4 [3]),
            (switch_cons 4 [4]).
    cbn [existsb Z.eqb Pos.eqb orb].
    destruct (Z.eqb_spec (Z.land (Z.land (u32 a) 0xFFFFFF) 0xFFFF) 0x800) as [E | E].
    + rewrite E, ReadIO_above by lia. reflexivity.
    + rewrite ReadIO_above by lia. reflexivity.
Qed.

Lemma IO_beyond_registers_witness :
  let m := WriteByte irq_sample 0x04000800 0xFF in
  m = irq_sample /\ ReadByte irq_sample 0x04000800 = 0 /\
  WriteByte irq_sample 0x040003FF 0xFF = irq_sample.
Proof.
  cbv zeta.
  destruct (IO_beyond_registers irq_sample 0x04000800 0xFF eq_refl ltac:(vm_compute; discriminate))
    as (Hw & Hr).
  destruct (IO_beyond_registers irq_sample 0x040003FF 0xFF eq_refl ltac:(vm_compute; discriminate))
    as (Hw' & _).
  split; [exact Hw|]. split; [exact Hr | exact Hw'].
Defined.

(** X4.  A byte read in regions 0xA to 0xD or from 0xF on gives 0.  In
    region 8 it gives the ROM byte at the offset, in region 9 the ROM
    byte 0x1000000 further on, and 0 when that index is not below the
    size of the ROM.  In region 0xE without a backup memory of a type
    the bus serves, a read gives 0 and a write leaves the bus state
    unchanged. *)
Theorem unmapped_reads {B : Type} {backup : GBABackup B}
    (m : GBAMemory B) (a v : Z) :
  let page := Z.shiftr (u32 a) 24 in
  let io := Z.land (u32 a) 0xFFFFFF in
  (0xA <= page <= 0xD \/ 0xF <= page -> ReadByte m a = 0) /\
  (page = 8 ->
     ReadByte m a = if m_RomSize m <=? io then 0 else u8 (rom_at m io)) /\
  (page = 9 ->
     ReadByte m a =
     if m_RomSize m <=? io + 0x1000000 then 0 else u8 (rom_at m (io + 0x1000000))) /\
  (page = 0xE -> backup_present m = None ->
     ReadByte m a = 0 /\ WriteByte m a v = m).
Proof.
  cbv zeta. split; [|split; [|split]].
  - intros Hp. unfold ReadByte. cbv zeta.
    set (page := Z.shiftr (u32 a) 24) in *.
    unfold switch, existsb.
    repeat match goal with
           | |- context [page =? ?k] => destruct (Z.eqb_spec page k); [lia|]
           end.
    reflexivity.
  - intros Hp. unfold ReadByte. cbv zeta. rewrite Hp.
    cbn [switch existsb Z.eqb Pos.eqb orb].
    destruct (_ <=? _); reflexivity.
  - intros Hp. unfold ReadByte. cbv zeta. rewrite Hp.
    cbn [switch existsb Z.eqb Pos.eqb orb].
    destruct (_ <=? _); reflexivity.
  - intros Hp Hb. split.
    + unfold ReadByte. cbv zeta. rewrite Hp.
      cbn [switch existsb Z.eqb Pos.eqb orb]. rewrite Hb. reflexivity.
    + unfold WriteByte. cbv zeta. rewrite Hp.
      cbn [switch existsb Z.eqb Pos.eqb orb]. rewrite Hb. reflexivity.
Qed.


Lemma unmapped_reads_witness :
  ReadByte rom_sample 0x0A000000 = 0 /\ ReadByte rom_sample 0xFF000000 = 0 /\
  ReadByte rom_sample 0x08000003 = 0xEA /\ ReadByte rom_sample 0x08000004 = 0 /\
  ReadByte rom_sample 0x09000000 = 0 /\
  ReadByte rom_sample 0x0E000000 = 0 /\ WriteByte rom_sample 0x0E000000 0xFF = rom_sample.
Proof.
  destruct (unmapped_reads rom_sample 0x0A000000 0) as (HA & _).
  destruct (unmapped_reads rom_sample 0xFF000000 0) as (HF & _).
  destruct (unmapped_reads rom_sample 0x08000003 0) as (_ & H8 & _).
  destruct (unmapped_reads rom_sample 0x08000004 0) as (_ & H8' & _).
  destruct (unmapped_reads rom_sample 0x09000000 0) as (_ & _ & H9 & _).
  destruct (unmapped_reads rom_sample 0x0E000000 0xFF) as (_ & _ & _ & HE).
  split; [apply HA; left; vm_compute; split; discriminate|].
  split; [apply HF; right; vm_compute; discriminate|].
  split; [exact (eq_trans (H8 eq_refl) eq_refl)|].
  split; [exact (eq_trans (H8' eq_refl) eq_refl)|].
  split; [exact (eq_trans (H9 eq_refl) eq_refl)|].
  exact (HE eq_refl eq_refl).
Defined.

(** ** Interrupt registers on the bus *)

Lemma halfword_of_bytes x :
  0 <= x < 2 ^ 16 ->
  u16 (Z.lor (u8 (Z.land x 0xFF)) (Z.shiftl (u8 (Z.shiftr x 8)) 8)) = x.
Proof.
  intros Hx. change 0xFF with (Z.ones 8). unfold u8.
  rewrite Z.land_ones, Z.shiftr_div_pow2 by lia.
  rewrite Z.mod_mod by lia.
  pose proof (Z.mod_pos_bound x (2 ^ 8) ltac:(lia)).
  assert (0 <= x / 2 ^ 8 < 2 ^ 8).
  { split; [apply Z.div_pos; lia | apply Z.div_lt_upper_bound; lia]. }
  rewrite (Z.mod_small (x / 2 ^ 8)) by lia.
  rewrite lor_shiftl_add by lia.
  pose proof (Z.div_mod x (2 ^ 8) ltac:(lia)).
  rewrite u16_small by lia. lia.
Qed.

Section InterruptRegisters.
Context {B : Type} {backup : GBABackup B}.
Implicit Types m : GBAMemory B.

Lemma WriteHWord_IE m v :
  WriteHWord m 0x04000200 v =
  upd_irq (set_ie (u16 v)) m.
Proof.
  rewrite WriteHWord_bytes by (vm_compute; intros [H _]; apply H; reflexivity).
  change (WriteByte (WriteByte m (u32 0x04000200) (Z.land (u16 v) 0xFF))
            (u32 0x04000200 + 1) (Z.land (Z.shiftr (u16 v) 8) 0xFF))
    with (upd_irq (fun i => set_ie (u16 (Z.lor (Z.land (ie i) 0x00FF)
                     (Z.shiftl (u8 (Z.land (Z.shiftr (u16 v) 8) 0xFF)) 8))) i)
            (upd_irq (fun i => set_ie (u16 (Z.lor (Z.land (ie i) 0xFF00)
                     (u8 (Z.land (u16 v) 0xFF)))) i) m)).
  unfold upd_irq. cbn [m_Interrupt set_m_Interrupt ie set_ie if_ ime].
  rewrite (reload_from_bytes (ie (m_Interrupt m)) (u16 v) (u16_range v)).
  reflexivity.
Qed.

Lemma WriteHWord_IME m v :
  WriteHWord m 0x04000208 v =
  upd_irq (set_ime (u16 v)) m.
Proof.
  rewrite WriteHWord_bytes by (vm_compute; intros [H _]; apply H; reflexivity).
  change (WriteByte (WriteByte m (u32 0x04000208) (Z.land (u16 v) 0xFF))
            (u32 0x04000208 + 1) (Z.land (Z.shiftr (u16 v) 8) 0xFF))
    with (upd_irq (fun i => set_ime (u16 (Z.lor (Z.land (ime i) 0x00FF)
                     (Z.shiftl (u8 (Z.land (Z.shiftr (u16 v) 8) 0xFF)) 8))) i)
            (upd_irq (fun i => set_ime (u16 (Z.lor (Z.land (ime i) 0xFF00)
                     (u8 (Z.land (u16 v) 0xFF)))) i) m)).
  unfold upd_irq. cbn [m_Interrupt set_m_Interrupt ime set_ime if_ ie].
  rewrite (reload_from_bytes (ime (m_Interrupt m)) (u16 v) (u16_range v)).
  reflexivity.
Qed.

Lemma ReadHWord_IE m :
  ReadHWord m 0x04000200 =
  u16 (Z.lor (u8 (Z.land (ie (m_Interrupt m)) 0xFF))
         (Z.shiftl (u8 (Z.shiftr (ie (m_Interrupt m)) 8)) 8)).
Proof. reflexivity. Qed.

Lemma ReadHWord_IME m :
  ReadHWord m 0x04000208 =
  u16 (Z.lor (u8 (Z.land (ime (m_Interrupt m)) 0xFF))
         (Z.shiftl (u8 (Z.shiftr (ime (m_Interrupt m)) 8)) 8)).
Proof. reflexivity. Qed.

End InterruptRegisters.

(** X5.  A halfword write to IE (0x04000200) or to IME (0x04000208)
    replaces the register by the value written, as a 16-bit value, and
    changes nothing else of the bus state; the halfword read at the same
    address gives that value back. *)
Theorem IE_IME_round_trip {B : Type} {backup : GBABackup B}
    (m : GBAMemory B) (v : Z) :
  let e := WriteHWord m 0x04000200 v in
  let g := WriteHWord m 0x04000208 v in
  ReadHWord e 0x04000200 = u16 v /\ ReadHWord g 0x04000208 = u16 v /\
  e = set_m_Interrupt (set_ie (u16 v) (m_Interrupt m)) m /\
  g = set_m_Interrupt (set_ime (u16 v) (m_Interrupt m)) m.
Proof.
  cbv zeta. rewrite WriteHWord_IE, WriteHWord_IME, ReadHWord_IE, ReadHWord_IME.
  unfold upd_irq. cbn [m_Interrupt set_m_Interrupt ie ime set_ie set_ime].
  rewrite (halfword_of_bytes (u16 v) (u16_range v)).
  repeat split.
Qed.

(** ** The waitstate control register *)

Section ControlRegisters.
Context {B : Type} {backup : GBABackup B}.
Implicit Types m : GBAMemory B.

Lemma ReadByte_WAITCNT m :
  ReadByte m 0x04000204 =
  let ws := m_Waitstate m in
  u8 (Z.lor (Z.lor (Z.lor (Z.lor (Waitstate.sram ws)
        (Z.shiftl (Waitstate.first ws !!! 0%fin) 2))
        (Z.shiftl (Waitstate.second ws !!! 0%fin) 4))
        (Z.shiftl (Waitstate.first ws !!! 1%fin) 5))
        (Z.shiftl (Waitstate.second ws !!! 1%fin) 7)).
Proof. reflexivity. Qed.

Lemma ReadByte_WAITCNT_1 m :
  ReadByte m 0x04000205 =
  let ws := m_Waitstate m in
  u8 (Z.lor (Z.lor (Z.lor (Waitstate.first ws !!! 2%fin)
        (Z.shiftl (Waitstate.second ws !!! 2%fin) 2))
        (flag (Waitstate.prefetch ws) 64))
        (Z.shiftl 1 7)).
Proof. reflexivity. Qed.

Lemma WriteByte_WAITCNT_1 m value :
  WriteByte m 0x04000205 value = upd_ws (write_WAITCNT_1 (u8 value)) m.
Proof. reflexivity. Qed.

End ControlRegisters.

(** The fields of the waitstate register after a write. *)
Ltac waitstate_fields :=
  cbv zeta; unfold upd_ws, write_WAITCNT, write_WAITCNT_1; cbv zeta;
  cbn [m_Waitstate set_m_Waitstate Waitstate.sram Waitstate.first Waitstate.second
       Waitstate.prefetch Waitstate.set_prefetch
       Waitstate.set_sram Waitstate.set_first Waitstate.set_second];
  vec_lookups.

(** X6.  The low byte of WAITCNT (0x04000204) reads back every byte
    written to it.  The high byte (0x04000205) keeps bits 0 to 2 and
    bit 6 of the byte written, drops bits 3 to 5 and always reads with
    bit 7 set.  A write to one of the two bytes does not change what
    the other reads. *)
Theorem WAITCNT_round_trip {B : Type} {backup : GBABackup B}
    (m : GBAMemory B) (v : Z) :
  ReadByte (WriteByte m 0x04000204 v) 0x04000204 = u8 v /\
  ReadByte (WriteByte m 0x04000205 v) 0x04000205 = Z.lor (Z.land (u8 v) 0x47) 0x80 /\
  ReadByte (WriteByte m 0x04000204 v) 0x04000205 = ReadByte m 0x04000205 /\
  ReadByte (WriteByte m 0x04000205 v) 0x04000204 = ReadByte m 0x04000204.
Proof.
  rewrite WriteByte_WAITCNT, WriteByte_WAITCNT_1, !ReadByte_WAITCNT, !ReadByte_WAITCNT_1.
  pose proof (u8_range v) as Hb. set (b := u8 v) in *. clearbody b.
  split; [|split; [|split]].
  - waitstate_fields.
    enough (H : forall x, 0 <= x < 2 ^ 8 ->
      (u8 (Z.lor (Z.lor (Z.lor (Z.lor (Z.land x 3) (Z.shiftl (Z.land (Z.shiftr x 2) 3) 2))
         (Z.shiftl (Z.land (Z.shiftr x 4) 1) 4)) (Z.shiftl (Z.land (Z.shiftr x 5) 3) 5))
         (Z.shiftl (Z.shiftr x 7) 7)) =? x) = true).
    { apply Z.eqb_eq. exact (H b Hb). }
    apply (byte_cases (fun x => _ =? x)). vm_compute. reflexivity.
  - waitstate_fields.
    enough (H : forall x, 0 <= x < 2 ^ 8 ->
      (u8 (Z.lor (Z.lor (Z.lor (Z.land x 3) (Z.shiftl (Z.land (Z.shiftr x 2) 1) 2))
         (flag (bit x 64) 64)) (Z.shiftl 1 7)) =? Z.lor (Z.land x 0x47) 0x80) = true).
    { apply Z.eqb_eq. exact (H b Hb). }
    apply (byte_cases (fun x => _ =? _)). vm_compute. reflexivity.
  - waitstate_fields. reflexivity.
  - waitstate_fields. reflexivity.
Qed.

(** ** Timer registers read back *)

Section TimerRegisters.
Context {B : Type} {backup : GBABackup B}.
Implicit Types m : GBAMemory B.

Lemma ReadByte_TMnCNT_H m n :
  ReadByte m (0x04000000 + TMnCNT_H n) =
  let t := m_Timer m !!! n in
  u8 (Z.lor (Z.lor (Z.lor (Timer.clock t)
        (flag (Timer.countup t) 4))
        (flag (Timer.interrupt t) 64))
        (flag (Timer.enable t) 128)).
Proof. each_of_four n; reflexivity. Qed.

Lemma WriteByte_TMnCNT_H m n value :
  WriteByte m (0x04000000 + TMnCNT_H n) value =
  set_m_Timer (vinsert n (write_TMCNT_H (u8 value) (m_Timer m !!! n)) (m_Timer m)) m.
Proof. each_of_four n; reflexivity. Qed.

Lemma ReadHWord_TMnCNT_L m n :
  ReadHWord m (0x04000000 + TMnCNT_L n) =
  let c := Timer.count (m_Timer m !!! n) in
  u16 (Z.lor (u8 (Z.land c 0xFF)) (Z.shiftl (u8 (Z.shiftr c 8)) 8)).
Proof. each_of_four n; reflexivity. Qed.

End TimerRegisters.

(** X7.  The control byte of timer n (TMnCNT_H) reads back the byte
    written to it with bits 3 to 5 cleared: prescaler, count-up,
    interrupt and enable.  A halfword read of TMnCNT_L gives the count
    of the timer, not its reload value, so a halfword write to TMnCNT_L
    followed by a halfword read there gives what the read gave before
    the write. *)
Theorem timer_registers {B : Type} {backup : GBABackup B}
    (m : GBAMemory B) (n : fin 4) (v : Z) :
  let control := 0x04000000 + TMnCNT_H n in
  let counter := 0x04000000 + TMnCNT_L n in
  ReadByte (WriteByte m control v) control = Z.land (u8 v) 0xC7 /\
  ReadHWord (WriteHWord m counter v) counter = ReadHWord m counter /\
  (0 <= Timer.count (m_Timer m !!! n) < 2 ^ 16 ->
     ReadHWord m counter = Timer.count (m_Timer m !!! n)).
Proof.
  cbv zeta. split; [|split].
  - rewrite WriteByte_TMnCNT_H, ReadByte_TMnCNT_H. cbv zeta.
    cbn [m_Timer set_m_Timer]. rewrite vlookup_insert.
    unfold write_TMCNT_H. cbv zeta.
    cbn [Timer.clock Timer.countup Timer.interrupt Timer.enable Timer.set_clock
         Timer.set_countup Timer.set_interrupt Timer.set_enable].
    pose proof (u8_range v) as Hb. set (b := u8 v) in *. clearbody b.
    enough (H : forall x, 0 <= x < 2 ^ 8 ->
      (u8 (Z.lor (Z.lor (Z.lor (Z.land x 3) (flag (bit x 4) 4)) (flag (bit x 64) 64))
         (flag (bit x 128) 128)) =? Z.land x 0xC7) = true).
    { apply Z.eqb_eq. exact (H b Hb). }
    apply (byte_cases (fun x => _ =? _)). vm_compute. reflexivity.
  - rewrite !ReadHWord_TMnCNT_L. cbv zeta.
    pose proof (WriteHWord_counts m (0x04000000 + TMnCNT_L n) v) as Hc.
    unfold timer_counts in Hc.
    apply (f_equal (fun c => c !!! n)) in Hc. rewrite !vlookup_map in Hc.
    rewrite Hc. reflexivity.
  - intros Hrange. rewrite ReadHWord_TMnCNT_L. cbv zeta.
    set (c := Timer.count (m_Timer m !!! n)) in *.
    change 0xFF with (Z.ones 8). unfold u8.
    rewrite Z.land_ones, Z.shiftr_div_pow2 by lia.
    rewrite Z.mod_mod by lia.
    pose proof (Z.mod_pos_bound c (2 ^ 8) ltac:(lia)).
    assert (0 <= c / 2 ^ 8 < 2 ^ 8).
    { split; [apply Z.div_pos; lia | apply Z.div_lt_upper_bound; lia]. }
    rewrite (Z.mod_small (c / 2 ^ 8)) by lia.
    rewrite lor_shiftl_add by lia.
    pose proof (Z.div_mod c (2 ^ 8) ltac:(lia)).
    rewrite u16_small by lia. lia.
Qed.

Lemma timer_registers_witness :
  let m := WriteWord power_on 0x04000104 0x0080ABCD in
  0 <= Timer.count (m_Timer m !!! 1%fin) < 2 ^ 16 /\
  ReadHWord m 0x04000104 = 0xABCD /\
  ReadHWord (WriteHWord m 0x04000104 0x1234) 0x04000104 = 0xABCD /\
  ReadByte (WriteByte m 0x04000106 0xFF) 0x04000106 = 0xC7.
Proof.
  cbv zeta.
  destruct (timer_registers (WriteWord power_on 0x04000104 0x0080ABCD) 1%fin 0x1234)
    as (_ & Hkeep & Hread).
  destruct (timer_registers (WriteWord power_on 0x04000104 0x0080ABCD) 1%fin 0xFF)
    as (Hctl & _).
  assert (Hr : 0 <= Timer.count (m_Timer (WriteWord power_on 0x04000104 0x0080ABCD) !!! 1%fin)
               < 2 ^ 16) by (vm_compute; split; [discriminate | reflexivity]).
  split; [exact Hr|].
  split; [exact (eq_trans (Hread Hr) eq_refl)|].
  split; [exact (eq_trans Hkeep (eq_trans (Hread Hr) eq_refl))|].
  exact Hctl.
Defined.

(** ** What the timers leave alone *)

Section TimerFrame.
Context {B : Type} {backup : GBABackup B}.
Implicit Types m : GBAMemory B.

Lemma with_timers_of_trans m1 m2 m3 :
  m2 = with_timers_of m2 m1 -> m3 = with_timers_of m3 m2 -> m3 = with_timers_of m3 m1.
Proof.
  intros H12 H23. rewrite H23 at 1. rewrite H12 at 1.
  destruct m1, m2, m3. reflexivity.
Qed.

Lemma RunTimer_iteration_frame (s : GBAMemory B * bool) (i : Z) :
  0 <= i <= 3 ->
  fst (RunTimer_iteration s i) = with_timers_of (fst (RunTimer_iteration s i)) (fst s) /\
  vmap timer_settings (m_Timer (fst (RunTimer_iteration s i))) =
    vmap timer_settings (m_Timer (fst s)).
Proof.
  intros Hi. destruct s as [m ov].
  destruct m as [rom romsize bios wram iram bk st dma tm ws irq halt video didt cyc key].
  destruct irq as [e f g].
  inv_vec tm. intros t0 t1 t2 t3.
  destruct t0 as [c0 r0 cl0 tk0 en0 cu0 it0 ov0], t1 as [c1 r1 cl1 tk1 en1 cu1 it1 ov1],
           t2 as [c2 r2 cl2 tk2 en2 cu2 it2 ov2], t3 as [c3 r3 cl3 tk3 en3 cu3 it3 ov3].
  assert (Hc : i = 0 \/ i = 1 \/ i = 2 \/ i = 3) by lia.
  destruct Hc as [-> | [-> | [-> | ->]]];
    unfold RunTimer_iteration, timer_due, with_timers_of; cbn -[Z.shiftl];
    repeat (match goal with
            | |- context [if ?b then _ else _] => destruct b
            end; cbn -[Z.shiftl]);
    split; reflexivity.
Qed.

Lemma RunTimer_iteration_disabled (s : GBAMemory B * bool) (i : Z) :
  Timer.enable (m_Timer (fst s) !!! idx4 i) = false ->
  RunTimer_iteration s i = s.
Proof.
  intros Hen. destruct s as [m ov]. unfold RunTimer_iteration.
  cbn [fst] in Hen. rewrite Hen. reflexivity.
Qed.

End TimerFrame.

Section TimerRun.
Context {B : Type} {backup : GBABackup B}.
Implicit Types m : GBAMemory B.

Lemma RunTimer_unfold m :
  RunTimer m =
  fst (RunTimer_iteration (RunTimer_iteration (RunTimer_iteration
         (RunTimer_iteration (m, false) 0) 1) 2) 3).
Proof. reflexivity. Qed.

Lemma RunTimer_frame m :
  RunTimer m = with_timers_of (RunTimer m) m /\
  vmap timer_settings (m_Timer (RunTimer m)) = vmap timer_settings (m_Timer m).
Proof.
  rewrite RunTimer_unfold.
  set (s1 := RunTimer_iteration (m, false) 0).
  set (s2 := RunTimer_iteration s1 1).
  set (s3 := RunTimer_iteration s2 2).
  destruct (RunTimer_iteration_frame (m, false) 0 ltac:(lia)) as (F1 & S1).
  destruct (RunTimer_iteration_frame s1 1 ltac:(lia)) as (F2 & S2).
  destruct (RunTimer_iteration_frame s2 2 ltac:(lia)) as (F3 & S3).
  destruct (RunTimer_iteration_frame s3 3 ltac:(lia)) as (F4 & S4).
  fold s1 in F1, S1. fold s2 in F2, S2. fold s3 in F3, S3.
  cbn [fst] in F1, S1. split.
  - apply (with_timers_of_trans m (fst s3)); [|exact F4].
    apply (with_timers_of_trans m (fst s2)); [|exact F3].
    apply (with_timers_of_trans m (fst s1)); [exact F1 | exact F2].
  - rewrite S4, S3, S2, S1. reflexivity.
Qed.

Lemma RunTimer_disabled m (i : Z) :
  0 <= i <= 3 -> Timer.enable (m_Timer m !!! idx4 i) = false ->
  m_Timer (RunTimer m) !!! idx4 i = m_Timer m !!! idx4 i.
Proof.
  intros Hi Hen.
  rewrite (RunTimer_timer_final m i Hi), (RunTimer_upto_next m i Hi).
  pose proof (RunTimer_upto_later m i i ltac:(lia) ltac:(lia)) as Ht.
  rewrite RunTimer_iteration_disabled by (rewrite Ht; exact Hen).
  exact Ht.
Qed.

Lemma RunTimer_all_disabled m :
  (forall i, 0 <= i <= 3 -> Timer.enable (m_Timer m !!! idx4 i) = false) ->
  RunTimer m = m.
Proof.
  intros Hall. rewrite RunTimer_unfold.
  rewrite (RunTimer_iteration_disabled (m, false) 0) by (apply Hall; lia).
  rewrite (RunTimer_iteration_disabled (m, false) 1) by (apply Hall; lia).
  rewrite (RunTimer_iteration_disabled (m, false) 2) by (apply Hall; lia).
  rewrite (RunTimer_iteration_disabled (m, false) 3) by (apply Hall; lia).
  reflexivity.
Qed.

Lemma RunTimer_IF_monotone m b :
  0 <= b < 16 ->
  Z.testbit (if_ (m_Interrupt m)) b = true ->
  Z.testbit (if_ (m_Interrupt (RunTimer m))) b = true.
Proof.
  intros Hb H. rewrite RunTimer_unfold.
  do 4 (apply RunTimer_iteration_IF_kept; [lia | exact Hb |]).
  exact H.
Qed.

End TimerRun.

(** X8.  [RunTimer] changes nothing of the bus state but the timers
    and the interrupt flag register IF.  Of a timer it changes neither
    reload value, prescaler, enable, count-up nor interrupt setting; a
    disabled timer is left as it is.  No bit of IF is cleared.  With
    all four timers disabled the call changes nothing. *)
Theorem RunTimer_changes_counters_and_flags_only {B : Type} {backup : GBABackup B}
    (m : GBAMemory B) :
  RunTimer m = with_timers_of (RunTimer m) m /\
  vmap timer_settings (m_Timer (RunTimer m)) = vmap timer_settings (m_Timer m) /\
  (forall i, 0 <= i <= 3 -> Timer.enable (m_Timer m !!! idx4 i) = false ->
     m_Timer (RunTimer m) !!! idx4 i = m_Timer m !!! idx4 i) /\
  (forall b, 0 <= b < 16 -> Z.testbit (if_ (m_Interrupt m)) b = true ->
     Z.testbit (if_ (m_Interrupt (RunTimer m))) b = true) /\
  ((forall i, 0 <= i <= 3 -> Timer.enable (m_Timer m !!! idx4 i) = false) ->
     RunTimer m = m).
Proof.
  split; [apply RunTimer_frame|].
  split; [apply RunTimer_frame|].
  split; [apply RunTimer_disabled|].
  split; [intros b; apply RunTimer_IF_monotone | apply RunTimer_all_disabled].
Qed.

Lemma RunTimer_changes_counters_and_flags_only_witness :
  RunTimer irq_sample = irq_sample /\
  Z.testbit (if_ (m_Interrupt (RunTimer irq_sample))) 3 = true /\
  m_Timer (RunTimer timer_sample) !!! 1%fin = m_Timer timer_sample !!! 1%fin.
Proof.
  destruct (RunTimer_changes_counters_and_flags_only irq_sample)
    as (_ & _ & _ & Hif & Hid).
  destruct (RunTimer_changes_counters_and_flags_only timer_sample)
    as (_ & _ & Hdis & _).
  split.
  - apply Hid. intros i Hi.
    assert (Hc : i = 0 \/ i = 1 \/ i = 2 \/ i = 3) by lia.
    destruct Hc as [-> | [-> | [-> | ->]]]; reflexivity.
  - split; [apply Hif; [lia | reflexivity]|].
    apply (Hdis 1); [lia | reflexivity].
Defined.

(** ** The prescaler *)

Section Prescaler.
Context {B : Type} {backup : GBABackup B}.
Implicit Types m : GBAMemory B.

(** The iteration of an enabled timer that counts prescaler ticks. *)
Lemma RunTimer_iteration_prescaled (s : GBAMemory B * bool) (i : Z) :
  0 <= i <= 3 ->
  let t := m_Timer (fst s) !!! idx4 i in
  Timer.enable t = true -> Timer.countup t = false ->
  m_Timer (fst (RunTimer_iteration s i)) !!! idx4 i =
  if tmr_cycles !!! idx4 (Timer.clock t) <=? Timer.ticks t + 1 then
    if Timer.count t =? 0xFFFF
    then Timer.set_count (Timer.reload t) (Timer.set_ticks 0 t)
    else Timer.set_count (u16 (Timer.count t + 1)) (Timer.set_ticks 0 t)
  else Timer.set_ticks (Timer.ticks t + 1) t.
Proof.
  intros Hi. destruct s as [m ov].
  destruct m as [rom romsize bios wram iram bk st dma tm ws irq halt video didt cyc key].
  inv_vec tm. intros t0 t1 t2 t3.
  assert (Hc : i = 0 \/ i = 1 \/ i = 2 \/ i = 3) by lia.
  destruct Hc as [-> | [-> | [-> | ->]]]; cbv zeta;
    unfold RunTimer_iteration, timer_due; cbn -[Z.shiftl tmr_cycles].
  all: match goal with
       | |- Timer.enable ?t = true -> _ => destruct t as [c r cl tk en cu it ovf]
       end; cbn -[Z.shiftl tmr_cycles].
  all: intros -> ->; cbn -[Z.shiftl tmr_cycles].
  all: destruct (_ <=? tk + 1); cbn -[Z.shiftl tmr_cycles]; [|reflexivity].
  all: destruct (c =? 0xFFFF); cbn -[Z.shiftl tmr_cycles]; [|reflexivity].
  all: destruct it; reflexivity.
Qed.

Lemma RunTimer_prescaled m (i : Z) :
  0 <= i <= 3 ->
  let t := m_Timer m !!! idx4 i in
  Timer.enable t = true -> Timer.countup t = false ->
  m_Timer (RunTimer m) !!! idx4 i =
  if tmr_cycles !!! idx4 (Timer.clock t) <=? Timer.ticks t + 1 then
    if Timer.count t =? 0xFFFF
    then Timer.set_count (Timer.reload t) (Timer.set_ticks 0 t)
    else Timer.set_count (u16 (Timer.count t + 1)) (Timer.set_ticks 0 t)
  else Timer.set_ticks (Timer.ticks t + 1) t.
Proof.
  intros Hi. cbv zeta. intros Hen Hcu.
  rewrite (RunTimer_timer_final m i Hi), (RunTimer_upto_next m i Hi).
  pose proof (RunTimer_upto_later m i i ltac:(lia) ltac:(lia)) as Ht.
  rewrite <- Ht in Hen, Hcu |- *.
  apply (RunTimer_iteration_prescaled _ i Hi Hen Hcu).
Qed.

Lemma tmr_cycles_positive k : 1 <= tmr_cycles !!! idx4 k.
Proof.
  generalize (idx4 k). intros n. each_of_four n; vm_compute; discriminate.
Qed.

(** While the ticks stay below the prescaler, calls of [RunTimer] only
    count them. *)
Lemma prescaler_counts m (i : Z) (k : nat) :
  0 <= i <= 3 ->
  let t := m_Timer m !!! idx4 i in
  Timer.enable t = true -> Timer.countup t = false ->
  Timer.ticks t + Z.of_nat k < tmr_cycles !!! idx4 (Timer.clock t) ->
  m_Timer (Nat.iter k RunTimer m) !!! idx4 i =
  Timer.set_ticks (Timer.ticks t + Z.of_nat k) t.
Proof.
  intros Hi. cbv zeta. intros Hen Hcu. induction k as [|k IH]; intros Hk.
  - change (Nat.iter 0 RunTimer m) with m. change (Z.of_nat 0) with 0. rewrite Z.add_0_r.
    destruct (m_Timer m !!! idx4 i). reflexivity.
  - change (Nat.iter (S k) RunTimer m) with (RunTimer (Nat.iter k RunTimer m)).
    rewrite RunTimer_prescaled by (rewrite ?IH by lia; assumption).
    rewrite IH by lia.
    cbn [Timer.clock Timer.ticks Timer.count Timer.set_ticks].
    destruct (Z.leb_spec (tmr_cycles !!! idx4 (Timer.clock (m_Timer m !!! idx4 i)))
                (Timer.ticks (m_Timer m !!! idx4 i) + Z.of_nat k + 1)); [lia|].
    replace (Timer.ticks (m_Timer m !!! idx4 i) + Z.of_nat k + 1)
      with (Timer.ticks (m_Timer m !!! idx4 i) + Z.of_nat (S k)) by lia.
    destruct (m_Timer m !!! idx4 i). reflexivity.
Qed.

End Prescaler.

(** X9.  An enabled timer that is not in count-up mode, with no ticks
    counted and a count below 0xFFFF, is advanced by every P-th call of
    [RunTimer], P = 1, 64, 256 or 1024 being the cycle count of its
    prescaler setting: each of the first P - 1 calls only counts a tick,
    and the P-th call increments the count and resets the ticks to 0. *)
Theorem prescaler_divides {B : Type} {backup : GBABackup B}
    (m : GBAMemory B) (i : Z) :
  0 <= i <= 3 ->
  let t := m_Timer m !!! idx4 i in
  let P := tmr_cycles !!! idx4 (Timer.clock t) in
  Timer.enable t = true -> Timer.countup t = false ->
  Timer.ticks t = 0 -> 0 <= Timer.count t < 0xFFFF ->
  (forall k : nat, Z.of_nat k < P ->
     m_Timer (Nat.iter k RunTimer m) !!! idx4 i = Timer.set_ticks (Z.of_nat k) t) /\
  m_Timer (Nat.iter (Z.to_nat P) RunTimer m) !!! idx4 i =
    Timer.set_count (Timer.count t + 1) t.
Proof.
  intros Hi. cbv zeta. intros Hen Hcu Htk Hcount.
  pose proof (tmr_cycles_positive (Timer.clock (m_Timer m !!! idx4 i))) as HP.
  set (P := tmr_cycles !!! idx4 (Timer.clock (m_Timer m !!! idx4 i))) in *.
  assert (Hk : forall k : nat, Z.of_nat k < P ->
            m_Timer (Nat.iter k RunTimer m) !!! idx4 i =
            Timer.set_ticks (Z.of_nat k) (m_Timer m !!! idx4 i)).
  { intros k Hlt. rewrite (prescaler_counts m i k Hi Hen Hcu) by (fold P; lia).
    rewrite Htk. reflexivity. }
  split; [exact Hk|].
  replace (Z.to_nat P) with (S (Z.to_nat (P - 1))) by lia.
  change (Nat.iter (S (Z.to_nat (P - 1))) RunTimer m)
    with (RunTimer (Nat.iter (Z.to_nat (P - 1)) RunTimer m)).
  pose proof (Hk (Z.to_nat (P - 1)) ltac:(lia)) as Hlast.
  rewrite RunTimer_prescaled by (rewrite ?Hlast; assumption).
  rewrite Hlast.
  cbn [Timer.clock Timer.ticks Timer.count Timer.set_ticks].
  fold P.
  destruct (Z.leb_spec P (Z.of_nat (Z.to_nat (P - 1)) + 1)); [|lia].
  destruct (Z.eqb_spec (Timer.count (m_Timer m !!! idx4 i)) 0xFFFF); [lia|].
  rewrite u16_small by lia.
  destruct (m_Timer m !!! idx4 i). cbn in *. subst. reflexivity.
Qed.


Lemma prescaler_divides_witness :
  Timer.count (m_Timer (Nat.iter 63 RunTimer prescaler_sample) !!! 0%fin) = 0 /\
  Timer.ticks (m_Timer (Nat.iter 63 RunTimer prescaler_sample) !!! 0%fin) = 63 /\
  Timer.count (m_Timer (Nat.iter 64 RunTimer prescaler_sample) !!! 0%fin) = 1 /\
  Timer.ticks (m_Timer (Nat.iter 64 RunTimer prescaler_sample) !!! 0%fin) = 0.
Proof.
  destruct (prescaler_divides prescaler_sample 0) as (Hk & HP);
    [lia | reflexivity | reflexivity | reflexivity
    | vm_compute; split; [discriminate | reflexivity] |].
  pose proof (Hk 63%nat eq_refl) as H63.
  change (idx4 0) with (0%fin : fin 4) in H63, HP.
  change (Z.to_nat _) with 64%nat in HP.
  rewrite H63, HP. repeat split.
Defined.

(** ** What the video unit leaves alone *)

Lemma raise_spec bit irq b :
  0 <= b < 16 ->
  Z.testbit (if_ (raise bit irq)) b = Z.testbit (if_ irq) b || Z.testbit bit b.
Proof.
  intros Hb. unfold raise. cbn [if_ set_if_]. unfold u16.
  rewrite Z.mod_pow2_bits_low by lia. apply Z.lor_spec.
Qed.

Lemma video_flags_raised_refl irq : video_flags_raised irq irq.
Proof. split; [reflexivity|]. split; [reflexivity|]. intros b _. split; auto. Qed.

Lemma video_flags_raised_trans q1 q2 q3 :
  video_flags_raised q1 q2 -> video_flags_raised q2 q3 -> video_flags_raised q1 q3.
Proof.
  intros (E1 & M1 & H1) (E2 & M2 & H2).
  split; [congruence|]. split; [congruence|].
  intros b Hb. destruct (H1 b Hb) as (K1 & S1). destruct (H2 b Hb) as (K2 & S2).
  split; [auto|]. intros H3. rewrite S2, S1 by exact H3. reflexivity.
Qed.

Lemma video_flags_raised_raise k irq :
  0 <= k < 8 -> video_flags_raised irq (raise k irq).
Proof.
  intros Hk. split; [reflexivity|]. split; [reflexivity|].
  intros b Hb. rewrite raise_spec by exact Hb. split.
  - intros ->. reflexivity.
  - intros H3.
    assert (Z.testbit k b = false) as ->; [|apply orb_false_r].
    destruct (Z.eq_dec k 0) as [-> | Hne]; [apply Z.bits_0|].
    apply Z.bits_above_log2; [lia|].
    apply Z.lt_le_trans with 3; [|lia].
    apply Z.log2_lt_pow2; lia.
Qed.

Lemma Step_programmed v irq :
  video_programmed (fst (Step v irq)) = video_programmed v.
Proof.
  destruct v as [bg ob wi wo ow t s rs pal vr oa hd vd c vm fs fb vf vi hi ci cs].
  inv_vec bg. intros b0 b1 b2 b3.
  unfold Step, video_programmed. cbn.
  destruct s; cbn.
  - destruct (960 <=? t + 1); cbn; reflexivity.
  - destruct (272 <=? t + 1); cbn; [|reflexivity].
    destruct (u16 (c + 1) =? 160); cbn; [|reflexivity].
    destruct b2, b3. reflexivity.
  - destruct (1232 <=? t + 1); cbn; [|reflexivity].
    destruct (u16 (c + 1) =? 227); cbn; reflexivity.
Qed.

Lemma Step_interrupts v irq : video_flags_raised irq (snd (Step v irq)).
Proof.
  assert (Hv : video_flags_raised irq (raise VCOUNT_INTERRUPT irq))
    by (apply video_flags_raised_raise; vm_compute; split; [discriminate|reflexivity]).
  assert (Hh : video_flags_raised irq (raise HBLANK_INTERRUPT irq))
    by (apply video_flags_raised_raise; vm_compute; split; [discriminate|reflexivity]).
  assert (Hb : forall q, video_flags_raised q (raise VBLANK_INTERRUPT q))
    by (intros q; apply video_flags_raised_raise; vm_compute;
        split; [discriminate|reflexivity]).
  pose proof (video_flags_raised_refl irq) as Hr.
  destruct v as [bg ob wi wo ow t s rs pal vr oa hd vd c vm fs fb vf vi hi ci cs].
  unfold Step. cbn.
  destruct s; cbn.
  - destruct (960 <=? t + 1); cbn; [|exact Hr].
    destruct hi; [exact Hh | exact Hr].
  - destruct (272 <=? t + 1); cbn; [|exact Hr].
    destruct (u16 (c + 1) =? 160); cbn.
    + destruct vi, ((c =? cs) && ci); cbn.
      * apply (video_flags_raised_trans _ (raise VCOUNT_INTERRUPT irq)); [exact Hv | apply Hb].
      * apply Hb.
      * exact Hv.
      * exact Hr.
    + destruct ((c =? cs) && ci); cbn; [exact Hv | exact Hr].
  - destruct (1232 <=? t + 1); cbn; [|exact Hr].
    destruct ((c =? cs) && ci); cbn;
      destruct (u16 (c + 1) =? 227); cbn; first [exact Hv | exact Hr].
Qed.

(** X10.  However many times [Step] is called, it changes neither
    palette RAM, VRAM or OAM, nor a display register that the bus
    programs (the background registers apart from the latched reference
    points, object, window, mode, frame and blanking settings, the
    interrupt enables of DISPSTAT and the VCount setting).  Of the
    interrupt registers it changes only IF, where it clears no bit and
    changes none of the bits 3 to 15; IE and IME are as before. *)
Theorem Step_reads_what_the_bus_programs (n : N) (v : GBAVideo) (irq : GBAInterrupt) :
  video_programmed (fst (Steps n (v, irq))) = video_programmed v /\
  video_flags_raised irq (snd (Steps n (v, irq))).
Proof.
  induction n as [|n [IH1 IH2]] using N.peano_ind.
  - split; [reflexivity | apply video_flags_raised_refl].
  - rewrite Steps_succ. split.
    + rewrite Step_programmed. exact IH1.
    + apply (video_flags_raised_trans _ _ _ IH2), Step_interrupts.
Qed.

(** ** The render flag *)

(** When [Step] asks for a scanline to be rendered. *)
Lemma Step_render v irq :
  let v' := fst (Step v irq) in
  m_RenderScanline v' =
    match m_State v with
    | Scanline => 960 <=? m_Ticks v + 1
    | _ => false
    end /\
  (m_RenderScanline v' = true ->
     m_State v' = HBlank /\ m_VCount v' = m_VCount v /\ m_HBlankDMA v' = true).
Proof.
  destruct v as [bg ob wi wo ow t s rs pal vr oa hd vd c vm fs fb vf vi hi ci cs].
  unfold Step. cbn.
  destruct s; cbn.
  - destruct (960 <=? t + 1); cbn; [auto|]. split; [reflexivity | discriminate].
  - destruct (272 <=? t + 1); cbn; [|split; [reflexivity | discriminate]].
    destruct (u16 (c + 1) =? 160); cbn; split; (reflexivity || discriminate).
  - destruct (1232 <=? t + 1); cbn; [|split; [reflexivity | discriminate]].
    destruct (u16 (c + 1) =? 227); cbn; split; (reflexivity || discriminate).
Qed.

(** X11.  From the start of a frame, the call of [Step] number n + 1
    leaves the render flag set exactly when it is the 960th call of a
    line (n mod 1232 = 959) and the line is one of the 160 visible ones
    of the 227 of a frame; every other call leaves it clear.  When the
    flag is set the unit has just entered HBlank, VCOUNT is the number
    of that line and the HBlank DMA flag is set with it. *)
Theorem scanline_rendered_once_per_visible_line n v irq :
  frame_start v ->
  let v' := fst (Steps (N.succ n) (v, irq)) in
  let line := (Z.of_N n / 1232) mod 227 in
  m_RenderScanline v' = (Z.of_N n mod 1232 =? 959) && (line <? 160) /\
  (m_RenderScanline v' = true ->
     m_State v' = HBlank /\ m_VCount v' = line /\ m_HBlankDMA v' = true).
Proof.
  intros Hstart. cbv zeta. rewrite Steps_succ.
  destruct (Steps_phase n v irq Hstart) as [Hc Hst]. cbv zeta in Hst.
  set (w := fst (Steps n (v, irq))) in *.
  destruct (Step_render w (snd (Steps n (v, irq)))) as (Hflag & Hon).
  cbv zeta in Hflag, Hon.
  pose proof (Z.mod_pos_bound (Z.of_N n) 1232 ltac:(lia)) as Hd.
  split.
  - rewrite Hflag.
    destruct (Z.ltb_spec ((Z.of_N n / 1232) mod 227) 160).
    + rewrite andb_true_r.
      destruct (Z.ltb_spec (Z.of_N n mod 1232) 960); destruct Hst as [Hs Ht]; rewrite Hs.
      * rewrite Ht.
        destruct (Z.leb_spec 960 (Z.of_N n mod 1232 + 1));
          destruct (Z.eqb_spec (Z.of_N n mod 1232) 959); (reflexivity || lia).
      * destruct (Z.eqb_spec (Z.of_N n mod 1232) 959); (reflexivity || lia).
    + rewrite andb_false_r. destruct Hst as [Hs _]. rewrite Hs. reflexivity.
  - intros Htrue. destruct (Hon Htrue) as (Hs & Hv & Hdma).
    rewrite Hv, Hc. auto.
Qed.

Lemma scanline_rendered_once_per_visible_line_witness :
  let s := (Video.init, Build_GBAInterrupt 0 0 0) in
  frame_start Video.init /\
  m_RenderScanline (fst (Steps 960 s)) = true /\
  m_State (fst (Steps 960 s)) = HBlank /\
  m_VCount (fst (Steps 960 s)) = 0 /\
  m_RenderScanline (fst (Steps 961 s)) = false.
Proof.
  cbv zeta.
  assert (Hstart : frame_start Video.init) by (repeat split).
  destruct (scanline_rendered_once_per_visible_line 959 Video.init
              (Build_GBAInterrupt 0 0 0) Hstart) as (Hflag & Hon).
  destruct (scanline_rendered_once_per_visible_line 960 Video.init
              (Build_GBAInterrupt 0 0 0) Hstart) as (Hoff & _).
  split; [exact Hstart|].
  split; [exact Hflag|].
  destruct (Hon Hflag) as (Hs & Hv & _).
  split; [exact Hs|]. split; [exact Hv | exact Hoff].
Defined.

(** ** The cycle tables of the CPU *)

Lemma set16_other a q v c a' p :
  p <> q -> CPU.cycles16 (CPU.set16 a q v c) a' p = CPU.cycles16 c a' p.
Proof.
  intros Hp. unfold CPU.set16. cbn [CPU.cycles16].
  destruct (Z.eqb_spec p q); [contradiction|]. rewrite andb_false_r. reflexivity.
Qed.

Lemma set32_other a q v c a' p :
  p <> q -> CPU.cycles32 (CPU.set32 a q v c) a' p = CPU.cycles32 c a' p.
Proof.
  intros Hp. unfold CPU.set32. cbn [CPU.cycles32].
  destruct (Z.eqb_spec p q); [contradiction|]. rewrite andb_false_r. reflexivity.
Qed.

Lemma set16_cycles32 a q v c : CPU.cycles32 (CPU.set16 a q v c) = CPU.cycles32 c.
Proof. reflexivity. Qed.

Lemma set32_cycles16 a q v c : CPU.cycles16 (CPU.set32 a q v c) = CPU.cycles16 c.
Proof. reflexivity. Qed.

Ltac skip_entries :=
  repeat first
    [ rewrite set16_cycles32
    | rewrite set32_cycles16
    | rewrite set16_other by lia
    | rewrite set32_other by lia ].

Lemma UpdateCycleLUT_iteration_other16 c i a p :
  0 <= i <= 1 -> p < 0x8 \/ 0xE <= p ->
  CPU.cycles16 (CPU.UpdateCycleLUT_iteration c i) a p = CPU.cycles16 c a p.
Proof.
  intros Hi Hp. unfold CPU.UpdateCycleLUT_iteration. cbv zeta.
  skip_entries. reflexivity.
Qed.

Lemma UpdateCycleLUT_iteration_other32 c i a p :
  0 <= i <= 1 -> p < 0x8 \/ 0xE <= p ->
  CPU.cycles32 (CPU.UpdateCycleLUT_iteration c i) a p = CPU.cycles32 c a p.
Proof.
  intros Hi Hp. unfold CPU.UpdateCycleLUT_iteration. cbv zeta.
  skip_entries. reflexivity.
Qed.

Lemma UpdateCycleLUT_other_pages c a p :
  p < 0x8 \/ 0xE < p ->
  CPU.cycles16 (CPU.UpdateCycleLUT c) a p = CPU.cycles16 c a p /\
  CPU.cycles32 (CPU.UpdateCycleLUT c) a p = CPU.cycles32 c a p.
Proof.
  intros Hp. unfold CPU.UpdateCycleLUT. cbv zeta. cbn [fold_left].
  rewrite !UpdateCycleLUT_iteration_other16, !UpdateCycleLUT_iteration_other32 by lia.
  split; skip_entries; reflexivity.
Qed.

Ltac closed_entries :=
  unfold CPU.UpdateCycleLUT, CPU.UpdateCycleLUT_iteration, CPU.set16, CPU.set32;
  cbn [fold_left CPU.cycles16 CPU.cycles32 CPU.waitcnt CPU.same_type andb];
  decide_conditions.

Lemma UpdateCycleLUT_waitcnt c : CPU.waitcnt (CPU.UpdateCycleLUT c) = CPU.waitcnt c.
Proof. reflexivity. Qed.

Lemma UpdateCycleLUT_sram c a :
  let cost := 1 + CPU.s_ws_nseq !!! idx4 (CPU.sram (CPU.waitcnt c)) in
  CPU.cycles16 (CPU.UpdateCycleLUT c) a 0xE = cost /\
  CPU.cycles32 (CPU.UpdateCycleLUT c) a 0xE = cost.
Proof.
  cbv zeta. unfold CPU.UpdateCycleLUT. cbv zeta. cbn [fold_left].
  rewrite !UpdateCycleLUT_iteration_other16, !UpdateCycleLUT_iteration_other32 by lia.
  destruct a; split; reflexivity.
Qed.

(** X12.  [CPU::UpdateCycleLUT] leaves the waitstate register and the
    table entries of every region below 8 or above 0xE as they are.
    In the ROM regions 8 to 0xD the 32-bit costs follow from the 16-bit
    ones: the non-sequential 32-bit cost is the non-sequential plus the
    sequential 16-bit cost, the sequential 32-bit cost twice the
    sequential 16-bit cost.  Each odd ROM region has the costs of the
    even one below it.  The four costs of region 0xE are equal.  A
    second call changes no entry. *)
Theorem UpdateCycleLUT_tables_consistent (c : CPU.CPU) :
  let c' := CPU.UpdateCycleLUT c in
  let n16 := CPU.cycles16 c' CPU.ACCESS_NSEQ in
  let s16 := CPU.cycles16 c' CPU.ACCESS_SEQ in
  let n32 := CPU.cycles32 c' CPU.ACCESS_NSEQ in
  let s32 := CPU.cycles32 c' CPU.ACCESS_SEQ in
  CPU.waitcnt c' = CPU.waitcnt c /\
  (forall a p, p < 0x8 \/ 0xE < p ->
     CPU.cycles16 c' a p = CPU.cycles16 c a p /\
     CPU.cycles32 c' a p = CPU.cycles32 c a p) /\
  (forall p, 0x8 <= p <= 0xD ->
     n32 p = n16 p + s16 p /\ s32 p = s16 p * 2) /\
  (forall p, p = 0x8 \/ p = 0xA \/ p = 0xC ->
     n16 (p + 1) = n16 p /\ s16 (p + 1) = s16 p /\
     n32 (p + 1) = n32 p /\ s32 (p + 1) = s32 p) /\
  (n16 0xE = s16 0xE /\ n32 0xE = n16 0xE /\ s32 0xE = n16 0xE) /\
  (forall a p,
     CPU.cycles16 (CPU.UpdateCycleLUT c') a p = CPU.cycles16 c' a p /\
     CPU.cycles32 (CPU.UpdateCycleLUT c') a p = CPU.cycles32 c' a p).
Proof.
  cbv zeta.
  pose proof (UpdateCycleLUT_rom c) as Hrom. cbv zeta in Hrom.
  destruct Hrom as (H8 & HA & HC).
  assert (Hpages : forall p, 0x8 <= p <= 0xD ->
            (p = 8 \/ p = 9) \/ (p = 0xA \/ p = 0xB) \/ (p = 0xC \/ p = 0xD)) by lia.
  split; [apply UpdateCycleLUT_waitcnt|].
  split; [intros a p; apply UpdateCycleLUT_other_pages|].
  split.
  { intros p Hp. destruct (Hpages p Hp) as [Hq | [Hq | Hq]];
      [destruct (H8 p Hq) as (E1 & E2 & E3 & E4)
      |destruct (HA p Hq) as (E1 & E2 & E3 & E4)
      |destruct (HC p Hq) as (E1 & E2 & E3 & E4)];
      rewrite E1, E2, E3, E4; split; lia. }
  split.
  { intros p [-> | [-> | ->]].
    - destruct (H8 8 ltac:(lia)) as (E1 & E2 & E3 & E4).
      destruct (H8 (8 + 1) ltac:(lia)) as (F1 & F2 & F3 & F4).
      rewrite E1, E2, E3, E4, F1, F2, F3, F4. repeat split.
    - destruct (HA 0xA ltac:(lia)) as (E1 & E2 & E3 & E4).
      destruct (HA (0xA + 1) ltac:(lia)) as (F1 & F2 & F3 & F4).
      rewrite E1, E2, E3, E4, F1, F2, F3, F4. repeat split.
    - destruct (HC 0xC ltac:(lia)) as (E1 & E2 & E3 & E4).
      destruct (HC (0xC + 1) ltac:(lia)) as (F1 & F2 & F3 & F4).
      rewrite E1, E2, E3, E4, F1, F2, F3, F4. repeat split. }
  split.
  { destruct (UpdateCycleLUT_sram c CPU.ACCESS_NSEQ) as (E1 & E2).
    destruct (UpdateCycleLUT_sram c CPU.ACCESS_SEQ) as (F1 & F2).
    cbv zeta in E1, E2, F1, F2. rewrite E1, E2, F1, F2. repeat split. }
  intros a p.
  pose proof (UpdateCycleLUT_rom (CPU.UpdateCycleLUT c)) as Hrom'. cbv zeta in Hrom'.
  rewrite UpdateCycleLUT_waitcnt in Hrom'.
  destruct Hrom' as (G8 & GA & GC).
  assert (Hc : p < 8 \/ 0xE < p \/ 0x8 <= p <= 0xD \/ p = 0xE) by lia.
  destruct Hc as [Hp | [Hp | [Hp | ->]]].
  - apply UpdateCycleLUT_other_pages. left. exact Hp.
  - apply UpdateCycleLUT_other_pages. right. exact Hp.
  - destruct (Hpages p Hp) as [Hq | [Hq | Hq]];
      [destruct (H8 p Hq) as (E1 & E2 & E3 & E4);
       destruct (G8 p Hq) as (F1 & F2 & F3 & F4)
      |destruct (HA p Hq) as (E1 & E2 & E3 & E4);
       destruct (GA p Hq) as (F1 & F2 & F3 & F4)
      |destruct (HC p Hq) as (E1 & E2 & E3 & E4);
       destruct (GC p Hq) as (F1 & F2 & F3 & F4)];
      destruct a; rewrite ?E1, ?E2, ?E3, ?E4, ?F1, ?F2, ?F3, ?F4; split; reflexivity.
  - destruct (UpdateCycleLUT_sram c a) as (E1 & E2).
    destruct (UpdateCycleLUT_sram (CPU.UpdateCycleLUT c) a) as (F1 & F2).
    cbv zeta in E1, E2, F1, F2. rewrite UpdateCycleLUT_waitcnt in F1, F2.
    rewrite E1, E2, F1, F2. split; reflexivity.
Qed.

Lemma UpdateCycleLUT_tables_consistent_witness :
  CPU.cycles32 CPU.Reset CPU.ACCESS_NSEQ 0x9 =
    CPU.cycles16 CPU.Reset CPU.ACCESS_NSEQ 0x9 + CPU.cycles16 CPU.Reset CPU.ACCESS_SEQ 0x9 /\
  CPU.cycles16 CPU.Reset CPU.ACCESS_SEQ 0xB = CPU.cycles16 CPU.Reset CPU.ACCESS_SEQ 0xA /\
  CPU.cycles16 (CPU.UpdateCycleLUT CPU.Reset) CPU.ACCESS_SEQ 0x2 = 3.
Proof.
  destruct (UpdateCycleLUT_tables_consistent
              (CPU.Build_CPU (CPU.Build_WaitstateControl 0 0 0 0 0 0 0 0 0 0)
                 (fun _ => CPU.reset_cycles false) (fun _ => CPU.reset_cycles true)))
    as (_ & _ & Hsum & Hmirror & _).
  destruct (UpdateCycleLUT_tables_consistent CPU.Reset) as (_ & Hother & _).
  split; [exact (proj1 (Hsum 0x9 ltac:(lia)))|].
  split; [exact (proj1 (proj2 (Hmirror 0xA ltac:(lia))))|].
  exact (eq_trans (proj1 (Hother CPU.ACCESS_SEQ 0x2 ltac:(lia))) eq_refl).
Defined.

(** ** Register access by mode *)

(** X13.  For the five exception modes FIQ, SVC, Abort, IRQ and
    Undefined, [SetSavedStatusRegister] followed by
    [GetSavedStatusRegister] for the same mode gives the value set, as a
    32-bit value, and the saved status register of every other mode is
    as before.  For any other mode, User and System among them, the set
    changes nothing and the get gives 0.  Setting a saved status
    register changes neither CPSR nor a general register. *)
Theorem saved_status_register_round_trip (c : ARM7) (mode mode' value : Z) :
  (exception_mode mode ->
     GetSavedStatusRegister (SetSavedStatusRegister c mode value) mode = u32 value /\
     (mode' <> mode ->
        GetSavedStatusRegister (SetSavedStatusRegister c mode value) mode' =
        GetSavedStatusRegister c mode')) /\
  (~ exception_mode mode ->
     SetSavedStatusRegister c mode value = c /\ GetSavedStatusRegister c mode = 0) /\
  cpsr (SetSavedStatusRegister c mode value) = cpsr c /\
  regs (SetSavedStatusRegister c mode value) = regs c.
Proof.
  split; [|split; [|split]].
  - intros Hm. unfold exception_mode in Hm. cbn [In] in Hm.
    destruct Hm as [<- | [<- | [<- | [<- | [<- | []]]]]]; (split; [reflexivity|]);
      intros Hne; unfold GetSavedStatusRegister, SetSavedStatusRegister, switch, existsb;
      cbn [Z.eqb Pos.eqb orb];
      repeat match goal with
             | |- context [mode' =? ?k] =>
                 destruct (Z.eqb_spec mode' k); [first [contradiction | reflexivity]|]
             end; reflexivity.
  - intros Hm. unfold exception_mode in Hm. cbn [In] in Hm.
    unfold GetSavedStatusRegister, SetSavedStatusRegister, switch, existsb.
    repeat match goal with
           | |- context [mode =? ?k] =>
               destruct (Z.eqb_spec mode k); [exfalso; apply Hm; subst; tauto|]
           end.
    split; reflexivity.
  - unfold SetSavedStatusRegister. apply switch_ind; [reflexivity|].
    repeat (apply Forall_cons; split; [reflexivity|]). apply Forall_nil. exact I.
  - unfold SetSavedStatusRegister. apply switch_ind; [reflexivity|].
    repeat (apply Forall_cons; split; [reflexivity|]). apply Forall_nil. exact I.
Qed.

Lemma saved_status_register_round_trip_witness :
  let c := SetSavedStatusRegister cpu_sample ARM7Mode.IRQ 0x6000001F in
  GetSavedStatusRegister c ARM7Mode.IRQ = 0x6000001F /\
  GetSavedStatusRegister c ARM7Mode.SVC = 0 /\
  SetSavedStatusRegister cpu_sample ARM7Mode.System 0x6000001F = cpu_sample.
Proof.
  cbv zeta.
  destruct (saved_status_register_round_trip cpu_sample ARM7Mode.IRQ ARM7Mode.SVC 0x6000001F)
    as (Hset & _).
  destruct (saved_status_register_round_trip cpu_sample ARM7Mode.System ARM7Mode.SVC
              0x6000001F) as (_ & Hnone & _).
  destruct Hset as (Hget & Hother).
  { unfold exception_mode. cbn [In]. tauto. }
  split; [exact Hget|].
  split; [exact (eq_trans (Hother ltac:(discriminate)) eq_refl)|].
  apply Hnone. unfold exception_mode. cbn [In].
  intros [H | [H | [H | [H | [H | []]]]]]; discriminate H.
Defined.

(** The mode bits after [cpsr = (cpsr & ~0x1F) | mode]. *)
Lemma mode_bits x M :
  0 <= M < 32 -> Z.land (u32 (Z.lor (Z.land x (Z.lnot 0x1F)) (u32 M))) 0x1F = M.
Proof.
  intros HM. rewrite (u32_small M) by lia.
  rewrite u32_land, <- Z.land_assoc.
  change (Z.land (Z.ones 32) 0x1F) with (Z.ones 5).
  rewrite Z.land_lor_distr_l, <- Z.land_assoc.
  change (Z.land (Z.lnot 0x1F) (Z.ones 5)) with 0.
  rewrite Z.land_0_r, Z.lor_0_l, Z.land_ones by lia.
  apply Z.mod_small. lia.
Qed.

(** The old mode put back restores CPSR. *)
Lemma mode_bits_restored x M :
  0 <= x < 2 ^ 32 -> 0 <= M < 32 ->
  u32 (Z.lor (Z.land (u32 (Z.lor (Z.land x (Z.lnot 0x1F)) (u32 M))) (Z.lnot 0x1F))
             (u32 (Z.land x 0x1F))) = x.
Proof.
  intros Hx HM. rewrite (u32_small M) by lia.
  assert (Hlow : 0 <= Z.land x 0x1F < 32).
  { change 0x1F with (Z.ones 5). rewrite Z.land_ones by lia.
    apply Z.mod_pos_bound. lia. }
  rewrite (u32_small (Z.land x 0x1F)) by lia.
  rewrite <- (u32_small x) at 3 by lia.
  rewrite !u32_land.
  apply Z.bits_inj'. intros n Hn.
  rewrite !Z.land_spec, !Z.lor_spec, !Z.land_spec, !Z.lor_spec, !Z.land_spec.
  destruct (Z.testbit (Z.ones 32) n) eqn:H32; rewrite ?andb_false_r; [|reflexivity].
  rewrite !andb_true_r.
  destruct (Z.ltb_spec n 5) as [H5|H5].
  - assert (Hl : Z.testbit (Z.lnot 0x1F) n = false).
    { rewrite Z.lnot_spec by lia. change 0x1F with (Z.ones 5).
      rewrite Z.ones_spec_low by lia. reflexivity. }
    assert (Hh : Z.testbit 0x1F n = true).
    { change 0x1F with (Z.ones 5). apply Z.ones_spec_low. lia. }
    rewrite Hl, Hh, !andb_false_r, andb_true_r. reflexivity.
  - assert (Hl : Z.testbit (Z.lnot 0x1F) n = true).
    { rewrite Z.lnot_spec by lia. change 0x1F with (Z.ones 5).
      rewrite Z.ones_spec_high by lia. reflexivity. }
    assert (Hh : Z.testbit 0x1F n = false).
    { change 0x1F with (Z.ones 5). apply Z.ones_spec_high. lia. }
    assert (HMn : Z.testbit M n = false).
    { destruct (Z.eq_dec M 0) as [->|]; [apply Z.bits_0|].
      apply Z.bits_above_log2; [lia|].
      assert (Z.log2 M < 5) by (apply Z.log2_lt_pow2; lia). lia. }
    rewrite Hl, Hh, HMn, !andb_true_r, andb_false_r, !orb_false_r. reflexivity.
Qed.

Lemma valid_mode_range M : valid_mode M -> 0 <= M < 32.
Proof.
  unfold valid_mode. cbn [In].
  intros [<- | [<- | [<- | [<- | [<- | [<- | [<- | []]]]]]]]; vm_compute; split; congruence.
Qed.

Lemma RemapRegisters_keeps c :
  regs (RemapRegisters c) = regs c /\ cpsr (RemapRegisters c) = cpsr c /\
  spsr (RemapRegisters c) = spsr c.
Proof.
  unfold RemapRegisters. apply switch_ind; [repeat split|].
  repeat (apply Forall_cons; split; [repeat split|]). apply Forall_nil. exact I.
Qed.

Lemma RemapRegisters_unbanked c : unbanked (gprs (RemapRegisters c)) = unbanked (gprs c).
Proof.
  unfold RemapRegisters. apply switch_ind; [reflexivity|].
  destruct c as [rg cp sp g ps po pd pst fp lo lf lb h].
  inv_vec g. intros.
  repeat (apply Forall_cons; split; [reflexivity|]). apply Forall_nil. exact I.
Qed.

Lemma RemapRegisters_bank c c' M :
  valid_mode M -> Z.land (cpsr c) 0x1F = M -> Z.land (cpsr c') 0x1F = M ->
  unbanked (gprs c) = unbanked (gprs c') ->
  gprs (RemapRegisters c) = gprs (RemapRegisters c') /\
  pspsr (RemapRegisters c) = pspsr (RemapRegisters c').
Proof.
  intros HM Hc Hc' Hg. unfold RemapRegisters. rewrite Hc, Hc'.
  destruct c as [rg cp sp g ps po pd pst fp lo lf lb h].
  destruct c' as [rg' cp' sp' g' ps' po' pd' pst' fp' lo' lf' lb' h'].
  cbn [gprs] in Hg. clear Hc Hc'. revert Hg.
  inv_vec g. inv_vec g'. intros. 
  unfold unbanked in Hg. cbn in Hg.
  injection Hg as -> -> -> -> -> -> -> -> ->.
  unfold valid_mode in HM. cbn [In] in HM.
  destruct HM as [<- | [<- | [<- | [<- | [<- | [<- | [<- | []]]]]]]]; split; reflexivity.
Qed.

Lemma banked_of c c' M x r :
  valid_mode M -> Z.land x 0x1F = M -> unbanked (gprs c') = unbanked (gprs c) ->
  gprs (RemapRegisters (set_cpsr x c')) !!! r = banked c M r.
Proof.
  intros HM Hx Hg. unfold banked.
  rewrite (proj1 (RemapRegisters_bank (set_cpsr x c') (set_cpsr (u32 M) c) M HM Hx
    ltac:(cbn [cpsr set_cpsr]; rewrite u32_small by (apply valid_mode_range in HM; lia);
          apply valid_mode_range in HM; change 0x1F with (Z.ones 5);
          rewrite Z.land_ones by lia; apply Z.mod_small; lia)
    Hg)).
  reflexivity.
Qed.

Lemma GetGeneralRegister_value c M r :
  valid_mode M -> fst (GetGeneralRegister c M r) = regs c (banked c M r).
Proof.
  intros HM. unfold GetGeneralRegister. cbv zeta. cbn [fst]. unfold reg.
  rewrite (proj1 (RemapRegisters_keeps _)). cbn [regs set_cpsr].
  rewrite (banked_of c c M) by
    first [assumption | reflexivity | apply mode_bits, valid_mode_range, HM].
  reflexivity.
Qed.

Lemma SetGeneralRegister_regs c M r v :
  valid_mode M ->
  regs (SetGeneralRegister c M r v) = regs (assign (banked c M r) v c).
Proof.
  intros HM. unfold SetGeneralRegister. cbv zeta.
  rewrite (proj1 (RemapRegisters_keeps _)). cbn [regs set_cpsr assign set_regs].
  rewrite (proj1 (RemapRegisters_keeps _)). cbn [regs set_cpsr].
  rewrite (banked_of c c M) by
    first [assumption | reflexivity | apply mode_bits, valid_mode_range, HM].
  reflexivity.
Qed.

Lemma SetGeneralRegister_unbanked c M r v :
  unbanked (gprs (SetGeneralRegister c M r v)) = unbanked (gprs c).
Proof.
  unfold SetGeneralRegister. cbv zeta.
  rewrite RemapRegisters_unbanked. cbn [gprs set_cpsr assign set_regs].
  rewrite RemapRegisters_unbanked. reflexivity.
Qed.

Lemma banked_SetGeneralRegister c M r v M' r' :
  valid_mode M' ->
  banked (SetGeneralRegister c M r v) M' r' = banked c M' r'.
Proof.
  intros HM'. unfold banked at 1.
  apply (banked_of c _ M'); [assumption| |apply SetGeneralRegister_unbanked].
  apply valid_mode_range in HM'. rewrite u32_small by lia.
  change 0x1F with (Z.ones 5). rewrite Z.land_ones by lia. apply Z.mod_small. lia.
Qed.

Lemma banked_stack c M M' (r : fin 16) :
  valid_mode M -> valid_mode M' -> M <> M' ->
  ~ (In M [ARM7Mode.User; ARM7Mode.System] /\ In M' [ARM7Mode.User; ARM7Mode.System]) ->
  r = 13%fin \/ r = 14%fin ->
  banked c M r <> banked c M' r.
Proof.
  intros HM HM' Hne Hus Hr. unfold banked, RemapRegisters.
  unfold valid_mode in HM, HM'. cbn [In] in HM, HM', Hus.
  destruct c as [rg cp sp g ps po pd pst fp lo lf lb h].
  inv_vec g. intros.
  destruct HM as [<- | [<- | [<- | [<- | [<- | [<- | [<- | []]]]]]]];
    destruct HM' as [<- | [<- | [<- | [<- | [<- | [<- | [<- | []]]]]]]];
    try (exfalso; apply Hne; reflexivity);
    try (exfalso; apply Hus; split; tauto);
    destruct Hr as [-> | ->]; discriminate.
Qed.

Lemma RemapRegisters_shape c :
  RemapRegisters c =
  set_pspsr (pspsr (RemapRegisters c)) (set_gprs (gprs (RemapRegisters c)) c).
Proof.
  unfold RemapRegisters. apply switch_ind; [destruct c; reflexivity|].
  repeat (apply Forall_cons; split; [destruct c; reflexivity|]). apply Forall_nil. exact I.
Qed.

Lemma RemapRegisters_back c c1 :
  RemapRegisters c = c -> valid_mode (Z.land (cpsr c) 0x1F) ->
  cpsr c1 = cpsr c -> unbanked (gprs c1) = unbanked (gprs c) ->
  RemapRegisters c1 = set_pspsr (pspsr c) (set_gprs (gprs c) c1).
Proof.
  intros Hfix Hold Hcp Hg. rewrite (RemapRegisters_shape c1).
  destruct (RemapRegisters_bank c1 c (Z.land (cpsr c) 0x1F)) as [-> ->];
    try assumption; try reflexivity.
  - rewrite Hcp. reflexivity.
  - rewrite Hfix. reflexivity.
Qed.

(** X14.  For a mode that [RemapRegisters] knows, [GetGeneralRegister]
    gives the register member that entry r of the pointer table names in
    that mode, and [SetGeneralRegister] followed by [GetGeneralRegister]
    for the same mode and register gives the value set, as a 32-bit
    value.  A later get for any mode and register gives the value set
    when it names the same member and otherwise what it gave before the
    set.  In particular r13 and r14 set in one mode are not seen from
    another mode, User and System apart, which share all their
    registers.  When the mode bits of CPSR are a known mode and the
    pointer table is the one of that mode, the get leaves the CPU state
    as it was and the set changes the one register member only. *)
Theorem general_register_access (c : ARM7) (mode mode' : Z) (r r' : fin 16) (v : Z) :
  valid_mode mode ->
  fst (GetGeneralRegister c mode r) = regs c (banked c mode r) /\
  fst (GetGeneralRegister (SetGeneralRegister c mode r v) mode r) = u32 v /\
  (valid_mode mode' ->
     fst (GetGeneralRegister (SetGeneralRegister c mode r v) mode' r') =
     if decide (banked c mode' r' = banked c mode r) then u32 v
     else fst (GetGeneralRegister c mode' r')) /\
  (valid_mode mode' -> mode <> mode' ->
     ~ (In mode [ARM7Mode.User; ARM7Mode.System] /\
        In mode' [ARM7Mode.User; ARM7Mode.System]) ->
     r = 13%fin \/ r = 14%fin ->
     fst (GetGeneralRegister (SetGeneralRegister c mode r v) mode' r) =
     fst (GetGeneralRegister c mode' r)) /\
  banked c ARM7Mode.User r = banked c ARM7Mode.System r /\
  (valid_mode (Z.land (cpsr c) 0x1F) -> 0 <= cpsr c < 2 ^ 32 -> RemapRegisters c = c ->
     snd (GetGeneralRegister c mode r) = c /\
     SetGeneralRegister c mode r v = assign (banked c mode r) v c).
Proof.
  intros HM.
  assert (Hread : forall M' q, valid_mode M' ->
    fst (GetGeneralRegister (SetGeneralRegister c mode r v) M' q) =
    if decide (banked c M' q = banked c mode r) then u32 v
    else fst (GetGeneralRegister c M' q)).
  { intros M' q HM'. rewrite !GetGeneralRegister_value by assumption.
    rewrite SetGeneralRegister_regs by assumption.
    rewrite banked_SetGeneralRegister by assumption. reflexivity. }
  split; [apply GetGeneralRegister_value, HM|].
  split; [rewrite Hread by assumption; apply decide_True; reflexivity|].
  split; [intros HM'; apply Hread, HM'|].
  split.
  { intros HM' Hne Hus Hr. rewrite Hread by assumption.
    apply decide_False. intros Heq. symmetry in Heq. revert Heq.
    apply banked_stack; assumption. }
  split; [reflexivity|].
  intros Hold Hrange Hfix.
  split.
  - unfold GetGeneralRegister. cbv zeta. cbn [snd].
    rewrite (proj1 (proj2 (RemapRegisters_keeps _))). cbn [cpsr set_cpsr].
    rewrite mode_bits_restored by (try apply valid_mode_range; assumption).
    rewrite (RemapRegisters_back c);
      [|assumption|assumption|reflexivity
       |cbn [gprs set_cpsr]; rewrite RemapRegisters_unbanked; reflexivity].
    rewrite (RemapRegisters_shape (set_cpsr _ c)).
    destruct c; reflexivity.
  - unfold SetGeneralRegister. cbv zeta.
    cbn [cpsr assign set_regs].
    rewrite (proj1 (proj2 (RemapRegisters_keeps _))). cbn [cpsr set_cpsr].
    rewrite mode_bits_restored by (try apply valid_mode_range; assumption).
    rewrite (RemapRegisters_back c);
      [|assumption|assumption|reflexivity
       |cbn [gprs set_cpsr assign set_regs]; rewrite RemapRegisters_unbanked; reflexivity].
    rewrite (banked_of c c mode) by
      first [assumption | reflexivity | apply mode_bits, valid_mode_range, HM].
    rewrite (RemapRegisters_shape (set_cpsr _ c)).
    destruct c; reflexivity.
Qed.

Lemma general_register_access_witness :
  let c := SetGeneralRegister cpu_sample ARM7Mode.IRQ 13%fin 0x12345678 in
  fst (GetGeneralRegister c ARM7Mode.IRQ 13%fin) = 0x12345678 /\
  fst (GetGeneralRegister c ARM7Mode.User 13%fin) =
    fst (GetGeneralRegister cpu_sample ARM7Mode.User 13%fin) /\
  snd (GetGeneralRegister cpu_sample ARM7Mode.FIQ 8%fin) = cpu_sample.
Proof.
  assert (HI : valid_mode ARM7Mode.IRQ) by (unfold valid_mode; cbn [In]; tauto).
  assert (HU : valid_mode ARM7Mode.User) by (unfold valid_mode; cbn [In]; tauto).
  assert (HF : valid_mode ARM7Mode.FIQ) by (unfold valid_mode; cbn [In]; tauto).
  pose proof (general_register_access cpu_sample ARM7Mode.IRQ ARM7Mode.User
    13%fin 13%fin 0x12345678 HI) as (_ & Hrt & _ & Hbank & _).
  pose proof (general_register_access cpu_sample ARM7Mode.FIQ ARM7Mode.User
    8%fin 8%fin 0 HF) as (_ & _ & _ & _ & _ & Hback).
  split; [exact Hrt|]. split.
  - apply Hbank; [exact HU|discriminate| |left; reflexivity].
    intros [[H|[H|[]]] _]; discriminate H.
  - apply Hback.
    + vm_compute. tauto.
    + vm_compute. split; congruence.
    + reflexivity.
Defined.
